(** * Flip finder: the deal-evaluation pipeline

    A shallow embedding of the analysis core of the flip finder
    (comp filter, ARV estimator, coarse repair estimator, renovation-level
    classifier, deal evaluator and scorer) together with the properties
    that its specification states about it.

    Conventions of the embedding.
    - A Python [float] or [int] that takes part in money arithmetic is an
      exact rational of [Q]; results are compared with [==].  Where the
      rounding of binary floating point decides an outcome (the bounds of
      the comp filter, the outlier test of the ARV estimators), the
      functions are given a second time in module [float64], with every
      operation rounded as IEEE 754 binary64 rounds it.
    - A Python exception is a value of [Py.exn]; a function that can raise
      returns a [Py.result].
    - A dict that the code uses as a struct is a record; a key that the
      code reads with [d[k]] or [d.get(k, default)] and that a producer
      may leave out is an [option] field.
    - The module-level dictionaries of [config/settings.py] are mutated by
      the dashboard before each run, so every function that reads them
      takes the settings as its first argument. *)

From Stdlib Require Import Reals Lra.
From Stdlib Require Import ZArith QArith Qabs Qround Qminmax Qreals Lqa Lia.
From Stdlib Require Import List Bool String Ascii Permutation Sorted.
From Stdlib Require Import DecimalString SpecFloat.
Import ListNotations.

Open Scope Q_scope.

(* ================================================================== *)
(** * Python values and built-ins *)

Module Py.

Inductive exn : Type :=
| KeyError (key : string)
| ZeroDivisionError.

Inductive result (A : Type) : Type :=
| Ok (a : A)
| Raise (e : exn).
Arguments Ok {A} a.
Arguments Raise {A} e.

Definition bind {A B} (m : result A) (k : A -> result B) : result B :=
  match m with
  | Ok a => k a
  | Raise e => Raise e
  end.

(** [d[key]] on a dict whose entry may be missing. *)
Definition getitem {A} (key : string) (entry : option A) : result A :=
  match entry with
  | Some v => Ok v
  | None => Raise (KeyError key)
  end.

(** [d.get(key, default)]. *)
Definition get {A} (entry : option A) (default : A) : A :=
  match entry with
  | Some v => v
  | None => default
  end.

(** [x < y] and [x <= y] on numbers. *)
Definition lt (x y : Q) : bool := negb (Qle_bool y x).
Definition le (x y : Q) : bool := Qle_bool x y.

(** [x / y] on Python floats: raises on a zero divisor. *)
Definition truediv (x y : Q) : result Q :=
  if Qeq_bool y 0 then Raise ZeroDivisionError else Ok (x / y).

(** [int(x)]: truncation toward zero. *)
Definition int (x : Q) : Z := Z.quot (Qnum x) (Zpos (Qden x)).

(** [min(a, b)] and [max(a, b)]: the first argument wins a tie. *)
Definition min (a b : Q) : Q := if lt b a then b else a.
Definition max (a b : Q) : Q := if lt a b then b else a.

(** [min(xs)] and [max(xs)] on a non-empty list, scanning left to
    right from the first element. *)
Definition min_list (x : Q) (xs : list Q) : Q := fold_left min xs x.
Definition max_list (x : Q) (xs : list Q) : Q := fold_left max xs x.

(** [sum(xs)], [len(xs)]. *)
Definition sum (xs : list Q) : Q := fold_left Qplus xs 0.
Definition len {A} (xs : list A) : Q := inject_Z (Z.of_nat (List.length xs)).

(** [x in xs] for a list of strings. *)
Definition in_list (x : string) (xs : list string) : bool :=
  existsb (String.eqb x) xs.

(** [any(...)]. *)
Definition any {A} (f : A -> bool) (xs : list A) : bool := existsb f xs.

(** [needle in haystack] for two strings: [needle] occurs as a
    contiguous substring. *)
Fixpoint str_in (needle haystack : string) : bool :=
  String.prefix needle haystack
  || match haystack with
     | EmptyString => false
     | String _ rest => str_in needle rest
     end.

(** [c.lower()] on a code point below 256: A-Z and the Latin-1 capitals
    (U+00C0 to U+00DE without the multiplication sign U+00D7) move up by
    32, everything else is left alone. *)
Definition lower_char (c : ascii) : ascii :=
  let n := nat_of_ascii c in
  if ((65 <=? n) && (n <=? 90))%nat
     || ((192 <=? n) && (n <=? 222) && negb (n =? 215))%nat
  then ascii_of_nat (n + 32)
  else c.

Fixpoint lower (s : string) : string :=
  match s with
  | EmptyString => EmptyString
  | String c rest => String (lower_char c) (lower rest)
  end.

(** [list.sort(key=key, reverse=True)]: a stable sort into descending
    key order; elements with equal keys keep their original order. *)
Section Sort.
Context {A : Type} (key : A -> Q).

Fixpoint insert_desc (x : A) (l : list A) : list A :=
  match l with
  | [] => [x]
  | y :: l' => if lt (key x) (key y) then y :: insert_desc x l' else x :: l
  end.

Definition sort_desc (l : list A) : list A := fold_right insert_desc [] l.
End Sort.

(** [numpy.mean] and the population variance behind [numpy.std]
    ([std = sqrt(mean(abs(x - mean)**2))]). *)
Definition mean (xs : list Q) : Q := sum xs / len xs.
Definition var (xs : list Q) : Q :=
  mean (map (fun x => (x - mean xs) * (x - mean xs)) xs).

(** [abs(d) <= 2 * std] where [std] is the square root of the variance
    [v].  Both sides are non-negative, so the comparison is decided on
    the squares; [abs_le_2std_sqrt] below relates it to the square
    root over the reals. *)
Definition abs_le_2std (d v : Q) : bool := Qle_bool (d * d) (4 * v).

End Py.

Notation "x <- m ;; k" := (Py.bind m (fun x => k))
  (at level 61, m at next level, right associativity).

(* ================================================================== *)
(** * config/settings.py *)

Module settings.

Record RepairCosts := {
  base_sqft_cost : Q;
  kitchen : Q;
  bathroom : Q;
  roof : Q;
  hvac : Q;
  foundation : Q;
  electrical : Q;
  plumbing : Q
}.

Record ClosingCosts := {
  purchase_percentage : Q;
  seller_closing_percentage : Q;
  agent_commission : Q
}.

Record HoldingCosts := {
  mortgage_rate : Q;
  property_tax_rate : Q;
  insurance_rate : Q;
  monthly_utilities : Q
}.

Record Scoring := {
  profit_weight : Q;
  roi_weight : Q;
  repair_cost_weight : Q;
  dom_weight : Q;
  opportunity_keywords_weight : Q;
  meets_70_rule_weight : Q
}.

Record t := {
  REPAIR_COSTS : RepairCosts;
  CLOSING_COSTS : ClosingCosts;
  HOLDING_COSTS : HoldingCosts;
  AVERAGE_FLIP_MONTHS : Q;
  SCORING : Scoring
}.

(** The values the module is loaded with. *)
Definition default : t := {|
  REPAIR_COSTS := {|
    base_sqft_cost := 20; kitchen := 15000; bathroom := 7500;
    roof := 10000; hvac := 8000; foundation := 15000;
    electrical := 8000; plumbing := 7000 |};
  CLOSING_COSTS := {|
    purchase_percentage := 0.03;
    seller_closing_percentage := 0.02;
    agent_commission := 0.06 |};
  HOLDING_COSTS := {|
    mortgage_rate := 0.07; property_tax_rate := 0.015;
    insurance_rate := 0.005; monthly_utilities := 200 |};
  AVERAGE_FLIP_MONTHS := 4;
  SCORING := {|
    profit_weight := 40; roi_weight := 30; repair_cost_weight := 15;
    dom_weight := 10; opportunity_keywords_weight := 5;
    meets_70_rule_weight := 5 |}
|}.

End settings.

(* ================================================================== *)
(** * Comparable sales

    The dicts built by [market_data.add_comps].  The four keys that the
    core reads are optional: [calculate_arv] itself reads
    [comp.get('square_feet', 0)]. *)

Module Comp.

Record t := {
  address : string;
  sale_date : option string;
  price : option Q;
  square_feet : option Q;
  price_per_sqft : Q;
  bedrooms : Z;
  bathrooms : Q;
  year_built : Z;
  distance : option Q
}.

End Comp.

(* ================================================================== *)
(** * models/property.py *)

Module property.

Record Property := {
  mls_id : string;
  address : string;
  city : string;
  state : string;
  zip_code : string;
  list_price : Q;
  bedrooms : Z;
  bathrooms : Q;
  square_feet : Q;
  lot_size : string;
  year_built : Z;
  days_on_market : Z;
  description : string;
  latitude : Q;
  longitude : Q;
  photos : list string;
  opportunity_keywords : list string;
  comps : list Comp.t;
  tax_data : list (string * string);
  neighborhood_data : list (string * string);
  estimated_repair_cost : Q;
  estimated_arv : Q;
  estimated_profit : Q;
  estimated_roi : Q;
  (* attributes added by __post_init__ *)
  price_per_sqft : Q;
  age : option Z
}.

(** [self.age] as [__post_init__] derives it from the current year. *)
Definition age_of (current_year year_built : Z) : option Z :=
  if (0 <? year_built)%Z then Some (current_year - year_built)%Z else None.

(** The four attribute assignments [analyze_deal] performs. *)
Definition set_estimated_repair_cost (v : Q) (p : Property) : Property :=
  {| mls_id := mls_id p; address := address p; city := city p;
     state := state p; zip_code := zip_code p; list_price := list_price p;
     bedrooms := bedrooms p; bathrooms := bathrooms p;
     square_feet := square_feet p; lot_size := lot_size p;
     year_built := year_built p; days_on_market := days_on_market p;
     description := description p; latitude := latitude p;
     longitude := longitude p; photos := photos p;
     opportunity_keywords := opportunity_keywords p; comps := comps p;
     tax_data := tax_data p; neighborhood_data := neighborhood_data p;
     estimated_repair_cost := v;
     estimated_arv := estimated_arv p;
     estimated_profit := estimated_profit p;
     estimated_roi := estimated_roi p;
     price_per_sqft := price_per_sqft p; age := age p |}.

Definition set_estimated_arv (v : Q) (p : Property) : Property :=
  {| mls_id := mls_id p; address := address p; city := city p;
     state := state p; zip_code := zip_code p; list_price := list_price p;
     bedrooms := bedrooms p; bathrooms := bathrooms p;
     square_feet := square_feet p; lot_size := lot_size p;
     year_built := year_built p; days_on_market := days_on_market p;
     description := description p; latitude := latitude p;
     longitude := longitude p; photos := photos p;
     opportunity_keywords := opportunity_keywords p; comps := comps p;
     tax_data := tax_data p; neighborhood_data := neighborhood_data p;
     estimated_repair_cost := estimated_repair_cost p;
     estimated_arv := v;
     estimated_profit := estimated_profit p;
     estimated_roi := estimated_roi p;
     price_per_sqft := price_per_sqft p; age := age p |}.

Definition set_estimated_profit (v : Q) (p : Property) : Property :=
  {| mls_id := mls_id p; address := address p; city := city p;
     state := state p; zip_code := zip_code p; list_price := list_price p;
     bedrooms := bedrooms p; bathrooms := bathrooms p;
     square_feet := square_feet p; lot_size := lot_size p;
     year_built := year_built p; days_on_market := days_on_market p;
     description := description p; latitude := latitude p;
     longitude := longitude p; photos := photos p;
     opportunity_keywords := opportunity_keywords p; comps := comps p;
     tax_data := tax_data p; neighborhood_data := neighborhood_data p;
     estimated_repair_cost := estimated_repair_cost p;
     estimated_arv := estimated_arv p;
     estimated_profit := v;
     estimated_roi := estimated_roi p;
     price_per_sqft := price_per_sqft p; age := age p |}.

Definition set_estimated_roi (v : Q) (p : Property) : Property :=
  {| mls_id := mls_id p; address := address p; city := city p;
     state := state p; zip_code := zip_code p; list_price := list_price p;
     bedrooms := bedrooms p; bathrooms := bathrooms p;
     square_feet := square_feet p; lot_size := lot_size p;
     year_built := year_built p; days_on_market := days_on_market p;
     description := description p; latitude := latitude p;
     longitude := longitude p; photos := photos p;
     opportunity_keywords := opportunity_keywords p; comps := comps p;
     tax_data := tax_data p; neighborhood_data := neighborhood_data p;
     estimated_repair_cost := estimated_repair_cost p;
     estimated_arv := estimated_arv p;
     estimated_profit := estimated_profit p;
     estimated_roi := v;
     price_per_sqft := price_per_sqft p; age := age p |}.

(** The dict returned by [to_dict]. *)
Module dict.
Record t := {
  mls_id : string;
  address : string;
  city : string;
  state : string;
  zip_code : string;
  list_price : Q;
  bedrooms : Z;
  bathrooms : Q;
  square_feet : Q;
  lot_size : string;
  year_built : Z;
  age : option Z;
  days_on_market : Z;
  price_per_sqft : Q;
  latitude : Q;
  longitude : Q;
  opportunity_keywords : list string;
  estimated_repair_cost : Q;
  estimated_arv : Q;
  estimated_profit : Q;
  estimated_roi : Q
}.
End dict.

Definition to_dict (self : Property) : dict.t := {|
  dict.mls_id := mls_id self;
  dict.address := address self;
  dict.city := city self;
  dict.state := state self;
  dict.zip_code := zip_code self;
  dict.list_price := list_price self;
  dict.bedrooms := bedrooms self;
  dict.bathrooms := bathrooms self;
  dict.square_feet := square_feet self;
  dict.lot_size := lot_size self;
  dict.year_built := year_built self;
  dict.age := age self;
  dict.days_on_market := days_on_market self;
  dict.price_per_sqft := price_per_sqft self;
  dict.latitude := latitude self;
  dict.longitude := longitude self;
  dict.opportunity_keywords := opportunity_keywords self;
  dict.estimated_repair_cost := estimated_repair_cost self;
  dict.estimated_arv := estimated_arv self;
  dict.estimated_profit := estimated_profit self;
  dict.estimated_roi := estimated_roi self
|}.

Definition get_full_address (self : Property) : string :=
  (address self ++ ", " ++ city self ++ ", " ++ state self ++ " "
     ++ zip_code self)%string.

End property.

(* ================================================================== *)
(** * The deal dict

    The dict built by [analyze_deal]; [score_deals] later adds the
    ['score'] key. *)

Module Deal.

Record t := {
  property_id : string;
  address : string;
  list_price : Q;
  arv : Q;
  repair_costs : Q;
  closing_costs : Q;
  holding_costs : Q;
  total_project_cost : Q;
  potential_profit : Q;
  roi : Q;
  meets_criteria : bool;
  meets_70_percent_rule : bool;
  max_purchase_price : Q;
  property_data : property.dict.t;
  score : option Q
}.

(** [deal['score'] = v]. *)
Definition set_score (v : Q) (d : t) : t :=
  {| property_id := property_id d; address := address d;
     list_price := list_price d; arv := arv d;
     repair_costs := repair_costs d; closing_costs := closing_costs d;
     holding_costs := holding_costs d;
     total_project_cost := total_project_cost d;
     potential_profit := potential_profit d; roi := roi d;
     meets_criteria := meets_criteria d;
     meets_70_percent_rule := meets_70_percent_rule d;
     max_purchase_price := max_purchase_price d;
     property_data := property_data d;
     score := Some v |}.

End Deal.

(* ================================================================== *)
(** * analysis/deal_analyzer.py *)

Module deal_analyzer.
Import property.

Definition high_repair_keywords : list string :=
  ["fixer"; "needs work"; "tlc"; "handyman"; "distressed"]%string.
Definition moderate_repair_keywords : list string :=
  ["dated"; "original"; "renovate"; "update"]%string.

(** The [if]/[elif] chain on [property_data.age]. *)
Definition age_factor (age : option Z) : Q :=
  match age with
  | None => 1
  | Some a =>
      if (50 <? a)%Z then 1.5
      else if (30 <? a)%Z then 1.3
      else if (15 <? a)%Z then 1.1
      else 1
  end.

(** The two keyword loops; the second runs only when the first left
    the factor at 1.0. *)
Definition condition_factor (opportunity_keywords : list string) : Q :=
  let condition_factor :=
    if existsb (fun keyword => Py.in_list keyword opportunity_keywords)
               high_repair_keywords
    then 1.5 else 1 in
  if Qeq_bool condition_factor 1 then
    if existsb (fun keyword => Py.in_list keyword opportunity_keywords)
               moderate_repair_keywords
    then 1.25 else condition_factor
  else condition_factor.

(** [x and x > bound] on an optional integer: [None] and [0] are
    falsy. *)
Definition truthy_and_gt (age : option Z) (bound : Z) : bool :=
  match age with
  | None => false
  | Some a => negb (a =? 0)%Z && (bound <? a)%Z
  end.

Definition estimate_repairs (s : settings.t) (property_data : Property) : Q :=
  let base_sqft_cost := settings.base_sqft_cost (settings.REPAIR_COSTS s) in
  let age_factor := age_factor (age property_data) in
  let condition_factor :=
    condition_factor (opportunity_keywords property_data) in
  let repair_estimate :=
    square_feet property_data * base_sqft_cost * age_factor
      * condition_factor in
  let repair_estimate :=
    if truthy_and_gt (age property_data) 20 then
      let repair_estimate :=
        repair_estimate
        + settings.kitchen (settings.REPAIR_COSTS s)
          * inject_Z (Z.min 1 (Py.int (square_feet property_data / 1500))) in
      repair_estimate
      + settings.bathroom (settings.REPAIR_COSTS s)
        * Py.min (bathrooms property_data) 2
    else repair_estimate in
  repair_estimate * 1.1.

Module closing.
Record t := {
  purchase_closing : Q;
  agent_commission : Q;
  seller_closing : Q;
  total : Q
}.
End closing.

Definition calculate_closing_costs (s : settings.t)
    (purchase_price sale_price : Q) : closing.t :=
  let purchase_closing :=
    purchase_price * settings.purchase_percentage (settings.CLOSING_COSTS s) in
  let agent_commission :=
    sale_price * settings.agent_commission (settings.CLOSING_COSTS s) in
  let seller_closing :=
    sale_price
    * settings.seller_closing_percentage (settings.CLOSING_COSTS s) in
  {| closing.purchase_closing := purchase_closing;
     closing.agent_commission := agent_commission;
     closing.seller_closing := seller_closing;
     closing.total := purchase_closing + agent_commission + seller_closing |}.

Definition calculate_holding_costs (s : settings.t)
    (purchase_price months : Q) : Q :=
  let mortgage :=
    purchase_price * settings.mortgage_rate (settings.HOLDING_COSTS s) / 12 in
  let taxes :=
    purchase_price * settings.property_tax_rate (settings.HOLDING_COSTS s)
    / 12 in
  let insurance :=
    purchase_price * settings.insurance_rate (settings.HOLDING_COSTS s)
    / 12 in
  let utilities := settings.monthly_utilities (settings.HOLDING_COSTS s) in
  let total_monthly := Py.sum [mortgage; taxes; insurance; utilities] in
  total_monthly * months.

(** [analyze_deal] assigns to attributes of the property it is handed,
    so the embedding threads the property through and returns its
    final state together with the outcome of the call.  An exception
    leaves the assignments made before it in place. *)
Definition analyze_deal (s : settings.t) (property_data : Property)
    (arv repair_costs min_roi : Q) : Property * Py.result Deal.t :=
  let property_data := set_estimated_repair_cost repair_costs property_data in
  let property_data := set_estimated_arv arv property_data in
  let closing_costs :=
    calculate_closing_costs s (list_price property_data) arv in
  let holding_period := settings.AVERAGE_FLIP_MONTHS s in
  let holding_costs :=
    calculate_holding_costs s (list_price property_data) holding_period in
  let total_project_cost :=
    list_price property_data + repair_costs + closing.total closing_costs
    + holding_costs in
  let potential_profit := arv - total_project_cost in
  let property_data := set_estimated_profit potential_profit property_data in
  match Py.truediv potential_profit total_project_cost with
  | Py.Raise e => (property_data, Py.Raise e)
  | Py.Ok quotient =>
      let roi := quotient * 100 in
      let property_data := set_estimated_roi roi property_data in
      let meets_criteria := Py.le min_roi roi in
      let max_purchase_price := 0.7 * arv - repair_costs in
      let meets_70_percent_rule :=
        Py.le (list_price property_data) max_purchase_price in
      let deal := {|
        Deal.property_id := mls_id property_data;
        Deal.address := get_full_address property_data;
        Deal.list_price := list_price property_data;
        Deal.arv := arv;
        Deal.repair_costs := repair_costs;
        Deal.closing_costs := closing.total closing_costs;
        Deal.holding_costs := holding_costs;
        Deal.total_project_cost := total_project_cost;
        Deal.potential_profit := potential_profit;
        Deal.roi := roi;
        Deal.meets_criteria := meets_criteria;
        Deal.meets_70_percent_rule := meets_70_percent_rule;
        Deal.max_purchase_price := max_purchase_price;
        Deal.property_data := to_dict property_data;
        Deal.score := None |} in
      (property_data, Py.Ok deal)
  end.

(** The list comprehension
    [[comp['price'] / comp['square_feet'] for comp in comps
      if comp.get('square_feet', 0) > 0]]. *)
Fixpoint comp_psf (comps : list Comp.t) : Py.result (list Q) :=
  match comps with
  | [] => Py.Ok []
  | comp :: rest =>
      if Py.lt 0 (Py.get (Comp.square_feet comp) 0) then
        price <- Py.getitem "price" (Comp.price comp) ;;
        square_feet <- Py.getitem "square_feet" (Comp.square_feet comp) ;;
        psf <- Py.truediv price square_feet ;;
        tail <- comp_psf rest ;;
        Py.Ok (psf :: tail)
      else comp_psf rest
  end.

(** [[psf for psf in comp_psf if abs(psf - mean_psf) <= 2 * std_psf]]. *)
Definition within_2std (comp_psf : list Q) : list Q :=
  let mean_psf := Py.mean comp_psf in
  let var_psf := Py.var comp_psf in
  filter (fun psf => Py.abs_le_2std (psf - mean_psf) var_psf) comp_psf.

Definition calculate_arv (property_data : Property) : Py.result Q :=
  match comps property_data with
  | [] => Py.Ok (list_price property_data * 1.5)
  | _ :: _ =>
      comp_psf <- comp_psf (comps property_data) ;;
      match comp_psf with
      | [] => Py.Ok (list_price property_data * 1.5)
      | _ :: _ =>
          let mean_psf := Py.mean comp_psf in
          let filtered_psf := within_2std comp_psf in
          let avg_psf :=
            match filtered_psf with
            | _ :: _ => Py.mean filtered_psf
            | [] => mean_psf
            end in
          let arv := square_feet property_data * avg_psf in
          Py.Ok arv
      end
  end.

End deal_analyzer.

(* ================================================================== *)
(** * analysis/repair_estimator.py *)

Module repair_estimator.
Import property.

(** The four level names, the keys of [COST_LEVELS]. *)
Inductive level : Type := cosmetic | moderate | extensive | complete.

Definition level_eqb (a b : level) : bool :=
  match a, b with
  | cosmetic, cosmetic | moderate, moderate
  | extensive, extensive | complete, complete => true
  | _, _ => false
  end.

Definition COST_LEVELS (l : level) : Q :=
  match l with
  | cosmetic => 15
  | moderate => 30
  | extensive => 60
  | complete => 100
  end.

Definition extensive_indicators : list string :=
  ["fixer"; "needs work"; "tlc"; "handyman special"; "distressed";
   "as-is"; "potential"; "opportunity"; "needs renovation"]%string.

Definition moderate_indicators : list string :=
  ["dated"; "original"; "some updating"; "could use"; "older"]%string.

(** The age [if]/[elif] chain that opens [estimate_renovation_level]. *)
Definition base_level (age : option Z) : level :=
  match age with
  | None => moderate
  | Some a =>
      if (50 <? a)%Z then extensive
      else if (30 <? a)%Z then moderate
      else if (15 <? a)%Z then cosmetic
      else cosmetic
  end.

(** [any(k in description for k in ks)]. *)
Definition mentions (description : string) (ks : list string) : bool :=
  Py.any (fun k => Py.str_in k description) ks.

(** [sum([b1, ..., bn])] on booleans. *)
Definition count_true (bs : list bool) : nat :=
  List.length (filter (fun b => b) bs).

(** [sum(1 for k in indicators
           if any(k in kw for kw in keywords) or k in description)]. *)
Definition indicator_count (indicators keywords : list string)
    (description : string) : nat :=
  List.length
    (filter (fun k => Py.any (fun kw => Py.str_in k kw) keywords
                      || Py.str_in k description)
            indicators).

Definition serious_issues (description : string) : nat :=
  let has_roof_issues := mentions description ["roof"; "leak"]%string in
  let has_hvac_issues :=
    mentions description ["hvac"; "heat"; "cooling"]%string in
  let has_foundation_issues :=
    mentions description ["foundation"; "structural"]%string in
  let has_electrical_issues :=
    mentions description ["electrical"; "wiring"]%string in
  let has_plumbing_issues :=
    mentions description ["plumbing"; "pipes"]%string in
  count_true [has_roof_issues; has_hvac_issues; has_foundation_issues;
              has_electrical_issues; has_plumbing_issues].

Definition extensive_count (property_data : Property) : nat :=
  indicator_count extensive_indicators (opportunity_keywords property_data)
    (Py.lower (description property_data)).

Definition moderate_count (property_data : Property) : nat :=
  indicator_count moderate_indicators (opportunity_keywords property_data)
    (Py.lower (description property_data)).

Definition estimate_renovation_level (property_data : Property) : level :=
  let base_level := base_level (age property_data) in
  let description := Py.lower (description property_data) in
  let serious_issues := serious_issues description in
  let extensive_count := extensive_count property_data in
  let moderate_count := moderate_count property_data in
  if (2 <=? extensive_count)%nat || (2 <=? serious_issues)%nat then
    extensive
  else if (1 <=? extensive_count)%nat || (2 <=? moderate_count)%nat
          || (1 <=? serious_issues)%nat then
    moderate
  else if (1 <=? moderate_count)%nat then
    if level_eqb base_level cosmetic then moderate else base_level
  else
    base_level.

End repair_estimator.

(* ================================================================== *)
(** * analysis/property_scorer.py *)

Module property_scorer.

(** [max(values) if values else 0] and [min(values) if values else 0]. *)
Definition max_or_0 (values : list Q) : Q :=
  match values with
  | [] => 0
  | v :: rest => Py.max_list v rest
  end.
Definition min_or_0 (values : list Q) : Q :=
  match values with
  | [] => 0
  | v :: rest => Py.min_list v rest
  end.

Definition dom (deal : Deal.t) : Q :=
  inject_Z (property.dict.days_on_market (Deal.property_data deal)).

(** The body of the scoring loop for one deal, given the batch. *)
Definition score_of (s : settings.t) (deals : list Deal.t) (deal : Deal.t)
    : Q :=
  let profit_values := map Deal.potential_profit deals in
  let roi_values := map Deal.roi deals in
  let repair_values := map Deal.repair_costs deals in
  let dom_values := map dom deals in
  let max_profit := max_or_0 profit_values in
  let min_profit := min_or_0 profit_values in
  let max_roi := max_or_0 roi_values in
  let min_roi := min_or_0 roi_values in
  let max_repair := max_or_0 repair_values in
  let min_repair := min_or_0 repair_values in
  let max_dom := max_or_0 dom_values in
  let min_dom := min_or_0 dom_values in
  let profit_range := max_profit - min_profit in
  let roi_range := max_roi - min_roi in
  let repair_range := max_repair - min_repair in
  let dom_range := max_dom - min_dom in
  let score := 0 in
  let score :=
    if Py.lt 0 profit_range then
      score
      + settings.profit_weight (settings.SCORING s)
        * (Deal.potential_profit deal - min_profit) / profit_range
    else score in
  let score :=
    if Py.lt 0 roi_range then
      score
      + settings.roi_weight (settings.SCORING s)
        * (Deal.roi deal - min_roi) / roi_range
    else score in
  let score :=
    if Py.lt 0 repair_range then
      score
      + settings.repair_cost_weight (settings.SCORING s)
        * (1 - (Deal.repair_costs deal - min_repair) / repair_range)
    else score in
  let score :=
    if Py.lt 0 dom_range then
      score
      + settings.dom_weight (settings.SCORING s)
        * (dom deal - min_dom) / dom_range
    else score in
  let opportunity_keywords :=
    property.dict.opportunity_keywords (Deal.property_data deal) in
  let score :=
    match opportunity_keywords with
    | _ :: _ =>
        score
        + Py.min (settings.opportunity_keywords_weight (settings.SCORING s))
                 (Py.len opportunity_keywords)
    | [] => score
    end in
  let score :=
    if Deal.meets_70_percent_rule deal then
      score + settings.meets_70_rule_weight (settings.SCORING s)
    else score in
  score.

(** The sort key [lambda x: x['score']]; every element of
    [scored_deals] carries the key when the sort runs. *)
Definition score_key (deal : Deal.t) : Q := Py.get (Deal.score deal) 0.

Definition score_deals (s : settings.t) (deals : list Deal.t) : list Deal.t :=
  match deals with
  | [] => []
  | _ :: _ =>
      let scored_deals :=
        map (fun deal => Deal.set_score (score_of s deals deal) deal) deals in
      Py.sort_desc score_key scored_deals
  end.

End property_scorer.

(* ================================================================== *)
(** * The part of [datetime] the comp filter uses

    A [datetime] is its proleptic Gregorian day number ([toordinal()])
    and a time of day.  Subtracting [timedelta(days=n)] moves the day
    number and keeps the time of day; [strftime('%Y-%m-%d')] prints the
    civil date of the day number. *)

Module datetime.

Record date := { year : Z; month : Z; day : Z }.

Record t := {
  toordinal : Z;
  hour : Z;
  minute : Z;
  second : Z;
  microsecond : Z
}.

Definition sub_days (self : t) (days : Z) : t :=
  {| toordinal := (toordinal self - days)%Z;
     hour := hour self; minute := minute self; second := second self;
     microsecond := microsecond self |}.

Definition DAYS_IN_MONTH (m : Z) : Z :=
  match m with
  | 1 => 31 | 2 => 28 | 3 => 31 | 4 => 30 | 5 => 31 | 6 => 30
  | 7 => 31 | 8 => 31 | 9 => 30 | 10 => 31 | 11 => 30 | 12 => 31
  | _ => -1
  end%Z.

Definition DAYS_BEFORE_MONTH (m : Z) : Z :=
  match m with
  | 1 => 0 | 2 => 31 | 3 => 59 | 4 => 90 | 5 => 120 | 6 => 151
  | 7 => 181 | 8 => 212 | 9 => 243 | 10 => 273 | 11 => 304 | 12 => 334
  | _ => -1
  end%Z.

Definition b2z (b : bool) : Z := if b then 1%Z else 0%Z.

(** The library's [_ord2ymd]: day number to (year, month, day). *)
Definition ord2ymd (n : Z) : date :=
  (let n := n - 1 in
   let n400 := n / 146097 in
   let n := n mod 146097 in
   let year := n400 * 400 + 1 in
   let n100 := n / 36524 in
   let n := n mod 36524 in
   let n4 := n / 1461 in
   let n := n mod 1461 in
   let n1 := n / 365 in
   let n := n mod 365 in
   let year := year + n100 * 100 + n4 * 4 + n1 in
   if (n1 =? 4) || (n100 =? 4) then
     {| year := year - 1; month := 12; day := 31 |}
   else
     let leapyear := (n1 =? 3) && (negb (n4 =? 24) || (n100 =? 3)) in
     let month := Z.shiftr (n + 50) 5 in
     let preceding :=
       DAYS_BEFORE_MONTH month + b2z ((2 <? month) && leapyear) in
     if n <? preceding then
       let month := month - 1 in
       let preceding :=
         preceding - (DAYS_IN_MONTH month + b2z ((month =? 2) && leapyear)) in
       {| year := year; month := month; day := n - preceding + 1 |}
     else
       {| year := year; month := month; day := n - preceding + 1 |})%Z.

Definition digit (n : Z) : ascii := ascii_of_N (48 + Z.to_N (n mod 10)).

(** [%m], [%d]: two digits; [%Y]: four digits. *)
Definition pad2 (n : Z) : string :=
  String (digit (n / 10)) (String (digit n) EmptyString).
Definition pad4 (n : Z) : string :=
  String (digit (n / 1000)) (String (digit (n / 100)) (pad2 n)).

Definition isoformat (d : date) : string :=
  (pad4 (year d) ++ "-" ++ pad2 (month d) ++ "-" ++ pad2 (day d))%string.

(** [self.strftime('%Y-%m-%d')]. *)
Definition strftime_Ymd (self : t) : string :=
  isoformat (ord2ymd (toordinal self)).

(** Calendar order on civil dates. *)
Definition date_leb (a b : date) : bool :=
  ((year a <? year b)
   || ((year a =? year b)
       && ((month a <? month b)
           || ((month a =? month b) && (day a <=? day b)))))%Z.

End datetime.

(* ================================================================== *)
(** * app.py: the dashboard's comp filter and ARV estimator *)

Module app.
Import property.

(** The parameters of [FlipFinderDashboard] the two methods read. *)
Record FlipFinderDashboard := {
  min_roi : Q;
  use_comps_within_miles : Q;
  max_comp_age_months : Z;
  min_comp_sqft_pct : Q;
  max_comp_sqft_pct : Q;
  exclude_outliers : bool
}.

(** [a >= b] on two strings. *)
Definition str_ge (a b : string) : bool := String.leb b a.

(** The condition of the loop body; [and] evaluates left to right and
    stops at the first false operand. *)
Definition keep_comp (min_sqft max_sqft max_distance : Q)
    (cutoff_date : string) (comp : Comp.t) : Py.result bool :=
  square_feet <- Py.getitem "square_feet" (Comp.square_feet comp) ;;
  if negb (Py.le min_sqft square_feet) then Py.Ok false else
  square_feet <- Py.getitem "square_feet" (Comp.square_feet comp) ;;
  if negb (Py.le square_feet max_sqft) then Py.Ok false else
  distance <- Py.getitem "distance" (Comp.distance comp) ;;
  if negb (Py.le distance max_distance) then Py.Ok false else
  sale_date <- Py.getitem "sale_date" (Comp.sale_date comp) ;;
  Py.Ok (str_ge sale_date cutoff_date).

Fixpoint filter_loop (keep : Comp.t -> Py.result bool)
    (comps : list Comp.t) : Py.result (list Comp.t) :=
  match comps with
  | [] => Py.Ok []
  | comp :: rest =>
      b <- keep comp ;;
      tail <- filter_loop keep rest ;;
      Py.Ok (if b then comp :: tail else tail)
  end.

(** [filter_comps]; [now] is the value of [datetime.datetime.now()]. *)
Definition filter_comps (self : FlipFinderDashboard) (now : datetime.t)
    (property_data : Property) : Py.result (list Comp.t) :=
  match comps property_data with
  | [] => Py.Ok []
  | _ :: _ =>
      let min_sqft := square_feet property_data * min_comp_sqft_pct self in
      let max_sqft := square_feet property_data * max_comp_sqft_pct self in
      let max_distance := use_comps_within_miles self in
      let cutoff_date :=
        datetime.strftime_Ymd
          (datetime.sub_days now (max_comp_age_months self * 30)) in
      filter_loop (keep_comp min_sqft max_sqft max_distance cutoff_date)
                  (comps property_data)
  end.

(** [FlipFinderDashboard.calculate_arv].  Its two list comprehensions
    are, word for word, those of [deal_analyzer.calculate_arv]. *)
Definition calculate_arv (self : FlipFinderDashboard)
    (property_data : Property) : Py.result Q :=
  match comps property_data with
  | [] => Py.Ok (list_price property_data * 1.5)
  | _ :: _ =>
      comp_psf <- deal_analyzer.comp_psf (comps property_data) ;;
      match comp_psf with
      | [] => Py.Ok (list_price property_data * 1.5)
      | _ :: _ =>
          let avg_psf :=
            if exclude_outliers self && (5 <? List.length comp_psf)%nat then
              let mean_psf := Py.mean comp_psf in
              let filtered_psf := deal_analyzer.within_2std comp_psf in
              match filtered_psf with
              | _ :: _ => Py.mean filtered_psf
              | [] => mean_psf
              end
            else Py.mean comp_psf in
          let arv := square_feet property_data * avg_psf in
          Py.Ok arv
      end
  end.

End app.

(* ================================================================== *)
(** * The vocabulary of the specification

    Definitions that follow the words of the specification, against
    which the functions above are compared. *)

Module Spec.
Import property.

(** A property carries a keyword of the tier [tier]. *)
Definition has_keyword_of (tier : list string) (p : Property) : Prop :=
  exists k, In k tier /\ In k (opportunity_keywords p).

(** [needle] occurs in [haystack]. *)
Definition contains (needle haystack : string) : Prop :=
  exists before after, haystack = (before ++ needle ++ after)%string.

(** [m] is the least (greatest) value of a batch. *)
Definition is_min (m : Q) (values : list Q) : Prop :=
  (exists v, In v values /\ v == m) /\ forall v, In v values -> m <= v.
Definition is_max (m : Q) (values : list Q) : Prop :=
  (exists v, In v values /\ v == m) /\ forall v, In v values -> v <= m.

(** Min-max normalised contribution of a metric, and its inverted
    form; a metric whose range is empty contributes nothing. *)
Definition contribution (weight value lo hi : Q) : Q :=
  if Qeq_bool hi lo then 0 else weight * ((value - lo) / (hi - lo)).
Definition inverted_contribution (weight value lo hi : Q) : Q :=
  if Qeq_bool hi lo then 0 else weight * (1 - (value - lo) / (hi - lo)).

Definition keyword_bonus (s : settings.t) (d : Deal.t) : Q :=
  Qmin (settings.opportunity_keywords_weight (settings.SCORING s))
       (Py.len (property.dict.opportunity_keywords (Deal.property_data d))).

Definition rule_bonus (s : settings.t) (d : Deal.t) : Q :=
  if Deal.meets_70_percent_rule d
  then settings.meets_70_rule_weight (settings.SCORING s) else 0.

(** Two states of a property agree on everything but the four
    analysis fields. *)
Definition same_listing (p p' : Property) : Prop :=
  mls_id p' = mls_id p /\ address p' = address p /\ city p' = city p
  /\ state p' = state p /\ zip_code p' = zip_code p
  /\ list_price p' = list_price p /\ bedrooms p' = bedrooms p
  /\ bathrooms p' = bathrooms p /\ square_feet p' = square_feet p
  /\ lot_size p' = lot_size p /\ year_built p' = year_built p
  /\ days_on_market p' = days_on_market p
  /\ description p' = description p /\ latitude p' = latitude p
  /\ longitude p' = longitude p /\ photos p' = photos p
  /\ opportunity_keywords p' = opportunity_keywords p
  /\ comps p' = comps p /\ tax_data p' = tax_data p
  /\ neighborhood_data p' = neighborhood_data p
  /\ price_per_sqft p' = price_per_sqft p /\ age p' = age p.

(** A civil date that [%Y-%m-%d] prints in ten characters. *)
Definition printable (d : datetime.date) : Prop :=
  (1000 <= datetime.year d <= 9999 /\ 1 <= datetime.month d <= 12
   /\ 1 <= datetime.day d <= 31)%Z.

(** A comp with the keys the filter reads: square footage [sqft],
    distance [dist], and a sale date [sold] in ISO form. *)
Definition comp_reads (c : Comp.t) (sqft dist : Q) (sold : datetime.date)
    : Prop :=
  Comp.square_feet c = Some sqft /\ Comp.distance c = Some dist
  /\ Comp.sale_date c = Some (datetime.isoformat sold) /\ printable sold.

Definition well_formed_comp (c : Comp.t) : Prop :=
  exists sqft dist sold, comp_reads c sqft dist sold.

End Spec.

(* ================================================================== *)
(** * Sample inputs *)

Module Sample.
Import property.

(** A sixty-year-old, 1000 sq ft house with two bathrooms and no
    opportunity keywords. *)
Definition old_house : Property := {|
  mls_id := "MD1001"; address := "12 Elm St"; city := "Gaithersburg";
  state := "MD"; zip_code := "20878"; list_price := 300000;
  bedrooms := 3; bathrooms := 2; square_feet := 1000;
  lot_size := "0.25"; year_built := 1964; days_on_market := 30;
  description := "Brick rambler near the park";
  latitude := 39.1; longitude := -77.2;
  photos := []; opportunity_keywords := []; comps := [];
  tax_data := []; neighborhood_data := [];
  estimated_repair_cost := 0; estimated_arv := 0;
  estimated_profit := 0; estimated_roi := 0;
  price_per_sqft := 300; age := Some 60%Z |}.

(** A listing entered with no price and no area, and a configuration
    whose flat monthly utilities are set to zero. *)
Definition unpriced : Property := {|
  mls_id := "MD0000"; address := "0 Nowhere Rd"; city := "Gaithersburg";
  state := "MD"; zip_code := "20878"; list_price := 0;
  bedrooms := 0; bathrooms := 0; square_feet := 0;
  lot_size := ""; year_built := 0; days_on_market := 0;
  description := "";
  latitude := 0; longitude := 0;
  photos := []; opportunity_keywords := []; comps := [];
  tax_data := []; neighborhood_data := [];
  estimated_repair_cost := 0; estimated_arv := 0;
  estimated_profit := 0; estimated_roi := 0;
  price_per_sqft := 0; age := None |}.

Definition no_utilities : settings.t := {|
  settings.REPAIR_COSTS := settings.REPAIR_COSTS settings.default;
  settings.CLOSING_COSTS := settings.CLOSING_COSTS settings.default;
  settings.HOLDING_COSTS := {|
    settings.mortgage_rate := 0.07; settings.property_tax_rate := 0.015;
    settings.insurance_rate := 0.005; settings.monthly_utilities := 0 |};
  settings.AVERAGE_FLIP_MONTHS := 4;
  settings.SCORING := settings.SCORING settings.default |}.

Definition comp (addr date : string) (price sqft dist : Q) : Comp.t := {|
  Comp.address := addr; Comp.sale_date := Some date;
  Comp.price := Some price; Comp.square_feet := Some sqft;
  Comp.price_per_sqft := price / sqft; Comp.bedrooms := 3;
  Comp.bathrooms := 2; Comp.year_built := 1970;
  Comp.distance := Some dist |}.

(** Two degenerate comps: one of zero area and no price, one without
    an area. *)
Definition comp_zero_area : Comp.t := {|
  Comp.address := "Comp 1"; Comp.sale_date := Some "2024-03-01"%string;
  Comp.price := None; Comp.square_feet := Some 0;
  Comp.price_per_sqft := 0; Comp.bedrooms := 3; Comp.bathrooms := 2;
  Comp.year_built := 1970; Comp.distance := Some 0.5 |}.
Definition comp_no_area : Comp.t := {|
  Comp.address := "Comp 2"; Comp.sale_date := Some "2024-03-02"%string;
  Comp.price := Some 250000; Comp.square_feet := None;
  Comp.price_per_sqft := 0; Comp.bedrooms := 3; Comp.bathrooms := 2;
  Comp.year_built := 1970; Comp.distance := Some 0.5 |}.

Definition with_comps (cs : list Comp.t) (p : Property) : Property := {|
  mls_id := mls_id p; address := address p; city := city p;
  state := state p; zip_code := zip_code p; list_price := list_price p;
  bedrooms := bedrooms p; bathrooms := bathrooms p;
  square_feet := square_feet p; lot_size := lot_size p;
  year_built := year_built p; days_on_market := days_on_market p;
  description := description p; latitude := latitude p;
  longitude := longitude p; photos := photos p;
  opportunity_keywords := opportunity_keywords p; comps := cs;
  tax_data := tax_data p; neighborhood_data := neighborhood_data p;
  estimated_repair_cost := estimated_repair_cost p;
  estimated_arv := estimated_arv p;
  estimated_profit := estimated_profit p;
  estimated_roi := estimated_roi p;
  price_per_sqft := price_per_sqft p; age := age p |}.

Definition degenerate_comps : Property :=
  with_comps [comp_zero_area; comp_no_area] old_house.

(** Six comps of 1000 sq ft; the last sold far above the others. *)
Definition six_comps : Property :=
  with_comps
    [comp "Comp 1" "2024-05-01" 200000 1000 0.4;
     comp "Comp 2" "2024-04-20" 210000 1000 0.6;
     comp "Comp 3" "2024-04-02" 205000 1000 0.3;
     comp "Comp 4" "2024-03-15" 195000 1000 0.9;
     comp "Comp 5" "2024-02-11" 190000 1000 2.0;
     comp "Comp 6" "2023-06-30" 600000 1000 0.2]
    old_house.

(** A recent house whose description names two specific issues and no
    indicator phrase. *)
Definition two_issues : Property := {|
  mls_id := "MD1002"; address := "7 Oak Ct"; city := "Gaithersburg";
  state := "MD"; zip_code := "20878"; list_price := 280000;
  bedrooms := 3; bathrooms := 2.5; square_feet := 1600;
  lot_size := "0.2"; year_built := 2014; days_on_market := 12;
  description := "Foundation settling and ELECTRICAL faults";
  latitude := 39.1; longitude := -77.2;
  photos := []; opportunity_keywords := []; comps := [];
  tax_data := []; neighborhood_data := [];
  estimated_repair_cost := 0; estimated_arv := 0;
  estimated_profit := 0; estimated_roi := 0;
  price_per_sqft := 175; age := Some 10%Z |}.

(** Three deals with the same profit, ROI, repair cost and days on
    market, told apart by their keywords and the 70% rule. *)
Definition snapshot (id : string) (keywords : list string)
    : property.dict.t := {|
  dict.mls_id := id; dict.address := "12 Elm St";
  dict.city := "Gaithersburg"; dict.state := "MD";
  dict.zip_code := "20878"; dict.list_price := 300000;
  dict.bedrooms := 3; dict.bathrooms := 2; dict.square_feet := 1000;
  dict.lot_size := "0.25"; dict.year_built := 1964;
  dict.age := Some 60%Z; dict.days_on_market := 30;
  dict.price_per_sqft := 300; dict.latitude := 39.1;
  dict.longitude := -77.2; dict.opportunity_keywords := keywords;
  dict.estimated_repair_cost := 49500; dict.estimated_arv := 450000;
  dict.estimated_profit := 45700; dict.estimated_roi := 11.3 |}.

Definition deal (id : string) (keywords : list string) (rule : bool)
    : Deal.t := {|
  Deal.property_id := id;
  Deal.address := "12 Elm St, Gaithersburg, MD 20878";
  Deal.list_price := 300000; Deal.arv := 450000;
  Deal.repair_costs := 49500; Deal.closing_costs := 45000;
  Deal.holding_costs := 9800; Deal.total_project_cost := 404300;
  Deal.potential_profit := 45700; Deal.roi := 11.3;
  Deal.meets_criteria := false; Deal.meets_70_percent_rule := rule;
  Deal.max_purchase_price := 265500;
  Deal.property_data := snapshot id keywords;
  Deal.score := None |}.

Definition batch : list Deal.t :=
  [deal "A" [] false;
   deal "B" ["fixer"; "tlc"]%string true;
   deal "C" ["as-is"; "potential"; "estate sale"; "investor"; "flip";
             "bargain"; "reduced"]%string false].

(** Noon on 2024-06-01. *)
Definition noon : datetime.t := {|
  datetime.toordinal := 739038; datetime.hour := 12; datetime.minute := 0;
  datetime.second := 0; datetime.microsecond := 0 |}.

Definition dashboard : app.FlipFinderDashboard := {|
  app.min_roi := 20; app.use_comps_within_miles := 1;
  app.max_comp_age_months := 6; app.min_comp_sqft_pct := 0.8;
  app.max_comp_sqft_pct := 1.2; app.exclude_outliers := true |}.

End Sample.

(* ================================================================== *)
(** * More Python built-ins: dict items, string stripping, [str(int)] *)

Module PyExt.

(** [d.get(k)] on a dict kept as its list of items, in insertion
    order. *)
Fixpoint lookup {V : Type} (k : string) (d : list (string * V)) : option V :=
  match d with
  | [] => None
  | (k', v) :: rest => if String.eqb k k' then Some v else lookup k rest
  end.

(** [d[k] = v]: a present key keeps its place, a new key goes last. *)
Fixpoint setitem {V : Type} (k : string) (v : V) (d : list (string * V))
    : list (string * V) :=
  match d with
  | [] => [(k, v)]
  | (k', v') :: rest =>
      if String.eqb k k' then (k', v) :: rest else (k', v') :: setitem k v rest
  end.

(** [c.isspace()] on a code point below 256: tab to carriage return,
    the four separators U+001C to U+001F, the space, NEL and the
    no-break space. *)
Definition isspace (c : ascii) : bool :=
  let n := nat_of_ascii c in
  (((9 <=? n) && (n <=? 13)) || ((28 <=? n) && (n <=? 32))
   || (n =? 133) || (n =? 160))%nat.

Fixpoint lstrip (s : string) : string :=
  match s with
  | EmptyString => EmptyString
  | String c rest => if isspace c then lstrip rest else s
  end.

Fixpoint rstrip (s : string) : string :=
  match s with
  | EmptyString => EmptyString
  | String c rest =>
      match rstrip rest with
      | EmptyString => if isspace c then EmptyString else String c EmptyString
      | String c' kept => String c (String c' kept)
      end
  end.

(** [s.strip()]. *)
Definition strip (s : string) : string := rstrip (lstrip s).

(** A character matched by [\d] (below code point 256). *)
Definition isdigit (c : ascii) : bool :=
  let n := nat_of_ascii c in ((48 <=? n) && (n <=? 57))%nat.

(** [re.search(r'^\d{n}', s)]: the first [n] characters when they are
    all digits. *)
Fixpoint match_digits (n : nat) (s : string) : option string :=
  match n with
  | O => Some EmptyString
  | S n' =>
      match s with
      | EmptyString => None
      | String c rest =>
          if isdigit c then
            match match_digits n' rest with
            | Some m => Some (String c m)
            | None => None
            end
          else None
      end
  end.

(** [str(n)] on an int. *)
Definition str_of_int (n : Z) : string :=
  NilZero.string_of_int (Z.to_int n).

(** [list(d.keys())] and [list(d.values())]. *)
Definition keys {V : Type} (d : list (string * V)) : list string :=
  map fst d.
Definition values {V : Type} (d : list (string * V)) : list V :=
  map snd d.

End PyExt.

(* ================================================================== *)
(** * utils/data_cleaner.py: [clean_zip_code] *)

Module data_cleaner.

(** The argument is a [str] or an [int]. *)
Inductive zip_input : Type :=
| ZipStr (s : string)
| ZipInt (n : Z).

(** Truth value of the argument: the empty string and 0 are falsy. *)
Definition truthy (zip_code : zip_input) : bool :=
  match zip_code with
  | ZipStr s => negb (String.eqb s EmptyString)
  | ZipInt n => negb (n =? 0)%Z
  end.

(** [str(zip_code)]. *)
Definition str (zip_code : zip_input) : string :=
  match zip_code with
  | ZipStr s => s
  | ZipInt n => PyExt.str_of_int n
  end.

Definition clean_zip_code (zip_code : zip_input) : string :=
  if negb (truthy zip_code) then EmptyString
  else
    let zip_str := PyExt.strip (str zip_code) in
    match PyExt.match_digits 5 zip_str with
    | Some m => m
    | None => zip_str
    end.

End data_cleaner.

(* ================================================================== *)
(** * Keyword extraction of the two listing connectors *)

Module connectors.

(** [settings.OPPORTUNITY_KEYWORDS]. *)
Definition OPPORTUNITY_KEYWORDS : list string :=
  ["as-is"; "fixer"; "needs work"; "handyman"; "tlc"; "potential";
   "opportunity"; "estate sale"; "foreclosure"; "bank owned"; "reo";
   "short sale"; "distressed"; "investor"; "renovation"; "remodel";
   "restore"; "flip"; "under market"; "bargain"; "motivated"; "must sell";
   "bring offer"; "priced to sell"; "reduced"]%string.

(** The local [opportunity_terms] of the Redfin connector. *)
Definition opportunity_terms : list string :=
  ["as-is"; "fixer"; "needs work"; "handyman"; "tlc"; "potential";
   "opportunity"; "estate sale"; "foreclosure"; "bank owned"; "reo";
   "short sale"; "distressed"; "investor"; "renovation"; "remodel";
   "restore"; "flip"; "under market"; "bargain"; "motivated"; "must sell";
   "bring offer"; "priced to sell"; "reduced"]%string.

(** The two keys of an MLS record that the extraction reads. *)
Record mls_prop_data := {
  PublicRemarks : option string;
  PrivateRemarks : option string
}.

(** The two keys of a Redfin record that the extraction reads. *)
Record redfin_prop_data := {
  REMARKS : option string;
  PUBLIC_REMARKS : option string
}.

(** [BrightMLSConnector.extract_opportunity_keywords]. *)
Definition mls_extract_opportunity_keywords (prop_data : mls_prop_data)
    : list string :=
  let remarks :=
    Py.lower (Py.get (PublicRemarks prop_data) EmptyString ++ " "
              ++ Py.get (PrivateRemarks prop_data) EmptyString)%string in
  filter (fun term => Py.str_in term remarks) OPPORTUNITY_KEYWORDS.

(** [RedfinConnector.extract_opportunity_keywords]. *)
Definition redfin_extract_opportunity_keywords (prop_data : redfin_prop_data)
    : list string :=
  let description :=
    Py.lower (Py.get (REMARKS prop_data) EmptyString ++ " "
              ++ Py.get (PUBLIC_REMARKS prop_data) EmptyString)%string in
  filter (fun term => Py.str_in term description) opportunity_terms.

End connectors.

(* ================================================================== *)
(** * analysis/repair_estimator.py: the line-item estimate *)

Module repair_items.
Import property.

(** The string a level is written as. *)
Definition level_name (l : repair_estimator.level) : string :=
  match l with
  | repair_estimator.cosmetic => "cosmetic"
  | repair_estimator.moderate => "moderate"
  | repair_estimator.extensive => "extensive"
  | repair_estimator.complete => "complete"
  end%string.

Definition ITEM_COSTS : list (string * list (string * Q)) :=
  [("roof", [("repair", 2500); ("replace", 10000)]);
   ("hvac", [("repair", 1500); ("replace", 8000)]);
   ("kitchen", [("cosmetic", 5000); ("moderate", 15000);
                ("high_end", 30000)]);
   ("bathroom", [("cosmetic", 2500); ("moderate", 7500);
                 ("high_end", 15000)]);
   ("windows", [("per_window", 500)]);
   ("foundation", [("minor", 5000); ("major", 20000)]);
   ("electrical", [("update", 5000); ("rewire", 15000)]);
   ("plumbing", [("update", 5000); ("replace", 15000)])]%string.

(** [ITEM_COSTS[item][tier]]. *)
Definition item_cost (item tier : string) : Py.result Q :=
  costs <- Py.getitem item (PyExt.lookup item ITEM_COSTS) ;;
  Py.getitem tier (PyExt.lookup tier costs).

(** The [repairs] dict; ['contingency'] is set last. *)
Record Repairs := {
  overall_level : repair_estimator.level;
  base_sqft_cost : Q;
  base_estimate : Q;
  line_items : list (string * Q);
  total : Q;
  contingency : option Q
}.

(** [repairs['line_items'][name] = cost] followed by
    [repairs['total'] += cost]. *)
Definition add_item (name : string) (cost : Q) (repairs : Repairs) : Repairs :=
  {| overall_level := overall_level repairs;
     base_sqft_cost := base_sqft_cost repairs;
     base_estimate := base_estimate repairs;
     line_items := PyExt.setitem name cost (line_items repairs);
     total := total repairs + cost;
     contingency := contingency repairs |}.

(** [renovation_level in ['moderate', 'extensive', 'complete']]. *)
Definition beyond_cosmetic (l : repair_estimator.level) : bool :=
  negb (repair_estimator.level_eqb l repair_estimator.cosmetic).

(** ['high_end' if renovation_level == 'complete' else renovation_level]. *)
Definition tier_of (l : repair_estimator.level) : string :=
  if repair_estimator.level_eqb l repair_estimator.complete
  then "high_end"%string else level_name l.

Definition roof_items (description : string) (repairs : Repairs)
    : Py.result Repairs :=
  if repair_estimator.mentions description ["roof"; "leak"; "ceiling"]%string
  then
    if Py.str_in "new roof" description
       || Py.str_in "roof replaced" description
    then Py.Ok repairs
    else if Py.str_in "roof leak" description
            || Py.str_in "roof damage" description
    then cost <- item_cost "roof" "replace" ;;
         Py.Ok (add_item "roof" cost repairs)
    else cost <- item_cost "roof" "repair" ;;
         Py.Ok (add_item "roof" cost repairs)
  else Py.Ok repairs.

Definition hvac_items (description : string) (repairs : Repairs)
    : Py.result Repairs :=
  if repair_estimator.mentions description
       ["hvac"; "heat"; "cooling"; "furnace"; "air conditioning"]%string
  then
    if Py.str_in "new hvac" description
       || Py.str_in "new furnace" description
    then Py.Ok repairs
    else if Py.str_in "hvac issue" description
            || Py.str_in "heating problem" description
    then cost <- item_cost "hvac" "replace" ;;
         Py.Ok (add_item "hvac" cost repairs)
    else cost <- item_cost "hvac" "repair" ;;
         Py.Ok (add_item "hvac" cost repairs)
  else Py.Ok repairs.

Definition kitchen_items (renovation_level : repair_estimator.level)
    (repairs : Repairs) : Py.result Repairs :=
  if beyond_cosmetic renovation_level then
    let kitchen_level := tier_of renovation_level in
    cost <- item_cost "kitchen" kitchen_level ;;
    Py.Ok (add_item "kitchen" cost repairs)
  else Py.Ok repairs.

Definition bathroom_items (renovation_level : repair_estimator.level)
    (bathrooms : Q) (repairs : Repairs) : Py.result Repairs :=
  if beyond_cosmetic renovation_level then
    let bath_level := tier_of renovation_level in
    let bath_count := Py.min bathrooms 3 in
    cost <- item_cost "bathroom" bath_level ;;
    let bath_cost := cost * bath_count in
    Py.Ok (add_item "bathrooms" bath_cost repairs)
  else Py.Ok repairs.

Definition age_items (age : option Z) (repairs : Repairs)
    : Py.result Repairs :=
  if deal_analyzer.truthy_and_gt age 30 then
    electrical <- item_cost "electrical" "update" ;;
    let repairs := add_item "electrical" electrical repairs in
    plumbing <- item_cost "plumbing" "update" ;;
    Py.Ok (add_item "plumbing" plumbing repairs)
  else Py.Ok repairs.

Definition add_contingency (repairs : Repairs) : Repairs :=
  let contingency := total repairs * 0.10 in
  {| overall_level := overall_level repairs;
     base_sqft_cost := base_sqft_cost repairs;
     base_estimate := base_estimate repairs;
     line_items := line_items repairs;
     total := total repairs + contingency;
     contingency := Some contingency |}.

Definition detailed_repair_estimate (property_data : Property)
    : Py.result Repairs :=
  let renovation_level :=
    repair_estimator.estimate_renovation_level property_data in
  let base_cost :=
    square_feet property_data * repair_estimator.COST_LEVELS renovation_level in
  let repairs := {|
    overall_level := renovation_level;
    base_sqft_cost := repair_estimator.COST_LEVELS renovation_level;
    base_estimate := base_cost;
    line_items := [];
    total := base_cost;
    contingency := None |} in
  let description := Py.lower (description property_data) in
  repairs <- roof_items description repairs ;;
  repairs <- hvac_items description repairs ;;
  repairs <- kitchen_items renovation_level repairs ;;
  repairs <- bathroom_items renovation_level (bathrooms property_data)
               repairs ;;
  repairs <- age_items (age property_data) repairs ;;
  Py.Ok (add_contingency repairs).

End repair_items.

(* ================================================================== *)
(** * app.py: [analyze_deals] and [is_comp_used] *)

Module dashboard.
Import property.

(** The cost parameters of [FlipFinderDashboard] that [analyze_deals]
    copies into the settings. *)
Record CostParams := {
  repair_cost_per_sqft : Q;
  kitchen_reno_cost : Q;
  bathroom_reno_cost : Q;
  flip_months : Q;
  mortgage_rate : Q
}.

(** The five assignments that open [analyze_deals]. *)
Definition apply_parameters (c : CostParams) (s : settings.t) : settings.t :=
  {| settings.REPAIR_COSTS := {|
       settings.base_sqft_cost := repair_cost_per_sqft c;
       settings.kitchen := kitchen_reno_cost c;
       settings.bathroom := bathroom_reno_cost c;
       settings.roof := settings.roof (settings.REPAIR_COSTS s);
       settings.hvac := settings.hvac (settings.REPAIR_COSTS s);
       settings.foundation := settings.foundation (settings.REPAIR_COSTS s);
       settings.electrical := settings.electrical (settings.REPAIR_COSTS s);
       settings.plumbing := settings.plumbing (settings.REPAIR_COSTS s) |};
     settings.CLOSING_COSTS := settings.CLOSING_COSTS s;
     settings.HOLDING_COSTS := {|
       settings.mortgage_rate := mortgage_rate c / 100;
       settings.property_tax_rate :=
         settings.property_tax_rate (settings.HOLDING_COSTS s);
       settings.insurance_rate :=
         settings.insurance_rate (settings.HOLDING_COSTS s);
       settings.monthly_utilities :=
         settings.monthly_utilities (settings.HOLDING_COSTS s) |};
     settings.AVERAGE_FLIP_MONTHS := flip_months c;
     settings.SCORING := settings.SCORING s |}.

(** [prop.comps = filtered_comps]. *)
Definition set_comps (cs : list Comp.t) (p : Property) : Property :=
  {| mls_id := mls_id p; address := address p; city := city p;
     state := state p; zip_code := zip_code p; list_price := list_price p;
     bedrooms := bedrooms p; bathrooms := bathrooms p;
     square_feet := square_feet p; lot_size := lot_size p;
     year_built := year_built p; days_on_market := days_on_market p;
     description := description p; latitude := latitude p;
     longitude := longitude p; photos := photos p;
     opportunity_keywords := opportunity_keywords p; comps := cs;
     tax_data := tax_data p; neighborhood_data := neighborhood_data p;
     estimated_repair_cost := estimated_repair_cost p;
     estimated_arv := estimated_arv p;
     estimated_profit := estimated_profit p;
     estimated_roi := estimated_roi p;
     price_per_sqft := price_per_sqft p; age := age p |}.

(** [is_comp_used]: the condition of the filter loop, on one comp. *)
Definition is_comp_used (self : app.FlipFinderDashboard) (now : datetime.t)
    (property_data : Property) (comp : Comp.t) : Py.result bool :=
  let min_sqft := square_feet property_data * app.min_comp_sqft_pct self in
  let max_sqft := square_feet property_data * app.max_comp_sqft_pct self in
  let max_distance := app.use_comps_within_miles self in
  let cutoff_date :=
    datetime.strftime_Ymd
      (datetime.sub_days now (app.max_comp_age_months self * 30)) in
  app.keep_comp min_sqft max_sqft max_distance cutoff_date comp.

(** One turn of the loop of [analyze_deals]: the property as the turn
    leaves it, and the deal it appends, if any.  [now] is the clock as
    [filter_comps] reads it in this turn. *)
Definition analyze_property (self : app.FlipFinderDashboard)
    (now : datetime.t) (s : settings.t) (prop : Property)
    : Property * Py.result (option Deal.t) :=
  match app.filter_comps self now prop with
  | Py.Raise e => (prop, Py.Raise e)
  | Py.Ok filtered_comps =>
      let prop := set_comps filtered_comps prop in
      if (List.length filtered_comps <? 3)%nat then (prop, Py.Ok None)
      else
        let repair_costs := deal_analyzer.estimate_repairs s prop in
        match app.calculate_arv self prop with
        | Py.Raise e => (prop, Py.Raise e)
        | Py.Ok arv =>
            let (prop, outcome) :=
              deal_analyzer.analyze_deal s prop arv repair_costs
                (app.min_roi self) in
            (prop, deal <- outcome ;; Py.Ok (Some deal))
        end
  end.

(** The loop over [self.properties]; the [i]-th turn reads the clock as
    [clock i].  An exception ends the loop and leaves the properties
    not yet visited as they were. *)
Fixpoint analyze_loop (self : app.FlipFinderDashboard)
    (clock : nat -> datetime.t) (s : settings.t) (i : nat)
    (properties : list Property)
    : list Property * Py.result (list Deal.t) :=
  match properties with
  | [] => ([], Py.Ok [])
  | prop :: rest =>
      match analyze_property self (clock i) s prop with
      | (prop, Py.Raise e) => (prop :: rest, Py.Raise e)
      | (prop, Py.Ok appended) =>
          let (rest, outcome) := analyze_loop self clock s (S i) rest in
          (prop :: rest,
           deals <- outcome ;;
           Py.Ok match appended with
                 | Some deal => deal :: deals
                 | None => deals
                 end)
      end
  end.

(** [analyze_deals]: the settings and the properties as the call leaves
    them, and the list it returns. *)
Definition analyze_deals (self : app.FlipFinderDashboard) (c : CostParams)
    (clock : nat -> datetime.t) (s : settings.t) (properties : list Property)
    : settings.t * list Property * Py.result (list Deal.t) :=
  let s := apply_parameters c s in
  let (properties, outcome) := analyze_loop self clock s 0 properties in
  (s, properties, outcome).

End dashboard.

(* ================================================================== *)
(** * More sample inputs *)

Module Cases.

(** The dashboard's cost parameters at their defaults. *)
Definition costs : dashboard.CostParams := {|
  dashboard.repair_cost_per_sqft := 20;
  dashboard.kitchen_reno_cost := 15000;
  dashboard.bathroom_reno_cost := 7500;
  dashboard.flip_months := 4;
  dashboard.mortgage_rate := 7 |}.

(** A clock that stays at noon of 2024-06-01, and one an hour later. *)
Definition at_noon (i : nat) : datetime.t := Sample.noon.
Definition an_hour_later (i : nat) : datetime.t := {|
  datetime.toordinal := 739038; datetime.hour := 13; datetime.minute := 0;
  datetime.second := 0; datetime.microsecond := 0 |}.

(** A listing with six comps, four of them eligible, and one with
    none. *)
Definition listings : list property.Property :=
  [Sample.six_comps; Sample.old_house].

(** A forty-year-old house with a dated kitchen, a leaking roof and an
    ageing furnace. *)
Definition dated_house : property.Property := {|
  property.mls_id := "MD1003"; property.address := "3 Birch Ln";
  property.city := "Gaithersburg"; property.state := "MD";
  property.zip_code := "20878"; property.list_price := 320000;
  property.bedrooms := 4; property.bathrooms := 2.5;
  property.square_feet := 2000; property.lot_size := "0.3";
  property.year_built := 1984; property.days_on_market := 45;
  property.description := "Dated kitchen. Roof leak over the garage";
  property.latitude := 39.1; property.longitude := -77.2;
  property.photos := []; property.opportunity_keywords := [];
  property.comps := []; property.tax_data := [];
  property.neighborhood_data := [];
  property.estimated_repair_cost := 0; property.estimated_arv := 0;
  property.estimated_profit := 0; property.estimated_roi := 0;
  property.price_per_sqft := 160; property.age := Some 40%Z |}.

(** The same listing with another square footage. *)
Definition resized (sqft : Q) (p : property.Property) : property.Property :=
  {| property.mls_id := property.mls_id p;
     property.address := property.address p;
     property.city := property.city p; property.state := property.state p;
     property.zip_code := property.zip_code p;
     property.list_price := property.list_price p;
     property.bedrooms := property.bedrooms p;
     property.bathrooms := property.bathrooms p;
     property.square_feet := sqft;
     property.lot_size := property.lot_size p;
     property.year_built := property.year_built p;
     property.days_on_market := property.days_on_market p;
     property.description := property.description p;
     property.latitude := property.latitude p;
     property.longitude := property.longitude p;
     property.photos := property.photos p;
     property.opportunity_keywords := property.opportunity_keywords p;
     property.comps := property.comps p;
     property.tax_data := property.tax_data p;
     property.neighborhood_data := property.neighborhood_data p;
     property.estimated_repair_cost := property.estimated_repair_cost p;
     property.estimated_arv := property.estimated_arv p;
     property.estimated_profit := property.estimated_profit p;
     property.estimated_roi := property.estimated_roi p;
     property.price_per_sqft := property.price_per_sqft p;
     property.age := property.age p |}.

(** A listing with three comps of which the filter keeps one. *)
Definition thin_market : property.Property :=
  Sample.with_comps
    [Sample.comp "Comp 1" "2024-05-01" 200000 1000 0.4;
     Sample.comp "Comp 5" "2024-02-11" 190000 1000 2.0;
     Sample.comp "Comp 6" "2023-06-30" 600000 1000 0.2]
    (resized 1000 Sample.two_issues).
Definition market : list property.Property :=
  [Sample.six_comps; thin_market].



End Cases.

(* ================================================================== *)
(** * Floating point

    Python's [float] and numpy's [float64] are the IEEE 754 binary64
    format: every finite float is a rational number, and an arithmetic
    operation returns the float nearest to the exact result, ties going
    to the even significand.  The functions above compute with exact
    rationals.  Where a rounding decides which branch is taken or which
    element is kept, the functions concerned are given again in module
    [float64] below, with every float operation rounded.  Infinities
    and NaN are left out: magnitudes stay below [2^1024]. *)

Module binary64.

(** [floor (log2 (a / d))] for positive [a] and [d]. *)
Definition ilog2 (a d : Z) : Z :=
  let e := (Z.log2 a - Z.log2 d)%Z in
  if (0 <=? e)%Z
  then if (a <? d * 2 ^ e)%Z then (e - 1)%Z else e
  else if (a * 2 ^ (- e) <? d)%Z then (e - 1)%Z else e.

(** The integer nearest to [n / d], ties to even, for [0 <= n] and
    [0 < d]. *)
Definition nearest_even (n d : Z) : Z :=
  let q := (n / d)%Z in
  match (2 * (n mod d) ?= d)%Z with
  | Lt => q
  | Gt => (q + 1)%Z
  | Eq => if Z.even q then q else (q + 1)%Z
  end.

(** [m * 2^e] as a fraction in lowest terms. *)
Definition scale (m e : Z) : Q :=
  if (0 <=? e)%Z then inject_Z (m * 2 ^ e)
  else Qred (Qmake m (Z.to_pos (2 ^ (- e)))).

(** The float nearest to [x]: a significand of 53 bits, or a multiple
    of [2^-1074] in the subnormal range. *)
Definition round (x : Q) : Q :=
  let n := Qnum x in
  let d := Zpos (Qden x) in
  if (n =? 0)%Z then 0
  else
    let a := Z.abs n in
    let e := Z.max (ilog2 a d - 52) (-1074) in
    let m :=
      if (0 <=? e)%Z then nearest_even a (d * 2 ^ e)
      else nearest_even (a * 2 ^ (- e)) d in
    scale (Z.sgn n * m) e.

(** [x + y], [x - y], [x * y] on floats. *)
Definition add (x y : Q) : Q := round (x + y).
Definition sub (x y : Q) : Q := round (x - y).
Definition mul (x y : Q) : Q := round (x * y).

(** [x / y] on Python numbers: raises on a zero divisor.  The quotient
    of two ints is correctly rounded as well. *)
Definition truediv (x y : Q) : Py.result Q :=
  if Qeq_bool y 0 then Py.Raise Py.ZeroDivisionError
  else Py.Ok (round (x / y)).

(** [x / n] for a count [n] of at least 1. *)
Definition div (x y : Q) : Q := round (x / y).

(** The correctly rounded square root of a non-negative number. *)
Definition sqrt (x : Q) : Q :=
  let n := Qnum x in
  let d := Zpos (Qden x) in
  if (n <=? 0)%Z then 0
  else
    let k := (ilog2 n d / 2)%Z in
    let e := Z.max (k - 52) (-1074) in
    let num := if (0 <=? e)%Z then n else (n * 4 ^ (- e))%Z in
    let den := if (0 <=? e)%Z then (d * 4 ^ e)%Z else d in
    let q := Z.sqrt (num / den) in
    let m :=
      match (4 * num ?= (2 * q + 1) * (2 * q + 1) * den)%Z with
      | Lt => q
      | Gt => (q + 1)%Z
      | Eq => if Z.even q then q else (q + 1)%Z
      end in
    scale m e.

End binary64.

(** The operations of [binary64] against the formalisation of IEEE 754
    that the library carries ([SpecFloat], at precision 53 and maximal
    exponent 1024): pairs of floats on which the two are compared by
    [binary64_conforms] below. *)

Module IEEE.

Definition to_Q (f : spec_float) : Q :=
  match f with
  | S754_finite s m e => binary64.scale (if s then Z.neg m else Z.pos m) e
  | _ => 0
  end.

Definition finite (f : spec_float) : bool :=
  match f with
  | S754_zero _ | S754_finite _ _ _ => true
  | _ => false
  end.

(** Among them 1400 and 1.15, 1000 and 1.15, 0.7 and 170000, 150000
    and 900, 0.1 and 0.2, 1e-170 and itself, the least subnormal and
    3. *)
Definition conformance_cases : list (spec_float * spec_float) :=
  [(S754_finite false 6157265115545600 (-42),
    S754_finite false 5179139571476070 (-52));
   (S754_finite false 8796093022208000 (-43),
    S754_finite false 5179139571476070 (-52));
   (S754_finite false 6305039478318694 (-53),
    S754_finite false 5841155522560000 (-35));
   (S754_finite false 5153960755200000 (-35),
    S754_finite false 7916483719987200 (-43));
   (S754_finite false 5497558138880000 (-35),
    S754_finite false 7916483719987200 (-43));
   (S754_finite false 7205759403792794 (-56),
    S754_finite false 7205759403792794 (-55));
   (S754_finite false 5438853046443695 (-617),
    S754_finite false 5438853046443695 (-617));
   (S754_finite false 5438853046443695 (-618),
    S754_finite false 6755399441055744 (-50));
   (S754_finite false 5864062014805333 (-45),
    S754_finite false 6254999482459022 (-45));
   (S754_finite true 7881299347898368 (-51),
    S754_finite false 4768371582031250 (21));
   (S754_finite false 1 (-1074),
    S754_finite false 6755399441055744 (-51));
   (S754_finite false 5010420900022432 (971),
    S754_finite false 6032057205060441 (-1049));
   (S754_finite false 8285044871132086 (-26),
    S754_finite true 4551734100187832 (-62));
   (S754_finite false 4503599627370496 (-52),
    S754_finite false 6755399441055744 (-51));
   (S754_finite false 50600563326828 (-1074),
    S754_finite false 7881299347898368 (-50))].

(** [op] and [f] return the same number on the pair [c], unless [op]
    overflows. *)
Definition agrees (op : spec_float -> spec_float -> spec_float)
    (f : Q -> Q -> Q) (c : spec_float * spec_float) : bool :=
  let r := op (fst c) (snd c) in
  negb (finite r) || Qeq_bool (to_Q r) (f (to_Q (fst c)) (to_Q (snd c))).

Definition sqrt_agrees (c : spec_float * spec_float) : bool :=
  Qeq_bool (to_Q (SFsqrt 53 1024 (SFabs (fst c))))
           (binary64.sqrt (to_Q (SFabs (fst c)))).

End IEEE.

(* ================================================================== *)
(** * The part of numpy the estimators use

    [np.mean] and [np.std] on a list of floats.  The list becomes a
    float64 array and is summed by [add.reduce], whose inner loop is a
    pairwise summation: fewer than 8 elements are added from left to
    right; up to 128 elements are added into 8 running sums, combined
    as a balanced tree, the remainder being added at the end; a longer
    array is split in two halves, the first a multiple of 8 long. *)

Module np.

Definition sum_left (a : list Q) (start : Q) : Q :=
  fold_left binary64.add a start.

(** [r[j] += a[i + j]] for [j] in [0 .. 7]. *)
Fixpoint add_each (r chunk : list Q) : list Q :=
  match r, chunk with
  | x :: r', y :: chunk' => binary64.add x y :: add_each r' chunk'
  | _, _ => r
  end.

(** The loop over whole groups of 8 elements. *)
Fixpoint accumulate (fuel : nat) (r rest : list Q) : list Q * list Q :=
  match fuel with
  | O => (r, rest)
  | S fuel' =>
      if (8 <=? List.length rest)%nat
      then accumulate fuel' (add_each r (firstn 8 rest)) (skipn 8 rest)
      else (r, rest)
  end.

Definition sum_unrolled (a : list Q) : Q :=
  let '(r, rest) :=
    accumulate (List.length a) (firstn 8 a) (skipn 8 a) in
  match r with
  | [r0; r1; r2; r3; r4; r5; r6; r7] =>
      sum_left rest
        (binary64.add
           (binary64.add (binary64.add r0 r1) (binary64.add r2 r3))
           (binary64.add (binary64.add r4 r5) (binary64.add r6 r7)))
  | _ => 0
  end.

Fixpoint pairwise_sum (fuel : nat) (a : list Q) : Q :=
  let n := List.length a in
  if (n <? 8)%nat then sum_left a 0
  else if (n <=? 128)%nat then sum_unrolled a
  else
    match fuel with
    | O => 0
    | S fuel' =>
        let n2 := (n / 2 - (n / 2) mod 8)%nat in
        binary64.add (pairwise_sum fuel' (firstn n2 a))
                     (pairwise_sum fuel' (skipn n2 a))
    end.

(** [np.add.reduce(a)]; a list of [n] elements is halved fewer than
    [n] times. *)
Definition add_reduce (a : list Q) : Q :=
  pairwise_sum (List.length a) a.

(** [np.mean(a)]: the sum divided by the number of elements. *)
Definition mean (a : list Q) : Q :=
  binary64.div (add_reduce a) (Py.len a).

(** [np.std(a)]: the square root of the mean of the squared
    deviations from the mean (the population standard deviation). *)
Definition std (a : list Q) : Q :=
  let arrmean := binary64.div (add_reduce a) (Py.len a) in
  let x := map (fun v => binary64.sub v arrmean) a in
  let x := map (fun v => binary64.mul v v) x in
  binary64.sqrt (binary64.div (add_reduce x) (Py.len a)).

End np.

(* ================================================================== *)
(** * The estimators and the comp filter on floats *)

Module float64.

Module deal_analyzer.
Import property.

Fixpoint comp_psf (comps : list Comp.t) : Py.result (list Q) :=
  match comps with
  | [] => Py.Ok []
  | comp :: rest =>
      if Py.lt 0 (Py.get (Comp.square_feet comp) 0) then
        price <- Py.getitem "price" (Comp.price comp) ;;
        square_feet <- Py.getitem "square_feet" (Comp.square_feet comp) ;;
        psf <- binary64.truediv price square_feet ;;
        tail <- comp_psf rest ;;
        Py.Ok (psf :: tail)
      else comp_psf rest
  end.

(** [[psf for psf in comp_psf if abs(psf - mean_psf) <= 2 * std_psf]]. *)
Definition within_2std (comp_psf : list Q) : list Q :=
  let mean_psf := np.mean comp_psf in
  let std_psf := np.std comp_psf in
  filter (fun psf =>
            Py.le (Qabs (binary64.sub psf mean_psf)) (binary64.mul 2 std_psf))
         comp_psf.

Definition calculate_arv (property_data : Property) : Py.result Q :=
  match comps property_data with
  | [] => Py.Ok (binary64.mul (list_price property_data) 1.5)
  | _ :: _ =>
      comp_psf <- comp_psf (comps property_data) ;;
      match comp_psf with
      | [] => Py.Ok (binary64.mul (list_price property_data) 1.5)
      | _ :: _ =>
          let mean_psf := np.mean comp_psf in
          let filtered_psf := within_2std comp_psf in
          let avg_psf :=
            match filtered_psf with
            | _ :: _ => np.mean filtered_psf
            | [] => mean_psf
            end in
          let arv := binary64.mul (square_feet property_data) avg_psf in
          Py.Ok arv
      end
  end.

End deal_analyzer.

Module app.
Import property.

Definition filter_comps (self : app.FlipFinderDashboard) (now : datetime.t)
    (property_data : Property) : Py.result (list Comp.t) :=
  match comps property_data with
  | [] => Py.Ok []
  | _ :: _ =>
      let min_sqft :=
        binary64.mul (square_feet property_data)
                     (app.min_comp_sqft_pct self) in
      let max_sqft :=
        binary64.mul (square_feet property_data)
                     (app.max_comp_sqft_pct self) in
      let max_distance := app.use_comps_within_miles self in
      let cutoff_date :=
        datetime.strftime_Ymd
          (datetime.sub_days now (app.max_comp_age_months self * 30)) in
      app.filter_loop
        (app.keep_comp min_sqft max_sqft max_distance cutoff_date)
        (comps property_data)
  end.

Definition calculate_arv (self : app.FlipFinderDashboard)
    (property_data : Property) : Py.result Q :=
  match comps property_data with
  | [] => Py.Ok (binary64.mul (list_price property_data) 1.5)
  | _ :: _ =>
      comp_psf <- deal_analyzer.comp_psf (comps property_data) ;;
      match comp_psf with
      | [] => Py.Ok (binary64.mul (list_price property_data) 1.5)
      | _ :: _ =>
          let avg_psf :=
            if app.exclude_outliers self
               && (5 <? List.length comp_psf)%nat then
              let mean_psf := np.mean comp_psf in
              let filtered_psf := deal_analyzer.within_2std comp_psf in
              match filtered_psf with
              | _ :: _ => np.mean filtered_psf
              | [] => mean_psf
              end
            else np.mean comp_psf in
          let arv := binary64.mul (square_feet property_data) avg_psf in
          Py.Ok arv
      end
  end.

End app.

(** The four constraints of the comp filter, the two bounds on the
    square footage being the products as the program computes
    them. *)
Definition eligible (self : app.FlipFinderDashboard) (now : datetime.t)
    (p : property.Property) (c : Comp.t) : Prop :=
  exists sqft dist sold,
    Spec.comp_reads c sqft dist sold
    /\ binary64.mul (property.square_feet p) (app.min_comp_sqft_pct self)
       <= sqft
    /\ sqft
       <= binary64.mul (property.square_feet p) (app.max_comp_sqft_pct self)
    /\ dist <= app.use_comps_within_miles self
    /\ datetime.date_leb
         (datetime.ord2ymd
            (datetime.toordinal now - app.max_comp_age_months self * 30)%Z)
         sold = true.

End float64.

(* ================================================================== *)
(** * Inputs on which a rounding decides the outcome *)

Module Boundary.

(** The dashboard's parameters as floats: bounds of 80% and 115% of
    the subject's square footage. *)
Definition dashboard : app.FlipFinderDashboard := {|
  app.min_roi := 20; app.use_comps_within_miles := 1;
  app.max_comp_age_months := 6;
  app.min_comp_sqft_pct := binary64.round 0.8;
  app.max_comp_sqft_pct := binary64.round 1.15;
  app.exclude_outliers := true |}.

(** Comps at the upper bound: 1400 * 1.15 rounds to
    1609.9999999999998, below 1610, and 1000 * 1.15 to 1150. *)
Definition at_upper_bound : list Comp.t :=
  [Sample.comp "Comp 1" "2024-05-01" 230000 1150 0.4;
   Sample.comp "Comp 2" "2024-04-20" 322000 1610 0.6;
   Sample.comp "Comp 3" "2024-04-02" 280000 1400 2.0].
Definition house_1000 : property.Property :=
  Sample.with_comps at_upper_bound Sample.old_house.
Definition house_1400 : property.Property :=
  Cases.resized 1400 house_1000.



End Boundary.

(* ================================================================== *)
(** * Properties of the Python built-ins *)

Lemma lt_true (x y : Q) : Py.lt x y = true <-> x < y.
Proof.
  unfold Py.lt. rewrite negb_true_iff. split; intro H.
  - apply Qnot_le_lt. intro L. apply Qle_bool_iff in L. congruence.
  - destruct (Qle_bool y x) eqn:E; [|reflexivity].
    apply Qle_bool_iff in E. exfalso. apply (Qlt_not_le _ _ H E).
Qed.

Lemma lt_false (x y : Q) : Py.lt x y = false <-> y <= x.
Proof.
  unfold Py.lt. rewrite negb_false_iff. apply Qle_bool_iff.
Qed.

Lemma le_true (x y : Q) : Py.le x y = true <-> x <= y.
Proof. apply Qle_bool_iff. Qed.

Lemma le_false (x y : Q) : Py.le x y = false <-> y < x.
Proof.
  unfold Py.le. split; intro H.
  - apply Qnot_le_lt. intro L. apply Qle_bool_iff in L. congruence.
  - destruct (Qle_bool x y) eqn:E; [|reflexivity].
    apply Qle_bool_iff in E. exfalso. apply (Qlt_not_le _ _ H E).
Qed.

Lemma min_Qmin (a b : Q) : Py.min a b == Qmin a b.
Proof.
  unfold Py.min. destruct (Py.lt b a) eqn:E.
  - apply lt_true in E. symmetry. apply Q.min_r. apply Qlt_le_weak, E.
  - apply lt_false in E. symmetry. apply Q.min_l, E.
Qed.

(** [int] agrees with the floor on non-negative numbers. *)
Lemma int_floor (x : Q) : 0 <= x -> Py.int x = Qfloor x.
Proof.
  destruct x as [n d]. unfold Qle, Py.int, Qfloor. simpl. intro H.
  apply Z.quot_div_nonneg; lia.
Qed.

Lemma floor_ge_1 (x : Q) : 1 <= x -> (1 <= Qfloor x)%Z.
Proof.
  intro H. change 1%Z with (Qfloor 1). apply Qfloor_resp_le, H.
Qed.

(** [int] maps the open interval (-1, 1) to 0. *)
Lemma int_small (x : Q) : -1 < x -> x < 1 -> Py.int x = 0%Z.
Proof.
  destruct x as [n d]. unfold Qlt, Py.int. cbn. intros L U.
  destruct (Z.le_gt_cases 0 n) as [P | N].
  - apply Z.quot_small. lia.
  - replace n with (- (- n))%Z by lia.
    rewrite Z.quot_opp_l by lia. rewrite Z.quot_small by lia. reflexivity.
Qed.

(** The kitchen multiplier [min(1, int(sqft / 1500))] is a step. *)
Lemma kitchen_step (sqft : Q) :
  -1500 < sqft ->
  (1 <= sqft / 1500 -> Z.min 1 (Py.int (sqft / 1500)) = 1%Z)
  /\ (sqft / 1500 < 1 -> Z.min 1 (Py.int (sqft / 1500)) = 0%Z).
Proof.
  intro H.
  assert (N : -1 < sqft / 1500).
  { apply Qlt_shift_div_l; lra. }
  split; intro C.
  - assert (P : 0 <= sqft / 1500) by lra.
    rewrite (int_floor _ P). pose proof (floor_ge_1 _ C). lia.
  - rewrite (int_small _ N C). reflexivity.
Qed.

Lemma in_list_true (x : string) (xs : list string) :
  Py.in_list x xs = true <-> In x xs.
Proof.
  unfold Py.in_list. rewrite existsb_exists. split.
  - intros [y [Hy E]]. apply String.eqb_eq in E. subst. exact Hy.
  - intro H. exists x. split; [exact H | apply String.eqb_refl].
Qed.

Lemma tier_match (tier : list string) (p : property.Property) :
  existsb (fun keyword => Py.in_list keyword (property.opportunity_keywords p))
          tier = true
  <-> Spec.has_keyword_of tier p.
Proof.
  unfold Spec.has_keyword_of. rewrite existsb_exists.
  split; intros [k [H1 H2]]; exists k; split; auto; apply in_list_true; auto.
Qed.

(* ================================================================== *)
(** * The coarse repair estimator *)

Lemma age_factor_cases (age : option Z) :
  (age = None -> deal_analyzer.age_factor age = 1)
  /\ (forall a, age = Some a ->
        ((50 < a)%Z -> deal_analyzer.age_factor age = 1.5)
        /\ ((30 < a <= 50)%Z -> deal_analyzer.age_factor age = 1.3)
        /\ ((15 < a <= 30)%Z -> deal_analyzer.age_factor age = 1.1)
        /\ ((a <= 15)%Z -> deal_analyzer.age_factor age = 1)).
Proof.
  split.
  - intros ->. reflexivity.
  - intros a ->. unfold deal_analyzer.age_factor.
    destruct (Z.ltb_spec 50 a); destruct (Z.ltb_spec 30 a);
      destruct (Z.ltb_spec 15 a); repeat split; intros; try lia; reflexivity.
Qed.

Lemma condition_factor_cases (p : property.Property) :
  let high := Spec.has_keyword_of deal_analyzer.high_repair_keywords p in
  let moderate := Spec.has_keyword_of deal_analyzer.moderate_repair_keywords p in
  let f := deal_analyzer.condition_factor (property.opportunity_keywords p) in
  (high -> f = 1.5)
  /\ (~ high -> moderate -> f = 1.25)
  /\ (~ high -> ~ moderate -> f = 1).
Proof.
  cbv zeta. unfold deal_analyzer.condition_factor.
  pose proof (tier_match deal_analyzer.high_repair_keywords p) as Hh.
  pose proof (tier_match deal_analyzer.moderate_repair_keywords p) as Hm.
  destruct (existsb _ deal_analyzer.high_repair_keywords);
    destruct (existsb _ deal_analyzer.moderate_repair_keywords);
    cbn [Qeq_bool]; repeat split; intros; try reflexivity;
    try (exfalso; intuition congruence).
Qed.

Lemma truthy_and_gt_true (age : option Z) (bound : Z) :
  (0 <= bound)%Z ->
  deal_analyzer.truthy_and_gt age bound = true
  <-> exists a, age = Some a /\ (bound < a)%Z.
Proof.
  intro Hb. unfold deal_analyzer.truthy_and_gt. destruct age as [a|].
  - rewrite andb_true_iff, negb_true_iff, Z.eqb_neq, Z.ltb_lt. split.
    + intros [_ H]. exists a. auto.
    + intros [a' [E H]]. inversion E. subst. lia.
  - split; [discriminate | intros [a [E _]]; discriminate].
Qed.

(** The estimate with the kitchen and bathroom additions kept apart. *)
Lemma estimate_repairs_split (s : settings.t) (p : property.Property) :
  deal_analyzer.estimate_repairs s p
  == (property.square_feet p * settings.base_sqft_cost (settings.REPAIR_COSTS s)
      * deal_analyzer.age_factor (property.age p)
      * deal_analyzer.condition_factor (property.opportunity_keywords p)
      + (if deal_analyzer.truthy_and_gt (property.age p) 20
         then settings.kitchen (settings.REPAIR_COSTS s)
              * inject_Z (Z.min 1 (Py.int (property.square_feet p / 1500)))
              + settings.bathroom (settings.REPAIR_COSTS s)
                * Py.min (property.bathrooms p) 2
         else 0))
     * 1.1.
Proof.
  unfold deal_analyzer.estimate_repairs.
  destruct (deal_analyzer.truthy_and_gt (property.age p) 20); ring.
Qed.

(** C4.  For a property whose square footage exceeds -1500, so for
    every non-negative square footage, the coarse estimate is
    [(sqft * base * age_factor * condition_factor + extras) * 1.1], where the age factor is 1.5 above 50 years, 1.3 above 30,
    1.1 above 15 and 1.0 otherwise or when the age is unknown; the
    condition factor is 1.5 when a high-repair keyword is present, else
    1.25 when a moderate keyword is present, else 1.0; and the extras,
    added only when the age exceeds 20, are the kitchen cost once when
    [sqft / 1500 >= 1] and nothing otherwise, plus the bathroom cost
    times [min(bathrooms, 2)]. *)
Theorem estimate_repairs_formula (s : settings.t) (p : property.Property) :
  -1500 < property.square_feet p ->
  let sqft := property.square_feet p in
  let costs := settings.REPAIR_COSTS s in
  let high := Spec.has_keyword_of deal_analyzer.high_repair_keywords p in
  let moderate := Spec.has_keyword_of deal_analyzer.moderate_repair_keywords p in
  let baths := settings.bathroom costs * Qmin (property.bathrooms p) 2 in
  exists age_factor condition_factor extras : Q,
    deal_analyzer.estimate_repairs s p
    == (sqft * settings.base_sqft_cost costs * age_factor * condition_factor
        + extras) * 1.1
    /\ (property.age p = None -> age_factor = 1)
    /\ (forall a, property.age p = Some a ->
          ((50 < a)%Z -> age_factor = 1.5)
          /\ ((30 < a <= 50)%Z -> age_factor = 1.3)
          /\ ((15 < a <= 30)%Z -> age_factor = 1.1)
          /\ ((a <= 15)%Z -> age_factor = 1))
    /\ (high -> condition_factor = 1.5)
    /\ (~ high -> moderate -> condition_factor = 1.25)
    /\ (~ high -> ~ moderate -> condition_factor = 1)
    /\ (forall a, property.age p = Some a -> (20 < a)%Z ->
          (1 <= sqft / 1500 -> extras == settings.kitchen costs + baths)
          /\ (sqft / 1500 < 1 -> extras == 0 + baths))
    /\ (property.age p = None -> extras == 0)
    /\ (forall a, property.age p = Some a -> (a <= 20)%Z -> extras == 0).
Proof.
  intros Hsq sqft costs high moderate baths.
  exists (deal_analyzer.age_factor (property.age p)),
         (deal_analyzer.condition_factor (property.opportunity_keywords p)),
         (if deal_analyzer.truthy_and_gt (property.age p) 20
          then settings.kitchen costs
               * inject_Z (Z.min 1 (Py.int (sqft / 1500)))
               + settings.bathroom costs * Py.min (property.bathrooms p) 2
          else 0).
  destruct (age_factor_cases (property.age p)) as [An As].
  destruct (condition_factor_cases p) as [Ch [Cm Cn]].
  destruct (kitchen_step sqft Hsq) as [Kbig Ksmall].
  split; [apply estimate_repairs_split|].
  split; [exact An|]. split; [exact As|].
  split; [exact Ch|]. split; [exact Cm|]. split; [exact Cn|].
  split; [|split].
  - intros a Ea Ha.
    assert (T : deal_analyzer.truthy_and_gt (property.age p) 20 = true)
      by (apply truthy_and_gt_true; [lia | eauto]).
    rewrite T. unfold baths. split; intro C.
    + rewrite (Kbig C), min_Qmin. ring.
    + rewrite (Ksmall C), min_Qmin. ring.
  - intros ->. reflexivity.
  - intros a Ea Ha.
    destruct (deal_analyzer.truthy_and_gt (property.age p) 20) eqn:T;
      [|reflexivity].
    apply truthy_and_gt_true in T; [|lia].
    destruct T as [a' [E' H']]. rewrite Ea in E'. inversion E'. lia.
Qed.

Lemma estimate_repairs_formula_witness :
  -1500 < property.square_feet Sample.old_house
  /\ exists age_factor condition_factor extras : Q,
       deal_analyzer.estimate_repairs settings.default Sample.old_house
       == (1000 * 20 * age_factor * condition_factor + extras) * 1.1
       /\ age_factor = 1.5 /\ condition_factor = 1 /\ extras == 15000.
Proof.
  split; [reflexivity|].
  destruct (estimate_repairs_formula settings.default Sample.old_house)
    as [af [cf [ex [E [_ [A [_ [_ [C [X _]]]]]]]]]]; [reflexivity|].
  exists af, cf, ex. split; [exact E|]. split; [|split].
  - apply (A 60%Z eq_refl). reflexivity.
  - apply C; intros [k [Hk []]].
  - destruct (X 60%Z eq_refl eq_refl) as [_ Xs].
    rewrite Xs; reflexivity.
Defined.

(** C5 as the specification words it fails on the sample house: at 1000
    sq ft the kitchen cost is not part of the estimate. *)
Lemma estimate_repairs_kitchen_counterexample :
  property.age Sample.old_house = Some 60%Z
  /\ property.square_feet Sample.old_house == 1000
  /\ settings.base_sqft_cost (settings.REPAIR_COSTS settings.default) == 20
  /\ ~ Spec.has_keyword_of deal_analyzer.high_repair_keywords Sample.old_house
  /\ ~ Spec.has_keyword_of deal_analyzer.moderate_repair_keywords Sample.old_house
  /\ ~ deal_analyzer.estimate_repairs settings.default Sample.old_house
       == (30000
           + settings.kitchen (settings.REPAIR_COSTS settings.default)
           + settings.bathroom (settings.REPAIR_COSTS settings.default)
             * Qmin (property.bathrooms Sample.old_house) 2) * 1.1.
Proof.
  repeat split; try reflexivity;
    try (intros [k [_ []]]); try (intro H; vm_compute in H; discriminate).
Qed.

(** C5, amended.  For a property aged 60 with 1000 sq ft, a base cost of
    20 per sq ft and no high or moderate keyword, the base is 30000, no
    kitchen cost is added (1000 / 1500 truncates to 0), the bathroom
    cost times [min(bathrooms, 2)] is added, and the total is multiplied
    by 1.1. *)
Theorem estimate_repairs_age60_sqft1000 (s : settings.t)
    (p : property.Property) :
  property.age p = Some 60%Z ->
  property.square_feet p == 1000 ->
  settings.base_sqft_cost (settings.REPAIR_COSTS s) == 20 ->
  ~ Spec.has_keyword_of deal_analyzer.high_repair_keywords p ->
  ~ Spec.has_keyword_of deal_analyzer.moderate_repair_keywords p ->
  deal_analyzer.age_factor (property.age p) = 1.5
  /\ deal_analyzer.condition_factor (property.opportunity_keywords p) = 1
  /\ deal_analyzer.estimate_repairs s p
     == (30000
         + settings.bathroom (settings.REPAIR_COSTS s)
           * Qmin (property.bathrooms p) 2) * 1.1.
Proof.
  intros Ea Esq Eb Nh Nm.
  destruct (condition_factor_cases p) as [_ [_ Cn]].
  assert (Hsq : -1500 < property.square_feet p)
    by (rewrite Esq; reflexivity).
  destruct (kitchen_step _ Hsq) as [_ Ksmall].
  assert (Hlt : property.square_feet p / 1500 < 1)
    by (rewrite Esq; reflexivity).
  split; [rewrite Ea; reflexivity|]. split; [apply Cn; assumption|].
  rewrite estimate_repairs_split.
  rewrite (Cn Nh Nm), Ea, (Ksmall Hlt). cbn [deal_analyzer.truthy_and_gt
    deal_analyzer.age_factor Z.eqb Z.ltb Z.compare Pos.compare
    Pos.compare_cont negb andb].
  rewrite min_Qmin, Esq, Eb. ring.
Qed.

Lemma estimate_repairs_age60_sqft1000_witness :
  deal_analyzer.estimate_repairs settings.default Sample.old_house
  == (30000 + 7500 * Qmin 2 2) * 1.1.
Proof.
  apply (estimate_repairs_age60_sqft1000 settings.default Sample.old_house);
    try reflexivity; intros [k [_ []]].
Defined.

(* ================================================================== *)
(** * The deal evaluator *)

(** The total project cost [analyze_deal] computes from its inputs. *)
Lemma analyze_deal_outcome (s : settings.t) (p : property.Property)
    (arv repair_costs min_roi : Q) :
  let total :=
    property.list_price p + repair_costs
    + deal_analyzer.closing.total
        (deal_analyzer.calculate_closing_costs s (property.list_price p) arv)
    + deal_analyzer.calculate_holding_costs s (property.list_price p)
        (settings.AVERAGE_FLIP_MONTHS s) in
  (total == 0
   /\ snd (deal_analyzer.analyze_deal s p arv repair_costs min_roi)
      = Py.Raise Py.ZeroDivisionError)
  \/ (~ total == 0
      /\ exists d,
           snd (deal_analyzer.analyze_deal s p arv repair_costs min_roi)
           = Py.Ok d
           /\ Deal.total_project_cost d = total).
Proof.
  cbv zeta. unfold deal_analyzer.analyze_deal, Py.truediv.
  cbn [property.list_price property.set_estimated_arv
       property.set_estimated_repair_cost property.set_estimated_profit].
  match goal with
  | |- context [Qeq_bool ?t 0] => destruct (Qeq_bool t 0) eqn:E
  end.
  - left. split; [apply Qeq_bool_eq, E | reflexivity].
  - right. split; [apply Qeq_bool_neq, E|].
    eexists. split; reflexivity.
Qed.

(** C1.  Every deal that [analyze_deal] returns satisfies the accounting
    identities: the total project cost is list price + repair costs +
    total closing costs + holding costs, the potential profit is ARV
    minus the total project cost, and the ROI is profit / total cost *
    100, the total cost being non-zero. *)
Theorem analyze_deal_accounting (s : settings.t) (p p' : property.Property)
    (arv repair_costs min_roi : Q) (d : Deal.t) :
  deal_analyzer.analyze_deal s p arv repair_costs min_roi = (p', Py.Ok d) ->
  Deal.total_project_cost d
  = Deal.list_price d + Deal.repair_costs d + Deal.closing_costs d
    + Deal.holding_costs d
  /\ Deal.potential_profit d = Deal.arv d - Deal.total_project_cost d
  /\ Deal.roi d = Deal.potential_profit d / Deal.total_project_cost d * 100
  /\ ~ Deal.total_project_cost d == 0
  /\ Deal.list_price d = property.list_price p
  /\ Deal.arv d = arv
  /\ Deal.repair_costs d = repair_costs
  /\ Deal.closing_costs d
     = deal_analyzer.closing.total
         (deal_analyzer.calculate_closing_costs s (property.list_price p) arv)
  /\ Deal.holding_costs d
     = deal_analyzer.calculate_holding_costs s (property.list_price p)
         (settings.AVERAGE_FLIP_MONTHS s).
Proof.
  unfold deal_analyzer.analyze_deal, Py.truediv.
  cbn [property.list_price property.set_estimated_arv
       property.set_estimated_repair_cost property.set_estimated_profit
       property.set_estimated_roi].
  match goal with
  | |- context [Qeq_bool ?t 0] => destruct (Qeq_bool t 0) eqn:E
  end.
  - discriminate.
  - intro H. inversion H; subst; clear H. cbn.
    repeat split. apply Qeq_bool_neq, E.
Qed.

Lemma analyze_deal_accounting_witness :
  exists d,
    snd (deal_analyzer.analyze_deal settings.default Sample.old_house
           450000 49500 20) = Py.Ok d
    /\ Deal.total_project_cost d
       = Deal.list_price d + Deal.repair_costs d + Deal.closing_costs d
         + Deal.holding_costs d
    /\ Deal.total_project_cost d == 404300.
Proof.
  destruct (deal_analyzer.analyze_deal settings.default Sample.old_house
              450000 49500 20) as [p' [d|e]] eqn:E.
  - exists d. split; [reflexivity|].
    destruct (analyze_deal_accounting _ _ _ _ _ _ _ E) as [T _].
    split; [exact T|].
    vm_compute in E. inversion E. reflexivity.
  - vm_compute in E. discriminate.
Defined.

(** C2.  With flat monthly utilities configured to zero, an unpriced
    listing analysed with zero ARV and zero repair costs has a total
    project cost of zero and [analyze_deal] raises [ZeroDivisionError];
    under the shipped configuration the same happens when the repair
    costs cancel the 800 of utilities. *)
Theorem analyze_deal_zero_cost_raises :
  snd (deal_analyzer.analyze_deal Sample.no_utilities Sample.unpriced 0 0 20)
  = Py.Raise Py.ZeroDivisionError
  /\ snd (deal_analyzer.analyze_deal settings.default Sample.unpriced 0 (-800) 20)
     = Py.Raise Py.ZeroDivisionError.
Proof.
  split; vm_compute; reflexivity.
Qed.

(** The division in [analyze_deal] is unguarded for every input. *)
Lemma analyze_deal_raises_iff (s : settings.t) (p : property.Property)
    (arv repair_costs min_roi : Q) :
  snd (deal_analyzer.analyze_deal s p arv repair_costs min_roi)
  = Py.Raise Py.ZeroDivisionError
  <-> property.list_price p + repair_costs
      + deal_analyzer.closing.total
          (deal_analyzer.calculate_closing_costs s (property.list_price p) arv)
      + deal_analyzer.calculate_holding_costs s (property.list_price p)
          (settings.AVERAGE_FLIP_MONTHS s) == 0.
Proof.
  destruct (analyze_deal_outcome s p arv repair_costs min_roi)
    as [[Z R] | [NZ [d [R _]]]].
  - split; auto.
  - split; intro H; [rewrite R in H; discriminate | contradiction].
Qed.

(** C10.  Whatever the inputs, [analyze_deal] leaves every field of the
    property outside the four analysis fields unchanged, and sets
    [estimated_repair_cost] to the repair costs, [estimated_arv] to the
    ARV and [estimated_profit] to the computed profit; when it returns a
    deal, [estimated_roi] is the deal's ROI and [estimated_profit] the
    deal's potential profit; when it raises, [estimated_roi] keeps its
    value. *)
Theorem analyze_deal_frame (s : settings.t) (p : property.Property)
    (arv repair_costs min_roi : Q) :
  let p' := fst (deal_analyzer.analyze_deal s p arv repair_costs min_roi) in
  let r := snd (deal_analyzer.analyze_deal s p arv repair_costs min_roi) in
  Spec.same_listing p p'
  /\ property.estimated_repair_cost p' = repair_costs
  /\ property.estimated_arv p' = arv
  /\ property.estimated_profit p'
     = arv - (property.list_price p + repair_costs
              + deal_analyzer.closing.total
                  (deal_analyzer.calculate_closing_costs s
                     (property.list_price p) arv)
              + deal_analyzer.calculate_holding_costs s
                  (property.list_price p) (settings.AVERAGE_FLIP_MONTHS s))
  /\ (forall d, r = Py.Ok d ->
        property.estimated_roi p' = Deal.roi d
        /\ property.estimated_profit p' = Deal.potential_profit d
        /\ Deal.roi d
           = property.estimated_profit p' / Deal.total_project_cost d * 100)
  /\ (forall e, r = Py.Raise e ->
        property.estimated_roi p' = property.estimated_roi p).
Proof.
  cbv zeta. unfold deal_analyzer.analyze_deal, Py.truediv.
  cbn [property.list_price property.set_estimated_arv
       property.set_estimated_repair_cost property.set_estimated_profit
       property.set_estimated_roi].
  match goal with |- context [Qeq_bool ?t 0] => destruct (Qeq_bool t 0) end;
    cbn [fst snd]; unfold Spec.same_listing; cbn;
    (repeat split; try reflexivity); intros;
    match goal with
    | H : _ = Py.Ok _ |- _ => inversion H
    | H : _ = Py.Raise _ |- _ => inversion H
    end; reflexivity.
Qed.

Lemma analyze_deal_frame_witness :
  let p' := fst (deal_analyzer.analyze_deal settings.default Sample.old_house
                   450000 49500 20) in
  Spec.same_listing Sample.old_house p'
  /\ property.estimated_repair_cost p' = 49500
  /\ property.estimated_arv p' = 450000
  /\ property.estimated_profit p' == 45700
  /\ property.estimated_roi p' == 45700 / 404300 * 100.
Proof.
  destruct (analyze_deal_frame settings.default Sample.old_house
              450000 49500 20) as [F [R [A [P [O _]]]]].
  cbv zeta. split; [exact F|]. split; [exact R|]. split; [exact A|].
  split; [rewrite P; vm_compute; reflexivity|].
  destruct (snd (deal_analyzer.analyze_deal settings.default Sample.old_house
                   450000 49500 20)) as [d|e] eqn:E.
  - destruct (O d eq_refl) as [Er _]. rewrite Er.
    vm_compute in E. inversion E. vm_compute. reflexivity.
  - vm_compute in E. discriminate.
Defined.

(* ================================================================== *)
(** * The ARV estimator *)

Lemma sum_acc_nonneg (xs : list Q) (a : Q) :
  (forall x, In x xs -> 0 <= x) -> 0 <= a -> 0 <= fold_left Qplus xs a.
Proof.
  revert a. induction xs as [|x xs IH]; intros a Hx Ha; [exact Ha|].
  cbn. apply IH.
  - intros y Hy. apply Hx. right. exact Hy.
  - assert (0 <= x) by (apply Hx; left; reflexivity). lra.
Qed.

Lemma len_nonneg {A} (xs : list A) : 0 <= Py.len xs.
Proof.
  unfold Py.len, Qle. cbn. lia.
Qed.

Lemma mean_nonneg (xs : list Q) :
  (forall x, In x xs -> 0 <= x) -> 0 <= Py.mean xs.
Proof.
  intro H. unfold Py.mean, Qdiv. apply Qmult_le_0_compat.
  - apply sum_acc_nonneg; [exact H | lra].
  - apply Qinv_le_0_compat, len_nonneg.
Qed.

Lemma var_nonneg (xs : list Q) : 0 <= Py.var xs.
Proof.
  unfold Py.var. apply mean_nonneg. intros y Hy.
  apply in_map_iff in Hy. destruct Hy as [x [<- _]].
  generalize (x - Py.mean xs). intro d. nra.
Qed.

(** The comparison on squares decides the comparison against twice the
    square root. *)
Lemma abs_le_2std_sqrt (d v : Q) :
  0 <= v ->
  Py.abs_le_2std d v = true <-> (Rabs (Q2R d) <= 2 * sqrt (Q2R v))%R.
Proof.
  intro Hv. apply Qle_Rle in Hv.
  replace (Q2R 0) with 0%R in Hv by (unfold Q2R; cbn; Lra.lra).
  assert (E4 : Q2R 4 = 4%R) by (unfold Q2R; cbn; Lra.lra).
  assert (S4 : sqrt 4 = 2%R).
  { replace 4%R with (2 * 2)%R by Lra.lra. apply sqrt_square. Lra.lra. }
  unfold Py.abs_le_2std. rewrite Qle_bool_iff. split; intro H.
  - apply Qle_Rle in H. rewrite !Q2R_mult, E4 in H.
    rewrite <- sqrt_Rsqr_abs, <- S4, <- sqrt_mult by Lra.lra.
    apply sqrt_le_1_alt. exact H.
  - apply Rle_Qle. rewrite !Q2R_mult, E4.
    pose proof (sqrt_sqrt _ Hv) as Sv.
    pose proof (sqrt_pos (Q2R v)) as Sp.
    pose proof (Rabs_pos (Q2R d)) as Ap.
    assert (Sq : (Rabs (Q2R d) * Rabs (Q2R d) = Q2R d * Q2R d)%R).
    { unfold Rabs. destruct (Rcase_abs (Q2R d)); Lra.lra. }
    rewrite <- Sq.
    replace (4 * Q2R v)%R
      with ((2 * sqrt (Q2R v)) * (2 * sqrt (Q2R v)))%R by Lra.nra.
    apply Rmult_le_compat; assumption.
Qed.

(** The samples retained by the filter are those within two population
    standard deviations of the mean. *)
Lemma within_2std_spec (samples : list Q) (x : Q) :
  In x (deal_analyzer.within_2std samples)
  <-> In x samples
      /\ (Rabs (Q2R x - Q2R (Py.mean samples))
          <= 2 * sqrt (Q2R (Py.var samples)))%R.
Proof.
  unfold deal_analyzer.within_2std. rewrite filter_In.
  rewrite (abs_le_2std_sqrt _ _ (var_nonneg samples)), Q2R_minus.
  reflexivity.
Qed.

(** Comps without a positive square footage yield no sample and the
    comprehension reads none of their other keys. *)
Lemma comp_psf_no_area (comps : list Comp.t) :
  (forall c sqft, In c comps -> Comp.square_feet c = Some sqft -> sqft <= 0) ->
  deal_analyzer.comp_psf comps = Py.Ok [].
Proof.
  induction comps as [|c comps IH]; intro H; [reflexivity|].
  cbn [deal_analyzer.comp_psf].
  assert (L : Py.lt 0 (Py.get (Comp.square_feet c) 0) = false).
  { apply lt_false. destruct (Comp.square_feet c) as [sqft|] eqn:E; cbn.
    - apply (H c sqft); [left; reflexivity | exact E].
    - lra. }
  rewrite L. apply IH. intros c' sqft Hc. apply H. right. exact Hc.
Qed.

(** C9.  When the comp list is empty, or no comp has a positive square
    footage, both ARV estimators return [list_price * 1.5] without
    raising; with no comps and a list price of 300000 the result is
    450000. *)
Theorem calculate_arv_fallback (p : property.Property) :
  (forall c sqft,
     In c (property.comps p) -> Comp.square_feet c = Some sqft -> sqft <= 0) ->
  deal_analyzer.calculate_arv p = Py.Ok (property.list_price p * 1.5)
  /\ (forall self, app.calculate_arv self p
                   = Py.Ok (property.list_price p * 1.5))
  /\ (property.list_price p == 300000 ->
      exists arv, deal_analyzer.calculate_arv p = Py.Ok arv /\ arv == 450000).
Proof.
  intro H.
  assert (E : deal_analyzer.calculate_arv p
              = Py.Ok (property.list_price p * 1.5)).
  { unfold deal_analyzer.calculate_arv.
    destruct (property.comps p) as [|c cs] eqn:Ec; [reflexivity|].
    rewrite (comp_psf_no_area _ H). reflexivity. }
  split; [exact E|]. split.
  - intro self. unfold app.calculate_arv.
    destruct (property.comps p) as [|c cs] eqn:Ec; [reflexivity|].
    rewrite (comp_psf_no_area _ H). reflexivity.
  - intro L. eexists. split; [exact E|]. rewrite L. reflexivity.
Qed.

Lemma calculate_arv_fallback_witness :
  deal_analyzer.calculate_arv Sample.degenerate_comps = Py.Ok (300000 * 1.5).
Proof.
  apply (calculate_arv_fallback Sample.degenerate_comps).
  intros c sqft [<- | [<- | []]] E; inversion E. discriminate.
Defined.

(** The dashboard's estimator in one expression. *)
Lemma app_calculate_arv_samples (self : app.FlipFinderDashboard)
    (p : property.Property) (samples : list Q) :
  deal_analyzer.comp_psf (property.comps p) = Py.Ok samples ->
  samples <> [] ->
  app.calculate_arv self p
  = Py.Ok
      (property.square_feet p
       * (if app.exclude_outliers self && (5 <? List.length samples)%nat
          then match deal_analyzer.within_2std samples with
               | _ :: _ => Py.mean (deal_analyzer.within_2std samples)
               | [] => Py.mean samples
               end
          else Py.mean samples)).
Proof.
  intros H N. unfold app.calculate_arv.
  destruct (property.comps p) as [|c cs].
  - cbn in H. inversion H. congruence.
  - rewrite H. cbn [Py.bind]. destruct samples; [congruence | reflexivity].
Qed.

Lemma sq_nonneg (x : Q) : 0 <= x * x.
Proof. nra. Qed.

Lemma sum_acc (xs : list Q) (a : Q) :
  fold_left Qplus xs a == a + Py.sum xs.
Proof.
  unfold Py.sum. revert a. induction xs as [|x xs IH]; intro a; cbn.
  - ring.
  - rewrite (IH (a + x)), (IH (0 + x)). ring.
Qed.

(** ** The estimators on floats

    Which samples the rejection step retains is decided by a rounded
    comparison, so the claim is settled on the functions of module
    [float64]. *)

(** On the sample pairs the five operations of [binary64] return what
    IEEE 754 prescribes. *)
Lemma binary64_conforms :
  forallb (fun c =>
             IEEE.agrees (SFadd 53 1024) binary64.add c
             && IEEE.agrees (SFsub 53 1024) binary64.sub c
             && IEEE.agrees (SFmul 53 1024) binary64.mul c
             && IEEE.agrees (SFdiv 53 1024) binary64.div c
             && IEEE.sqrt_agrees c)
          IEEE.conformance_cases
  = true.
Proof. vm_compute. reflexivity. Qed.






(* ================================================================== *)
(** * The renovation-level classifier *)

Lemma prefix_app (needle haystack : string) :
  String.prefix needle haystack = true
  <-> exists after, haystack = (needle ++ after)%string.
Proof.
  revert haystack. induction needle as [|c needle IH]; intro haystack.
  - split; [intros _; exists haystack; reflexivity|].
    intros _. destruct haystack; reflexivity.
  - destruct haystack as [|h haystack]; cbn.
    + split; [discriminate | intros [after E]; discriminate].
    + destruct (Ascii.ascii_dec c h) as [->|Ne].
      * rewrite IH. split; intros [after E]; exists after.
        -- rewrite E. reflexivity.
        -- inversion E. reflexivity.
      * split; [discriminate | intros [after E]; inversion E; congruence].
Qed.

(** [needle in haystack] holds exactly when [needle] occurs in
    [haystack]. *)
Lemma str_in_contains (needle haystack : string) :
  Py.str_in needle haystack = true <-> Spec.contains needle haystack.
Proof.
  unfold Spec.contains. induction haystack as [|h haystack IH].
  - cbn [Py.str_in]. rewrite orb_false_r, prefix_app. split.
    + intros [after E]. exists EmptyString, after. exact E.
    + intros [[|b before] [after E]]; [exists after; exact E | discriminate].
  - cbn [Py.str_in]. rewrite orb_true_iff, prefix_app, IH. split.
    + intros [[after E] | [before [after E]]].
      * exists EmptyString, after. exact E.
      * exists (String h before), after. rewrite E. reflexivity.
    + intros [[|b before] [after E]].
      * left. exists after. exact E.
      * right. inversion E. exists before, after. reflexivity.
Qed.

Lemma mentions_true (description : string) (ks : list string) :
  repair_estimator.mentions description ks = true
  <-> exists k, In k ks /\ Spec.contains k description.
Proof.
  unfold repair_estimator.mentions, Py.any. rewrite existsb_exists.
  split; intros [k [H1 H2]]; exists k; split; auto;
    apply str_in_contains; exact H2.
Qed.

(** Two named issues are counted as at least two serious issues. *)
Lemma serious_issues_foundation_electrical (description : string) :
  Spec.contains "foundation" description ->
  Spec.contains "electrical" description ->
  (2 <= repair_estimator.serious_issues description)%nat.
Proof.
  intros F E. unfold repair_estimator.serious_issues.
  assert (Hf : repair_estimator.mentions description
                 ["foundation"; "structural"]%string = true).
  { apply mentions_true. exists "foundation"%string. split; [left|]; auto. }
  assert (He : repair_estimator.mentions description
                 ["electrical"; "wiring"]%string = true).
  { apply mentions_true. exists "electrical"%string. split; [left|]; auto. }
  rewrite Hf, He. unfold repair_estimator.count_true.
  destruct (repair_estimator.mentions description ["roof"; "leak"]%string);
    destruct (repair_estimator.mentions description
                ["hvac"; "heat"; "cooling"]%string);
    destruct (repair_estimator.mentions description
                ["plumbing"; "pipes"]%string);
    cbn; lia.
Qed.

(** C8.  The classifier follows its decision table in priority order:
    extensive when two extensive indicators or two serious issues are
    found; else moderate when one extensive indicator, two moderate
    indicators or one serious issue is found; else, with one moderate
    indicator, moderate on a cosmetic baseline and the baseline
    otherwise; else the baseline.  A description that names both
    "foundation" and "electrical" is classified extensive whatever the
    baseline. *)
Theorem estimate_renovation_level_table (p : property.Property) :
  let description := Py.lower (property.description p) in
  let ext := repair_estimator.extensive_count p in
  let mdr := repair_estimator.moderate_count p in
  let ser := repair_estimator.serious_issues description in
  let base := repair_estimator.base_level (property.age p) in
  let level := repair_estimator.estimate_renovation_level p in
  ((2 <= ext \/ 2 <= ser)%nat -> level = repair_estimator.extensive)
  /\ ((ext < 2)%nat -> (ser < 2)%nat ->
      (1 <= ext \/ 2 <= mdr \/ 1 <= ser)%nat ->
      level = repair_estimator.moderate)
  /\ ((ext < 1)%nat -> (ser < 1)%nat -> (mdr < 2)%nat -> (1 <= mdr)%nat ->
      (base = repair_estimator.cosmetic -> level = repair_estimator.moderate)
      /\ (base <> repair_estimator.cosmetic -> level = base))
  /\ ((ext < 1)%nat -> (ser < 1)%nat -> (mdr < 1)%nat -> level = base)
  /\ (Spec.contains "foundation" description ->
      Spec.contains "electrical" description ->
      (2 <= ser)%nat /\ level = repair_estimator.extensive).
Proof.
  cbv zeta.
  assert (T : forall e m s : nat,
    (if (2 <=? e)%nat || (2 <=? s)%nat then repair_estimator.extensive
     else if (1 <=? e)%nat || (2 <=? m)%nat || (1 <=? s)%nat
          then repair_estimator.moderate
          else if (1 <=? m)%nat
               then if repair_estimator.level_eqb
                         (repair_estimator.base_level (property.age p))
                         repair_estimator.cosmetic
                    then repair_estimator.moderate
                    else repair_estimator.base_level (property.age p)
               else repair_estimator.base_level (property.age p))
    = repair_estimator.estimate_renovation_level p ->
    e = repair_estimator.extensive_count p ->
    m = repair_estimator.moderate_count p ->
    s = repair_estimator.serious_issues (Py.lower (property.description p)) ->
    ((2 <= e \/ 2 <= s)%nat ->
       repair_estimator.estimate_renovation_level p = repair_estimator.extensive)
    /\ ((e < 2)%nat -> (s < 2)%nat -> (1 <= e \/ 2 <= m \/ 1 <= s)%nat ->
        repair_estimator.estimate_renovation_level p = repair_estimator.moderate)
    /\ ((e < 1)%nat -> (s < 1)%nat -> (m < 2)%nat -> (1 <= m)%nat ->
        (repair_estimator.base_level (property.age p)
         = repair_estimator.cosmetic ->
         repair_estimator.estimate_renovation_level p
         = repair_estimator.moderate)
        /\ (repair_estimator.base_level (property.age p)
            <> repair_estimator.cosmetic ->
            repair_estimator.estimate_renovation_level p
            = repair_estimator.base_level (property.age p)))
    /\ ((e < 1)%nat -> (s < 1)%nat -> (m < 1)%nat ->
        repair_estimator.estimate_renovation_level p
        = repair_estimator.base_level (property.age p))).
  { intros e m s <- _ _ _.
    destruct (Nat.leb_spec 2 e); destruct (Nat.leb_spec 2 s);
      destruct (Nat.leb_spec 1 e); destruct (Nat.leb_spec 2 m);
      destruct (Nat.leb_spec 1 s); destruct (Nat.leb_spec 1 m);
      cbn [orb]; repeat split; intros; try lia; try reflexivity;
      destruct (repair_estimator.base_level (property.age p));
      cbn; congruence. }
  destruct (T _ _ _ eq_refl eq_refl eq_refl eq_refl) as [Ta [Tb [Tc Td]]].
  split; [exact Ta|]. split; [exact Tb|]. split; [exact Tc|].
  split; [exact Td|].
  intros F E.
  pose proof (serious_issues_foundation_electrical _ F E) as S.
  split; [exact S | apply Ta; right; exact S].
Qed.

Lemma estimate_renovation_level_table_witness :
  repair_estimator.base_level (property.age Sample.two_issues)
  = repair_estimator.cosmetic
  /\ repair_estimator.estimate_renovation_level Sample.two_issues
     = repair_estimator.extensive.
Proof.
  split; [reflexivity|].
  destruct (estimate_renovation_level_table Sample.two_issues)
    as [_ [_ [_ [_ P]]]].
  apply P; apply str_in_contains; vm_compute; reflexivity.
Defined.

(* ================================================================== *)
(** * The scorer *)

Section SortDesc.
Context {A : Type} (key : A -> Q).


Lemma insert_desc_perm (x : A) (l : list A) :
  Permutation (Py.insert_desc key x l) (x :: l).
Proof.
  induction l as [|y l IH]; cbn; [reflexivity|].
  destruct (Py.lt (key x) (key y)); [|reflexivity].
  rewrite IH. apply perm_swap.
Qed.

Lemma sort_desc_perm (l : list A) : Permutation (Py.sort_desc key l) l.
Proof.
  induction l as [|x l IH]; cbn; [reflexivity|].
  rewrite insert_desc_perm. constructor. exact IH.
Qed.



(** Stability: the elements that share a key keep their order. *)
Lemma insert_desc_same_key (k : Q) (x : A) (l : list A) :
  filter (fun y => Qeq_bool (key y) k) (Py.insert_desc key x l)
  = filter (fun y => Qeq_bool (key y) k) (x :: l).
Proof.
  induction l as [|y l IH]; [reflexivity|].
  cbn [Py.insert_desc]. destruct (Py.lt (key x) (key y)) eqn:E;
    [|reflexivity].
  cbn [filter] in *. rewrite IH.
  destruct (Qeq_bool (key x) k) eqn:Px; [|reflexivity].
  destruct (Qeq_bool (key y) k) eqn:Py; [|reflexivity].
  apply lt_true in E. apply Qeq_bool_eq in Px, Py. lra.
Qed.

Lemma sort_desc_stable (k : Q) (l : list A) :
  filter (fun y => Qeq_bool (key y) k) (Py.sort_desc key l)
  = filter (fun y => Qeq_bool (key y) k) l.
Proof.
  induction l as [|x l IH]; [reflexivity|].
  cbn [Py.sort_desc fold_right]. rewrite insert_desc_same_key.
  cbn [filter]. fold (Py.sort_desc key l). rewrite IH. reflexivity.
Qed.
End SortDesc.

Lemma max_acc_spec (xs : list Q) (a : Q) :
  In (fold_left Py.max xs a) (a :: xs)
  /\ forall v, In v (a :: xs) -> v <= fold_left Py.max xs a.
Proof.
  revert a. induction xs as [|x xs IH]; intro a; cbn [fold_left].
  - split; [left; reflexivity|]. intros v [<- | []]. lra.
  - destruct (IH (Py.max a x)) as [I U].
    assert (M : a <= Py.max a x /\ x <= Py.max a x
                /\ (Py.max a x = a \/ Py.max a x = x)).
    { unfold Py.max. destruct (Py.lt a x) eqn:E.
      - apply lt_true in E. repeat split; [lra | lra | right; reflexivity].
      - apply lt_false in E. repeat split; [lra | lra | left; reflexivity]. }
    destruct M as [Ma [Mx Mc]]. split.
    + destruct I as [I | I].
      * destruct Mc as [Mc | Mc]; rewrite <- I, Mc; cbn; auto.
      * right. right. exact I.
    + intros v [<- | [<- | Hv]].
      * eapply Qle_trans; [exact Ma | apply U; left; reflexivity].
      * eapply Qle_trans; [exact Mx | apply U; left; reflexivity].
      * apply U. right. exact Hv.
Qed.

Lemma min_acc_spec (xs : list Q) (a : Q) :
  In (fold_left Py.min xs a) (a :: xs)
  /\ forall v, In v (a :: xs) -> fold_left Py.min xs a <= v.
Proof.
  revert a. induction xs as [|x xs IH]; intro a; cbn [fold_left].
  - split; [left; reflexivity|]. intros v [<- | []]. lra.
  - destruct (IH (Py.min a x)) as [I U].
    assert (M : Py.min a x <= a /\ Py.min a x <= x
                /\ (Py.min a x = a \/ Py.min a x = x)).
    { unfold Py.min. destruct (Py.lt x a) eqn:E.
      - apply lt_true in E. repeat split; [lra | lra | right; reflexivity].
      - apply lt_false in E. repeat split; [lra | lra | left; reflexivity]. }
    destruct M as [Ma [Mx Mc]]. split.
    + destruct I as [I | I].
      * destruct Mc as [Mc | Mc]; rewrite <- I, Mc; cbn; auto.
      * right. right. exact I.
    + intros v [<- | [<- | Hv]].
      * eapply Qle_trans; [apply U; left; reflexivity | exact Ma].
      * eapply Qle_trans; [apply U; left; reflexivity | exact Mx].
      * apply U. right. exact Hv.
Qed.

Lemma max_or_0_spec (values : list Q) :
  values <> [] -> Spec.is_max (property_scorer.max_or_0 values) values.
Proof.
  destruct values as [|v rest]; [congruence|]. intros _.
  destruct (max_acc_spec rest v) as [I U].
  split; [|exact U]. eexists. split; [exact I | reflexivity].
Qed.

Lemma min_or_0_spec (values : list Q) :
  values <> [] -> Spec.is_min (property_scorer.min_or_0 values) values.
Proof.
  destruct values as [|v rest]; [congruence|]. intros _.
  destruct (min_acc_spec rest v) as [I U].
  split; [|exact U]. eexists. split; [exact I | reflexivity].
Qed.

Lemma min_le_max (values : list Q) :
  values <> [] ->
  property_scorer.min_or_0 values <= property_scorer.max_or_0 values.
Proof.
  intro N. destruct (max_or_0_spec values N) as [_ U].
  destruct (min_or_0_spec values N) as [_ L].
  destruct values as [|v rest]; [congruence|].
  eapply Qle_trans; [apply L | apply U]; left; reflexivity.
Qed.


(** One guarded step of the scoring loop is the normalised
    contribution of the specification. *)
Lemma guarded_contribution (score weight value lo hi : Q) :
  lo <= hi ->
  (if Py.lt 0 (hi - lo) then score + weight * (value - lo) / (hi - lo)
   else score)
  == score + Spec.contribution weight value lo hi.
Proof.
  intro L. unfold Spec.contribution.
  destruct (Py.lt 0 (hi - lo)) eqn:E.
  - apply lt_true in E.
    destruct (Qeq_bool hi lo) eqn:B.
    + apply Qeq_bool_eq in B. lra.
    + field. lra.
  - apply lt_false in E.
    assert (B : Qeq_bool hi lo = true) by (apply Qeq_eq_bool; lra).
    rewrite B. ring.
Qed.

Lemma guarded_inverted_contribution (score weight value lo hi : Q) :
  lo <= hi ->
  (if Py.lt 0 (hi - lo)
   then score + weight * (1 - (value - lo) / (hi - lo))
   else score)
  == score + Spec.inverted_contribution weight value lo hi.
Proof.
  intro L. unfold Spec.inverted_contribution.
  destruct (Py.lt 0 (hi - lo)) eqn:E.
  - apply lt_true in E.
    destruct (Qeq_bool hi lo) eqn:B.
    + apply Qeq_bool_eq in B. lra.
    + reflexivity.
  - apply lt_false in E.
    assert (B : Qeq_bool hi lo = true) by (apply Qeq_eq_bool; lra).
    rewrite B. ring.
Qed.

Lemma guarded_keyword_bonus (s : settings.t) (d : Deal.t) (score : Q) :
  0 <= settings.opportunity_keywords_weight (settings.SCORING s) ->
  match property.dict.opportunity_keywords (Deal.property_data d) with
  | _ :: _ =>
      score
      + Py.min (settings.opportunity_keywords_weight (settings.SCORING s))
          (Py.len (property.dict.opportunity_keywords (Deal.property_data d)))
  | [] => score
  end
  == score + Spec.keyword_bonus s d.
Proof.
  intro W. unfold Spec.keyword_bonus.
  destruct (property.dict.opportunity_keywords (Deal.property_data d)).
  - change (Py.len (@nil string)) with 0.
    rewrite Q.min_r by exact W. ring.
  - rewrite min_Qmin. reflexivity.
Qed.

Lemma guarded_rule_bonus (s : settings.t) (d : Deal.t) (score : Q) :
  (if Deal.meets_70_percent_rule d
   then score + settings.meets_70_rule_weight (settings.SCORING s)
   else score)
  == score + Spec.rule_bonus s d.
Proof.
  unfold Spec.rule_bonus. destruct (Deal.meets_70_percent_rule d); ring.
Qed.

(** The score the loop assigns, as the sum of the six contributions. *)
Lemma score_of_sum (s : settings.t) (deals : list Deal.t) (d : Deal.t) :
  deals <> [] ->
  0 <= settings.opportunity_keywords_weight (settings.SCORING s) ->
  let lo metric := property_scorer.min_or_0 (map metric deals) in
  let hi metric := property_scorer.max_or_0 (map metric deals) in
  let w := settings.SCORING s in
  property_scorer.score_of s deals d
  == Spec.contribution (settings.profit_weight w) (Deal.potential_profit d)
       (lo Deal.potential_profit) (hi Deal.potential_profit)
     + Spec.contribution (settings.roi_weight w) (Deal.roi d)
         (lo Deal.roi) (hi Deal.roi)
     + Spec.inverted_contribution (settings.repair_cost_weight w)
         (Deal.repair_costs d) (lo Deal.repair_costs) (hi Deal.repair_costs)
     + Spec.contribution (settings.dom_weight w) (property_scorer.dom d)
         (lo property_scorer.dom) (hi property_scorer.dom)
     + Spec.keyword_bonus s d
     + Spec.rule_bonus s d.
Proof.
  intros N W. cbv zeta.
  assert (R : forall metric : Deal.t -> Q,
            property_scorer.min_or_0 (map metric deals)
            <= property_scorer.max_or_0 (map metric deals)).
  { intro metric. apply min_le_max. destruct deals; [congruence|discriminate]. }
  unfold property_scorer.score_of.
  rewrite guarded_rule_bonus.
  rewrite (guarded_keyword_bonus s d _ W).
  rewrite (guarded_contribution _ _ _ _ _ (R property_scorer.dom)).
  rewrite (guarded_inverted_contribution _ _ _ _ _ (R Deal.repair_costs)).
  rewrite (guarded_contribution _ _ _ _ _ (R Deal.roi)).
  rewrite (guarded_contribution _ _ _ _ _ (R Deal.potential_profit)).
  ring.
Qed.





(** Deals of equal score leave [score_deals] in the order in which
    they entered it. *)
Lemma score_deals_stable (s : settings.t) (deals : list Deal.t) (k : Q) :
  filter (fun d => Qeq_bool (property_scorer.score_key d) k)
         (property_scorer.score_deals s deals)
  = filter (fun d => Qeq_bool (property_scorer.score_key d) k)
      (map (fun d => Deal.set_score (property_scorer.score_of s deals d) d)
           deals).
Proof.
  unfold property_scorer.score_deals.
  destruct deals as [|d0 rest]; [reflexivity|]. apply sort_desc_stable.
Qed.


(* ================================================================== *)
(** * The comp filter *)

Lemma digit_compare (m n : Z) :
  Ascii.compare (datetime.digit m) (datetime.digit n)
  = Z.compare (m mod 10) (n mod 10).
Proof.
  unfold Ascii.compare, datetime.digit.
  assert (Hm : (0 <= m mod 10 < 10)%Z) by (apply Z.mod_pos_bound; lia).
  assert (Hn : (0 <= n mod 10 < 10)%Z) by (apply Z.mod_pos_bound; lia).
  rewrite !N_ascii_embedding by lia.
  rewrite <- N2Z.inj_compare, !N2Z.inj_add, !Z2N.id by lia.
  apply Z.add_compare_mono_l.
Qed.

Lemma decimal4 (y : Z) :
  (0 <= y <= 9999)%Z ->
  (y = 1000 * ((y / 1000) mod 10) + 100 * ((y / 100) mod 10)
       + 10 * ((y / 10) mod 10) + y mod 10)%Z.
Proof. intro H. Z.div_mod_to_equations. lia. Qed.

Lemma decimal2 (y : Z) :
  (0 <= y <= 99)%Z -> (y = 10 * ((y / 10) mod 10) + y mod 10)%Z.
Proof. intro H. Z.div_mod_to_equations. lia. Qed.

(** On printable dates the order of the ISO strings is the order of the
    calendar. *)
Lemma isoformat_leb (a b : datetime.date) :
  Spec.printable a -> Spec.printable b ->
  String.leb (datetime.isoformat a) (datetime.isoformat b)
  = datetime.date_leb a b.
Proof.
  intros [Ya [Ma Da]] [Yb [Mb Db]].
  unfold String.leb, datetime.isoformat, datetime.pad4, datetime.pad2,
    datetime.date_leb.
  cbn [String.append String.compare].
  rewrite !digit_compare.
  change (Ascii.compare "-" "-") with Eq. cbv iota.
  pose proof (decimal4 (datetime.year a) ltac:(lia)) as E1.
  pose proof (decimal4 (datetime.year b) ltac:(lia)) as E2.
  pose proof (decimal2 (datetime.month a) ltac:(lia)) as E3.
  pose proof (decimal2 (datetime.month b) ltac:(lia)) as E4.
  pose proof (decimal2 (datetime.day a) ltac:(lia)) as E5.
  pose proof (decimal2 (datetime.day b) ltac:(lia)) as E6.
  repeat match goal with
  | |- context [(?x mod 10)%Z] =>
      let d := fresh "d" in
      let B := fresh "B" in
      assert (B : (0 <= x mod 10 < 10)%Z) by (apply Z.mod_pos_bound; lia);
      set (d := (x mod 10)%Z) in *; clearbody d
  end.
  repeat match goal with
  | |- context [Z.compare ?x ?y] => destruct (Z.compare_spec x y)
  end;
  destruct (Z.ltb_spec (datetime.year a) (datetime.year b));
  destruct (Z.eqb_spec (datetime.year a) (datetime.year b));
  destruct (Z.ltb_spec (datetime.month a) (datetime.month b));
  destruct (Z.eqb_spec (datetime.month a) (datetime.month b));
  destruct (Z.leb_spec (datetime.day a) (datetime.day b));
  cbn; try reflexivity; exfalso; lia.
Qed.

(** [ord2ymd] yields a month from 1 to 12 and a day from 1 to 31. *)
Lemma ord2ymd_month_day (n : Z) :
  (1 <= datetime.month (datetime.ord2ymd n) <= 12
   /\ 1 <= datetime.day (datetime.ord2ymd n) <= 31)%Z.
Proof.
  unfold datetime.ord2ymd. cbv zeta.
  set (k := (((((n - 1) mod 146097) mod 36524) mod 1461) mod 365)%Z).
  assert (K : (0 <= k < 365)%Z) by (apply Z.mod_pos_bound; lia).
  clearbody k.
  match goal with |- context [if ?c then _ else _] => destruct c end;
    [cbn; lia|].
  match goal with
  | |- context [datetime.b2z ((2 <? _)%Z && ?l)] => generalize l
  end.
  intro leap. rewrite Z.shiftr_div_pow2 by lia.
  change (2 ^ 5)%Z with 32%Z.
  set (m := ((k + 50) / 32)%Z).
  assert (M : (32 * m <= k + 50 < 32 * m + 32)%Z)
    by (unfold m; Z.div_mod_to_equations; lia).
  clearbody m.
  assert (C : (m = 1 \/ m = 2 \/ m = 3 \/ m = 4 \/ m = 5 \/ m = 6 \/ m = 7
               \/ m = 8 \/ m = 9 \/ m = 10 \/ m = 11 \/ m = 12)%Z) by lia.
  destruct leap;
    repeat (destruct C as [-> | C]); try subst m; cbn;
    match goal with |- context [(k <? ?p)%Z] => destruct (Z.ltb_spec k p) end;
    cbn; lia.
Qed.

Lemma keep_comp_reads (min_sqft max_sqft max_distance : Q)
    (cutoff_date : string) (c : Comp.t) (sqft dist : Q)
    (sold : datetime.date) :
  Spec.comp_reads c sqft dist sold ->
  app.keep_comp min_sqft max_sqft max_distance cutoff_date c
  = Py.Ok (Py.le min_sqft sqft && Py.le sqft max_sqft
           && Py.le dist max_distance
           && app.str_ge (datetime.isoformat sold) cutoff_date).
Proof.
  intros [Es [Ed [Ec _]]]. unfold app.keep_comp. rewrite Es, Ed, Ec. cbn.
  destruct (Py.le min_sqft sqft); [|reflexivity].
  destruct (Py.le sqft max_sqft); [|reflexivity].
  destruct (Py.le dist max_distance); reflexivity.
Qed.

(** When the condition raises on no comp, the loop is a filter. *)
Lemma filter_loop_filter (keep : Comp.t -> Py.result bool)
    (comps : list Comp.t) :
  (forall c, In c comps -> exists b, keep c = Py.Ok b) ->
  app.filter_loop keep comps
  = Py.Ok (filter (fun c => match keep c with
                            | Py.Ok b => b
                            | Py.Raise _ => false
                            end) comps).
Proof.
  induction comps as [|c comps IH]; intro H; [reflexivity|].
  cbn [app.filter_loop filter].
  destruct (H c (or_introl eq_refl)) as [b E]. rewrite E. cbn [Py.bind].
  rewrite IH by (intros c' Hc'; apply H; right; exact Hc').
  reflexivity.
Qed.

(** C7.  When every comp carries a square footage, a distance and an
    ISO sale date, and the cutoff day falls in a four-digit year,
    [filter_comps] returns, in their original order, exactly the comps
    whose square footage lies within [sqft * min_pct, sqft * max_pct],
    the two products being the floats the program computes, whose
    distance is at most the maximum, and whose sale date is not before
    the day [now - 30 * max_age_months] days; so with a maximum distance
    of 1 no comp at distance 2 is returned. *)
Theorem filter_comps_exact (self : app.FlipFinderDashboard)
    (now : datetime.t) (p : property.Property) :
  (forall c, In c (property.comps p) -> Spec.well_formed_comp c) ->
  (1000 <= datetime.year
             (datetime.ord2ymd
                (datetime.toordinal now - app.max_comp_age_months self * 30))
        <= 9999)%Z ->
  exists out,
    float64.app.filter_comps self now p = Py.Ok out
    /\ (exists keep, out = filter keep (property.comps p))
    /\ (forall c,
          In c out
          <-> In c (property.comps p) /\ float64.eligible self now p c)
    /\ (app.use_comps_within_miles self == 1 ->
        forall c, Comp.distance c = Some 2 -> ~ In c out).
Proof.
  intros WF Y.
  set (cutoff := datetime.ord2ymd
                   (datetime.toordinal now
                    - app.max_comp_age_months self * 30)%Z) in *.
  assert (PC : Spec.printable cutoff).
  { split; [exact Y | apply ord2ymd_month_day]. }
  set (keep := app.keep_comp
                 (binary64.mul (property.square_feet p)
                               (app.min_comp_sqft_pct self))
                 (binary64.mul (property.square_feet p)
                               (app.max_comp_sqft_pct self))
                 (app.use_comps_within_miles self)
                 (datetime.isoformat cutoff)).
  assert (T : forall c, In c (property.comps p) -> exists b, keep c = Py.Ok b).
  { intros c Hc. destruct (WF c Hc) as [sqft [dist [sold R]]].
    eexists. apply (keep_comp_reads _ _ _ _ c sqft dist sold R). }
  assert (E : float64.app.filter_comps self now p
              = Py.Ok (filter (fun c => match keep c with
                                        | Py.Ok b => b
                                        | Py.Raise _ => false
                                        end) (property.comps p))).
  { unfold float64.app.filter_comps.
    destruct (property.comps p) as [|c0 cs] eqn:Ec; [reflexivity|].
    apply (filter_loop_filter keep (c0 :: cs)). exact T. }
  assert (M : forall c,
            In c (filter (fun c => match keep c with
                                   | Py.Ok b => b
                                   | Py.Raise _ => false
                                   end) (property.comps p))
            <-> In c (property.comps p) /\ float64.eligible self now p c).
  { intro c. rewrite filter_In. split.
    - intros [Hc K]. split; [exact Hc|].
      destruct (WF c Hc) as [sqft [dist [sold R]]].
      unfold keep in K.
      rewrite (keep_comp_reads _ _ _ _ c sqft dist sold R) in K.
      rewrite !andb_true_iff, !le_true in K.
      destruct K as [[[K1 K2] K3] K4].
      exists sqft, dist, sold. repeat split; try assumption; try apply R.
      unfold app.str_ge in K4.
      rewrite isoformat_leb in K4; [exact K4 | exact PC | apply R].
    - intros [Hc [sqft [dist [sold [R [K1 [K2 [K3 K4]]]]]]]].
      split; [exact Hc|].
      unfold keep. rewrite (keep_comp_reads _ _ _ _ c sqft dist sold R).
      rewrite !andb_true_iff, !le_true. repeat split; try assumption.
      unfold app.str_ge.
      rewrite isoformat_leb; [exact K4 | exact PC | apply R]. }
  eexists. split; [exact E|]. split; [eexists; reflexivity|].
  split; [exact M|].
  intros D c Dc Hc. apply M in Hc.
  destruct Hc as [_ [sqft [dist [sold [R [_ [_ [K3 _]]]]]]]].
  destruct R as [_ [Rd _]]. rewrite Dc in Rd. inversion Rd. subst dist.
  rewrite D in K3. lra.
Qed.

Lemma filter_comps_exact_witness :
  (exists out,
     float64.app.filter_comps Boundary.dashboard Sample.noon Boundary.house_1400
     = Py.Ok out
     /\ map Comp.square_feet out = [Some 1150]
     /\ binary64.mul 1400 (binary64.round 1.15) < 1610)
  /\ (exists out,
        float64.app.filter_comps Boundary.dashboard Sample.noon
          Boundary.house_1000 = Py.Ok out
        /\ map Comp.square_feet out = [Some 1150]
        /\ binary64.mul 1000 (binary64.round 1.15) == 1150).
Proof.
  assert (WF : forall c, In c Boundary.at_upper_bound ->
                         Spec.well_formed_comp c).
  { intros c Hc. cbn in Hc.
    destruct Hc as [<- | [<- | [<- | []]]];
      eexists; eexists;
      [exists {| datetime.year := 2024; datetime.month := 5;
                 datetime.day := 1 |}
      |exists {| datetime.year := 2024; datetime.month := 4;
                 datetime.day := 20 |}
      |exists {| datetime.year := 2024; datetime.month := 4;
                 datetime.day := 2 |}];
      (split; [reflexivity|]); (split; [reflexivity|]);
      (split; [reflexivity|]); unfold Spec.printable; cbn; lia. }
  split.
  - destruct (filter_comps_exact Boundary.dashboard Sample.noon
                Boundary.house_1400) as [out [E _]].
    + exact WF.
    + vm_compute. split; discriminate.
    + exists out. split; [exact E|]. split.
      * vm_compute in E. inversion E. reflexivity.
      * vm_compute. reflexivity.
  - destruct (filter_comps_exact Boundary.dashboard Sample.noon
                Boundary.house_1000) as [out [E _]].
    + exact WF.
    + vm_compute. split; discriminate.
    + exists out. split; [exact E|]. split.
      * vm_compute in E. inversion E. reflexivity.
      * vm_compute. reflexivity.
Defined.

(* ================================================================== *)
(** * Further properties of the coarse repair estimator *)

Lemma age_factor_range (age : option Z) :
  1 <= deal_analyzer.age_factor age <= 1.5.
Proof.
  unfold deal_analyzer.age_factor. destruct age as [a|]; [|split; lra].
  destruct (50 <? a)%Z; [split; lra|].
  destruct (30 <? a)%Z; [split; lra|].
  destruct (15 <? a)%Z; split; lra.
Qed.

Lemma condition_factor_range (keywords : list string) :
  1 <= deal_analyzer.condition_factor keywords <= 1.5.
Proof.
  unfold deal_analyzer.condition_factor.
  destruct (existsb _ deal_analyzer.high_repair_keywords);
    destruct (existsb _ deal_analyzer.moderate_repair_keywords);
    cbn; split; discriminate.
Qed.

Lemma product_range (a x y : Q) :
  0 <= a -> 1 <= x <= 1.5 -> 1 <= y <= 1.5 ->
  a <= a * x * y /\ a * x * y <= 2.25 * a.
Proof.
  intros Ha [X1 X2] [Y1 Y2].
  assert (P1 : 0 <= a * (x - 1)) by (apply Qmult_le_0_compat; lra).
  assert (P2 : 0 <= a * (1.5 - x)) by (apply Qmult_le_0_compat; lra).
  assert (P3 : 0 <= (a * x) * (y - 1)) by (apply Qmult_le_0_compat; lra).
  assert (P4 : 0 <= (a * x) * (1.5 - y)) by (apply Qmult_le_0_compat; lra).
  split; lra.
Qed.

(** X1.  For non-negative area, costs and bathroom count the coarse estimate
    lies between the bare per-square-foot cost with contingency and the
    cost with both factors at 1.5 plus one kitchen and two bathrooms,
    with contingency. *)
Theorem estimate_repairs_bounds (s : settings.t) (p : property.Property) :
  let costs := settings.REPAIR_COSTS s in
  let bare := property.square_feet p * settings.base_sqft_cost costs in
  0 <= property.square_feet p ->
  0 <= settings.base_sqft_cost costs ->
  0 <= settings.kitchen costs ->
  0 <= settings.bathroom costs ->
  0 <= property.bathrooms p ->
  bare * 1.1 <= deal_analyzer.estimate_repairs s p
  /\ deal_analyzer.estimate_repairs s p
     <= (2.25 * bare + settings.kitchen costs + 2 * settings.bathroom costs)
        * 1.1.
Proof.
  intros costs bare Hs Hb Hk Ht Hn.
  rewrite estimate_repairs_split. fold costs.
  assert (Ha : 0 <= bare) by (apply Qmult_le_0_compat; assumption).
  destruct (product_range bare _ _ Ha (age_factor_range (property.age p))
              (condition_factor_range (property.opportunity_keywords p)))
    as [L U].
  fold bare.
  set (core := bare * deal_analyzer.age_factor (property.age p)
               * deal_analyzer.condition_factor
                   (property.opportunity_keywords p)) in *.
  clearbody core.
  destruct (deal_analyzer.truthy_and_gt (property.age p) 20); [|split; lra].
  assert (K : 0 <= settings.kitchen costs
                   * inject_Z (Z.min 1 (Py.int (property.square_feet p / 1500)))
              <= settings.kitchen costs).
  { assert (W : -1500 < property.square_feet p) by lra.
    destruct (kitchen_step _ W) as [K1 K0].
    destruct (Qlt_le_dec (property.square_feet p / 1500) 1) as [C | C].
    - rewrite (K0 C). change (inject_Z 0) with 0. split; lra.
    - rewrite (K1 C). change (inject_Z 1) with 1. split; lra. }
  assert (B : 0 <= settings.bathroom costs * Py.min (property.bathrooms p) 2
              <= 2 * settings.bathroom costs).
  { rewrite min_Qmin.
    assert (M0 : 0 <= Qmin (property.bathrooms p) 2)
      by (apply Q.min_glb; lra).
    assert (M2 : Qmin (property.bathrooms p) 2 <= 2) by apply Q.le_min_r.
    assert (P1 : 0 <= settings.bathroom costs * Qmin (property.bathrooms p) 2)
      by (apply Qmult_le_0_compat; assumption).
    assert (P2 : 0 <= settings.bathroom costs
                      * (2 - Qmin (property.bathrooms p) 2))
      by (apply Qmult_le_0_compat; lra).
    split; lra. }
  split; lra.
Qed.

Lemma estimate_repairs_bounds_witness :
  1000 * 20 * 1.1
  <= deal_analyzer.estimate_repairs settings.default Sample.old_house
  /\ deal_analyzer.estimate_repairs settings.default Sample.old_house
     <= (2.25 * (1000 * 20) + 15000 + 2 * 7500) * 1.1.
Proof.
  apply (estimate_repairs_bounds settings.default Sample.old_house);
    discriminate.
Defined.

(* ================================================================== *)
(** * Keyword extraction *)

Lemma nodup_fixpoint (l : list string) :
  nodup string_dec l = l -> NoDup l.
Proof.
  intro H. rewrite <- H. apply NoDup_nodup.
Qed.

Lemma extracted_keywords (vocabulary : list string) (remarks : string) :
  NoDup vocabulary ->
  let keywords := filter (fun term => Py.str_in term remarks) vocabulary in
  (forall k, In k keywords <-> In k vocabulary /\ Spec.contains k remarks)
  /\ NoDup keywords
  /\ (List.length keywords <= List.length vocabulary)%nat.
Proof.
  intros N keywords. split; [|split].
  - intro k. unfold keywords. rewrite filter_In, str_in_contains. reflexivity.
  - apply NoDup_filter, N.
  - apply filter_length_le.
Qed.

(** X2.  Both connectors return the terms of their vocabulary that occur in
    the lower-cased remarks joined by a space: no term twice, in
    vocabulary order, at most 25 of them. *)
Theorem extract_opportunity_keywords_sound :
  (forall d : connectors.mls_prop_data,
     let remarks :=
       Py.lower (Py.get (connectors.PublicRemarks d) EmptyString ++ " "
                 ++ Py.get (connectors.PrivateRemarks d) EmptyString)%string in
     let keywords := connectors.mls_extract_opportunity_keywords d in
     (forall k, In k keywords
                <-> In k connectors.OPPORTUNITY_KEYWORDS
                    /\ Spec.contains k remarks)
     /\ NoDup keywords
     /\ (exists keep, keywords = filter keep connectors.OPPORTUNITY_KEYWORDS)
     /\ (List.length keywords <= 25)%nat)
  /\ (forall d : connectors.redfin_prop_data,
        let description :=
          Py.lower (Py.get (connectors.REMARKS d) EmptyString ++ " "
                    ++ Py.get (connectors.PUBLIC_REMARKS d) EmptyString)%string in
        let keywords := connectors.redfin_extract_opportunity_keywords d in
        (forall k, In k keywords
                   <-> In k connectors.opportunity_terms
                       /\ Spec.contains k description)
        /\ NoDup keywords
        /\ (exists keep, keywords = filter keep connectors.opportunity_terms)
        /\ (List.length keywords <= 25)%nat).
Proof.
  assert (N : NoDup connectors.OPPORTUNITY_KEYWORDS)
    by (apply nodup_fixpoint; vm_compute; reflexivity).
  split; intro d; cbv zeta.
  - destruct (extracted_keywords connectors.OPPORTUNITY_KEYWORDS
                (Py.lower (Py.get (connectors.PublicRemarks d) EmptyString
                           ++ " "
                           ++ Py.get (connectors.PrivateRemarks d)
                                EmptyString)%string) N) as [M [D L]].
    split; [exact M|]. split; [exact D|].
    split; [eexists; reflexivity | exact L].
  - destruct (extracted_keywords connectors.opportunity_terms
                (Py.lower (Py.get (connectors.REMARKS d) EmptyString
                           ++ " "
                           ++ Py.get (connectors.PUBLIC_REMARKS d)
                                EmptyString)%string) N) as [M [D L]].
    split; [exact M|]. split; [exact D|].
    split; [eexists; reflexivity | exact L].
Qed.

(** The condition factor of a keyword list drawn from the connectors'
    vocabulary. *)
Lemma condition_factor_of_vocabulary (remarks : string) :
  deal_analyzer.condition_factor
    (filter (fun term => Py.str_in term remarks)
            connectors.OPPORTUNITY_KEYWORDS)
  = if existsb (fun k => Py.str_in k remarks)
               deal_analyzer.high_repair_keywords
    then 1.5 else 1.
Proof.
  unfold deal_analyzer.condition_factor.
  set (kws := filter (fun term => Py.str_in term remarks)
                     connectors.OPPORTUNITY_KEYWORDS).
  assert (I : forall k, In k connectors.OPPORTUNITY_KEYWORDS ->
                Py.in_list k kws = Py.str_in k remarks).
  { intros k Hk. destruct (Py.str_in k remarks) eqn:E.
    - apply in_list_true. apply filter_In. auto.
    - destruct (Py.in_list k kws) eqn:F; [|reflexivity].
      apply in_list_true, filter_In in F. destruct F as [_ F]. congruence. }
  assert (O : forall k, ~ In k connectors.OPPORTUNITY_KEYWORDS ->
                Py.in_list k kws = false).
  { intros k Hk. destruct (Py.in_list k kws) eqn:F; [|reflexivity].
    apply in_list_true, filter_In in F. destruct F as [F _]. contradiction. }
  assert (Hh : existsb (fun keyword => Py.in_list keyword kws)
                       deal_analyzer.high_repair_keywords
               = existsb (fun k => Py.str_in k remarks)
                         deal_analyzer.high_repair_keywords).
  { unfold deal_analyzer.high_repair_keywords. cbn [existsb].
    rewrite !I by (vm_compute; tauto). reflexivity. }
  assert (Hm : existsb (fun keyword => Py.in_list keyword kws)
                       deal_analyzer.moderate_repair_keywords = false).
  { unfold deal_analyzer.moderate_repair_keywords. cbn [existsb].
    rewrite !O; [reflexivity| | | |]; vm_compute;
      intro H; repeat (destruct H as [H | H]; [discriminate|]); exact H. }
  cbv zeta. rewrite Hh, Hm.
  destruct (existsb (fun k => Py.str_in k remarks)
                    deal_analyzer.high_repair_keywords); reflexivity.
Qed.

(** X3.  For keywords extracted by either connector the condition factor of
    the coarse estimator is 1.5 when the remarks contain one of the five
    high-repair keywords and 1 otherwise: the moderate tier (1.25) is
    never reached, since none of its keywords is in the vocabulary. *)
Theorem condition_factor_of_extracted :
  (forall d : connectors.mls_prop_data,
     let remarks :=
       Py.lower (Py.get (connectors.PublicRemarks d) EmptyString ++ " "
                 ++ Py.get (connectors.PrivateRemarks d) EmptyString)%string in
     deal_analyzer.condition_factor
       (connectors.mls_extract_opportunity_keywords d)
     = if existsb (fun k => Py.str_in k remarks)
                  deal_analyzer.high_repair_keywords
       then 1.5 else 1)
  /\ (forall d : connectors.redfin_prop_data,
        let description :=
          Py.lower (Py.get (connectors.REMARKS d) EmptyString ++ " "
                    ++ Py.get (connectors.PUBLIC_REMARKS d) EmptyString)%string in
        deal_analyzer.condition_factor
          (connectors.redfin_extract_opportunity_keywords d)
        = if existsb (fun k => Py.str_in k description)
                     deal_analyzer.high_repair_keywords
          then 1.5 else 1).
Proof.
  split; intro d; apply condition_factor_of_vocabulary.
Qed.

(* ================================================================== *)
(** * Further properties of the deal evaluator *)

Lemma analyze_deal_again (s : settings.t) (p : property.Property)
    (arv repair_costs min_roi : Q) :
  deal_analyzer.analyze_deal s
    (fst (deal_analyzer.analyze_deal s p arv repair_costs min_roi))
    arv repair_costs min_roi
  = deal_analyzer.analyze_deal s p arv repair_costs min_roi.
Proof.
  remember (deal_analyzer.analyze_deal s p arv repair_costs min_roi)
    as outcome eqn:R.
  unfold deal_analyzer.analyze_deal, Py.truediv in R.
  cbn [property.list_price property.set_estimated_arv
       property.set_estimated_repair_cost property.set_estimated_profit
       property.set_estimated_roi] in R.
  match type of R with
  | context [Qeq_bool ?t 0] => destruct (Qeq_bool t 0) eqn:E
  end; subst outcome; cbn [fst];
    unfold deal_analyzer.analyze_deal, Py.truediv;
    cbn [property.list_price property.set_estimated_arv
         property.set_estimated_repair_cost property.set_estimated_profit
         property.set_estimated_roi];
    rewrite E; reflexivity.
Qed.

(** X4.  Running [analyze_deal] again on the property it has just updated,
    with the same ARV, repair costs and threshold, leaves the property
    as it is and has the same outcome (the same deal, or the same
    exception). *)
Theorem analyze_deal_idempotent (s : settings.t) (p p' : property.Property)
    (arv repair_costs min_roi : Q) (outcome : Py.result Deal.t) :
  deal_analyzer.analyze_deal s p arv repair_costs min_roi = (p', outcome) ->
  deal_analyzer.analyze_deal s p' arv repair_costs min_roi = (p', outcome).
Proof.
  intro H. pose proof (analyze_deal_again s p arv repair_costs min_roi) as A.
  rewrite H in A. cbn [fst] in A. exact A.
Qed.

Lemma analyze_deal_idempotent_witness :
  exists p' d,
    deal_analyzer.analyze_deal settings.default Sample.old_house
      450000 49500 20 = (p', Py.Ok d)
    /\ deal_analyzer.analyze_deal settings.default p' 450000 49500 20
       = (p', Py.Ok d).
Proof.
  destruct (deal_analyzer.analyze_deal settings.default Sample.old_house
              450000 49500 20) as [p' [d|e]] eqn:E.
  - exists p', d. split; [reflexivity|].
    apply (analyze_deal_idempotent _ _ _ _ _ _ _ E).
  - vm_compute in E. discriminate.
Defined.

(** The total project cost in closed form. *)
Lemma total_cost_closed_form (s : settings.t) (list_price arv repair_costs : Q) :
  list_price + repair_costs
  + deal_analyzer.closing.total
      (deal_analyzer.calculate_closing_costs s list_price arv)
  + deal_analyzer.calculate_holding_costs s list_price
      (settings.AVERAGE_FLIP_MONTHS s)
  == list_price
     * (1 + settings.purchase_percentage (settings.CLOSING_COSTS s)
        + settings.AVERAGE_FLIP_MONTHS s
          * (settings.mortgage_rate (settings.HOLDING_COSTS s)
             + settings.property_tax_rate (settings.HOLDING_COSTS s)
             + settings.insurance_rate (settings.HOLDING_COSTS s)) / 12)
     + repair_costs
     + arv * (settings.agent_commission (settings.CLOSING_COSTS s)
              + settings.seller_closing_percentage (settings.CLOSING_COSTS s))
     + settings.AVERAGE_FLIP_MONTHS s
       * settings.monthly_utilities (settings.HOLDING_COSTS s).
Proof.
  unfold deal_analyzer.calculate_holding_costs,
    deal_analyzer.calculate_closing_costs, Py.sum.
  cbn [deal_analyzer.closing.total fold_left]. field.
Qed.

(** X5.  The total project cost of a returned deal is affine in the list
    price, the repair costs and the ARV: list price times
    [1 + purchase_pct + months * (mortgage + tax + insurance) / 12],
    plus the repair costs, plus the ARV times the two sale-side
    percentages, plus [months] times the flat utilities. *)
Theorem analyze_deal_total_cost (s : settings.t) (p p' : property.Property)
    (arv repair_costs min_roi : Q) (d : Deal.t) :
  deal_analyzer.analyze_deal s p arv repair_costs min_roi = (p', Py.Ok d) ->
  Deal.total_project_cost d
  == property.list_price p
     * (1 + settings.purchase_percentage (settings.CLOSING_COSTS s)
        + settings.AVERAGE_FLIP_MONTHS s
          * (settings.mortgage_rate (settings.HOLDING_COSTS s)
             + settings.property_tax_rate (settings.HOLDING_COSTS s)
             + settings.insurance_rate (settings.HOLDING_COSTS s)) / 12)
     + repair_costs
     + arv * (settings.agent_commission (settings.CLOSING_COSTS s)
              + settings.seller_closing_percentage (settings.CLOSING_COSTS s))
     + settings.AVERAGE_FLIP_MONTHS s
       * settings.monthly_utilities (settings.HOLDING_COSTS s).
Proof.
  intro H.
  destruct (analyze_deal_outcome s p arv repair_costs min_roi)
    as [[_ R] | [_ [d' [R T]]]]; rewrite H in R; cbn [snd] in R.
  - discriminate.
  - inversion R. subst d'. rewrite T. apply total_cost_closed_form.
Qed.

Lemma analyze_deal_total_cost_witness :
  exists d,
    snd (deal_analyzer.analyze_deal settings.default Sample.old_house
           450000 49500 20) = Py.Ok d
    /\ Deal.total_project_cost d
       == 300000 * (1 + 0.03 + 4 * (0.07 + 0.015 + 0.005) / 12)
          + 49500 + 450000 * (0.06 + 0.02) + 4 * 200.
Proof.
  destruct (deal_analyzer.analyze_deal settings.default Sample.old_house
              450000 49500 20) as [p' [d|e]] eqn:E.
  - exists d. split; [reflexivity|].
    apply (analyze_deal_total_cost _ _ _ _ _ _ _ E).
  - vm_compute in E. discriminate.
Defined.




(* ================================================================== *)
(** * Further properties of the ARV estimator *)

Lemma sum_between (xs : list Q) (lo hi : Q) :
  (forall x, In x xs -> lo <= x <= hi) ->
  Py.len xs * lo <= Py.sum xs /\ Py.sum xs <= Py.len xs * hi.
Proof.
  induction xs as [|x xs IH]; intro B.
  - change (Py.len (@nil Q)) with 0. change (Py.sum []) with 0.
    split; lra.
  - destruct (B x (or_introl eq_refl)) as [L U].
    destruct IH as [IL IU]; [intros y Hy; apply B; right; exact Hy|].
    assert (E : Py.len (x :: xs) == Py.len xs + 1).
    { unfold Py.len. cbn [List.length]. rewrite Nat2Z.inj_succ.
      unfold Z.succ. rewrite inject_Z_plus. reflexivity. }
    unfold Py.sum in *. cbn [fold_left]. rewrite sum_acc, E.
    unfold Py.sum. split; lra.
Qed.

Lemma len_pos {A} (xs : list A) : xs <> [] -> 0 < Py.len xs.
Proof.
  destruct xs; [congruence|]. intros _. unfold Py.len, Qlt. cbn. lia.
Qed.

(** The mean of a non-empty list lies between any two bounds of its
    elements. *)
Lemma mean_between (xs : list Q) (lo hi : Q) :
  xs <> [] -> (forall x, In x xs -> lo <= x <= hi) ->
  lo <= Py.mean xs <= hi.
Proof.
  intros N B. destruct (sum_between xs lo hi B) as [L U].
  pose proof (len_pos xs N) as P. unfold Py.mean. split.
  - apply Qle_shift_div_l; [exact P | lra].
  - apply Qle_shift_div_r; [exact P | lra].
Qed.

Lemma sum_above (ys : list Q) (c : Q) :
  ys <> [] -> (forall y, In y ys -> c < y) -> Py.len ys * c < Py.sum ys.
Proof.
  induction ys as [|y ys IH]; intros N B; [congruence|].
  assert (E : Py.len (y :: ys) == Py.len ys + 1).
  { unfold Py.len. cbn [List.length]. rewrite Nat2Z.inj_succ.
    unfold Z.succ. rewrite inject_Z_plus. reflexivity. }
  assert (Hy : c < y) by (apply B; left; reflexivity).
  unfold Py.sum. cbn [fold_left]. rewrite sum_acc, E.
  destruct ys as [|z ys].
  - change (Py.len (@nil Q)) with 0. change (Py.sum []) with 0. lra.
  - assert (Py.len (z :: ys) * c < Py.sum (z :: ys)); [|lra].
    apply IH; [discriminate|]. intros w Hw. apply B. right. exact Hw.
Qed.

(** In exact arithmetic at least one sample lies within two standard
    deviations of the mean. *)
Lemma within_2std_nonempty (samples : list Q) :
  samples <> [] -> deal_analyzer.within_2std samples <> [].
Proof.
  intros N E.
  set (sq := fun x => (x - Py.mean samples) * (x - Py.mean samples)).
  assert (F : forall y, In y (map sq samples) -> 4 * Py.var samples < y).
  { intros y Hy. apply in_map_iff in Hy. destruct Hy as [x [<- Hx]].
    destruct (Py.abs_le_2std (x - Py.mean samples) (Py.var samples)) eqn:T.
    - exfalso. assert (I : In x (deal_analyzer.within_2std samples)).
      { unfold deal_analyzer.within_2std. apply filter_In. auto. }
      rewrite E in I. exact I.
    - unfold Py.abs_le_2std in T. apply (le_false _ _) in T. exact T. }
  assert (Nm : map sq samples <> []) by (destruct samples; [congruence|discriminate]).
  pose proof (sum_above _ _ Nm F) as S.
  pose proof (len_pos _ Nm) as P.
  assert (V : Py.len (map sq samples) * Py.var samples
              == Py.sum (map sq samples)).
  { unfold Py.var. fold sq. unfold Py.mean at 1. field. lra. }
  assert (Z : 0 <= Py.sum (map sq samples)).
  { apply sum_acc_nonneg; [|lra]. intros y Hy.
    apply in_map_iff in Hy. destruct Hy as [x [<- _]]. apply sq_nonneg. }
  lra.
Qed.

Lemma deal_analyzer_calculate_arv_kept (p : property.Property)
    (samples : list Q) :
  deal_analyzer.comp_psf (property.comps p) = Py.Ok samples ->
  samples <> [] ->
  deal_analyzer.calculate_arv p
  = Py.Ok (property.square_feet p
           * Py.mean (deal_analyzer.within_2std samples)).
Proof.
  intros H N. pose proof (within_2std_nonempty samples N) as K.
  unfold deal_analyzer.calculate_arv.
  destruct (property.comps p) as [|c cs].
  - cbn in H. inversion H. congruence.
  - rewrite H. cbn [Py.bind]. destruct samples as [|x xs]; [congruence|].
    destruct (deal_analyzer.within_2std (x :: xs)); [congruence|].
    reflexivity.
Qed.

(** X8.  When every price-per-sqft sample lies between [lo] and [hi] and the
    subject's square footage is non-negative, both estimators return a
    value between [sqft * lo] and [sqft * hi]. *)
Theorem calculate_arv_within_sample_range (self : app.FlipFinderDashboard)
    (p : property.Property) (samples : list Q) (lo hi : Q) :
  deal_analyzer.comp_psf (property.comps p) = Py.Ok samples ->
  samples <> [] ->
  (forall x, In x samples -> lo <= x <= hi) ->
  0 <= property.square_feet p ->
  (exists arv, deal_analyzer.calculate_arv p = Py.Ok arv
               /\ property.square_feet p * lo <= arv
               /\ arv <= property.square_feet p * hi)
  /\ (exists arv, app.calculate_arv self p = Py.Ok arv
                  /\ property.square_feet p * lo <= arv
                  /\ arv <= property.square_feet p * hi).
Proof.
  intros H N B S.
  assert (Bk : forall x, In x (deal_analyzer.within_2std samples) ->
                 lo <= x <= hi).
  { intros x Hx. apply B. unfold deal_analyzer.within_2std in Hx.
    apply filter_In in Hx. apply Hx. }
  pose proof (within_2std_nonempty samples N) as K.
  destruct (mean_between _ lo hi N B) as [A1 A2].
  destruct (mean_between _ lo hi K Bk) as [K1 K2].
  assert (G : forall m, lo <= m <= hi ->
                property.square_feet p * lo <= property.square_feet p * m
                /\ property.square_feet p * m <= property.square_feet p * hi).
  { intros m [M1 M2].
    assert (0 <= property.square_feet p * (m - lo))
      by (apply Qmult_le_0_compat; lra).
    assert (0 <= property.square_feet p * (hi - m))
      by (apply Qmult_le_0_compat; lra).
    split; lra. }
  split.
  - rewrite (deal_analyzer_calculate_arv_kept p samples H N).
    eexists. split; [reflexivity|]. apply G. split; assumption.
  - rewrite (app_calculate_arv_samples self p samples H N).
    eexists. split; [reflexivity|]. apply G.
    destruct (app.exclude_outliers self && (5 <? List.length samples)%nat);
      [|split; assumption].
    destruct (deal_analyzer.within_2std samples) as [|k ks] eqn:W;
      split; assumption.
Qed.

Lemma calculate_arv_within_sample_range_witness :
  exists arv,
    app.calculate_arv Sample.dashboard Sample.six_comps = Py.Ok arv
    /\ 1000 * 190 <= arv /\ arv <= 1000 * 600.
Proof.
  destruct (calculate_arv_within_sample_range Sample.dashboard
              Sample.six_comps
              [200.000; 210.000; 205.000; 195.000; 190.000; 600.000]
              190 600) as [_ R].
  - vm_compute. reflexivity.
  - discriminate.
  - intros x Hx. cbn in Hx.
    destruct Hx as [<- | [<- | [<- | [<- | [<- | [<- | []]]]]]];
      split; discriminate.
  - discriminate.
  - exact R.
Defined.

Lemma comp_psf_app (a b : list Comp.t) :
  deal_analyzer.comp_psf (a ++ b)
  = (xs <- deal_analyzer.comp_psf a ;;
     ys <- deal_analyzer.comp_psf b ;;
     Py.Ok (xs ++ ys)).
Proof.
  induction a as [|c a IH]; cbn [app deal_analyzer.comp_psf Py.bind].
  - destruct (deal_analyzer.comp_psf b); reflexivity.
  - destruct (Py.lt 0 (Py.get (Comp.square_feet c) 0)); [|exact IH].
    destruct (Py.getitem "price" (Comp.price c)) as [price|e];
      [|reflexivity].
    destruct (Py.getitem "square_feet" (Comp.square_feet c)) as [sqft|e];
      [|reflexivity].
    cbn [Py.bind].
    destruct (Py.truediv price sqft) as [psf|e]; [|reflexivity].
    cbn [Py.bind]. rewrite IH.
    destruct (deal_analyzer.comp_psf a) as [xs|e]; [|reflexivity].
    cbn [Py.bind].
    destruct (deal_analyzer.comp_psf b) as [ys|e]; reflexivity.
Qed.

(** X9.  A comp with a positive square footage and no price makes both
    estimators raise [KeyError('price')], provided the comps before it
    can be read; the division itself never raises. *)
Theorem calculate_arv_missing_price (self : app.FlipFinderDashboard)
    (p : property.Property) (before after : list Comp.t) (c : Comp.t)
    (sqft : Q) (samples : list Q) :
  property.comps p = before ++ c :: after ->
  deal_analyzer.comp_psf before = Py.Ok samples ->
  Comp.square_feet c = Some sqft -> 0 < sqft ->
  Comp.price c = None ->
  deal_analyzer.calculate_arv p = Py.Raise (Py.KeyError "price")
  /\ app.calculate_arv self p = Py.Raise (Py.KeyError "price")
  /\ forall q, deal_analyzer.comp_psf (property.comps q)
               <> Py.Raise Py.ZeroDivisionError.
Proof.
  intros Ec Eb Es Hs Ep.
  assert (R : deal_analyzer.comp_psf (property.comps p)
              = Py.Raise (Py.KeyError "price")).
  { rewrite Ec, comp_psf_app, Eb. cbn [Py.bind deal_analyzer.comp_psf].
    rewrite Es. cbn [Py.get].
    assert (L : Py.lt 0 sqft = true) by (apply lt_true; exact Hs).
    rewrite L, Ep. reflexivity. }
  split; [|split].
  - unfold deal_analyzer.calculate_arv.
    destruct (property.comps p) as [|c0 cs] eqn:E0.
    + destruct before; discriminate.
    + rewrite R. reflexivity.
  - unfold app.calculate_arv.
    destruct (property.comps p) as [|c0 cs] eqn:E0.
    + destruct before; discriminate.
    + rewrite R. reflexivity.
  - intro q. induction (property.comps q) as [|k ks IH]; [discriminate|].
    cbn [deal_analyzer.comp_psf].
    destruct (Py.lt 0 (Py.get (Comp.square_feet k) 0)) eqn:L; [|exact IH].
    destruct (Comp.price k) as [price|]; [|discriminate].
    destruct (Comp.square_feet k) as [sq|] eqn:Sq; [|discriminate].
    cbn [Py.getitem Py.bind Py.get] in *. unfold Py.truediv.
    apply lt_true in L.
    destruct (Qeq_bool sq 0) eqn:Z.
    + apply Qeq_bool_eq in Z. lra.
    + cbn [Py.bind].
      destruct (deal_analyzer.comp_psf ks) as [tail|e]; [discriminate|].
      exact IH.
Qed.

Lemma calculate_arv_missing_price_witness :
  deal_analyzer.calculate_arv
    (Sample.with_comps
       [Sample.comp "Comp 1" "2024-05-01" 200000 1000 0.4;
        {| Comp.address := "Comp 2"; Comp.sale_date := Some "2024-04-20"%string;
           Comp.price := None; Comp.square_feet := Some 1000;
           Comp.price_per_sqft := 0; Comp.bedrooms := 3; Comp.bathrooms := 2;
           Comp.year_built := 1970; Comp.distance := Some 0.6 |}]
       Sample.old_house)
  = Py.Raise (Py.KeyError "price").
Proof.
  eapply (calculate_arv_missing_price Sample.dashboard _
            [Sample.comp "Comp 1" "2024-05-01" 200000 1000 0.4] []).
  - reflexivity.
  - vm_compute. reflexivity.
  - reflexivity.
  - reflexivity.
  - reflexivity.
Defined.

(* ================================================================== *)
(** * Further properties of the comp filter *)

Lemma filter_loop_kept (keep : Comp.t -> Py.result bool)
    (comps out : list Comp.t) :
  app.filter_loop keep comps = Py.Ok out ->
  (forall c, In c out <-> In c comps /\ keep c = Py.Ok true)
  /\ app.filter_loop keep out = Py.Ok out.
Proof.
  revert out. induction comps as [|c comps IH]; intros out H.
  - cbn in H. inversion H. subst. split; [|reflexivity].
    intro c. cbn. tauto.
  - cbn [app.filter_loop] in H.
    destruct (keep c) as [b|e] eqn:K; [|discriminate].
    cbn [Py.bind] in H.
    destruct (app.filter_loop keep comps) as [tail|e]; [|discriminate].
    cbn [Py.bind] in H. inversion H; subst; clear H.
    destruct (IH tail eq_refl) as [M I]. destruct b.
    + split.
      * intro x. cbn [In]. rewrite M. split.
        -- intros [<- | [Hx Kx]]; auto.
        -- intros [[<- | Hx] Kx]; auto.
      * cbn [app.filter_loop]. rewrite K. cbn [Py.bind]. rewrite I.
        reflexivity.
    + split; [|exact I].
      intro x. rewrite M. cbn [In]. split.
      * intros [Hx Kx]. auto.
      * intros [[<- | Hx] Kx]; [congruence | auto].
Qed.

(** Filtering what the filter returned, for a property of the same
    square footage and on the same day, returns it again. *)
Lemma filter_comps_refilter (self : app.FlipFinderDashboard)
    (now now' : datetime.t) (p q : property.Property) (out : list Comp.t) :
  app.filter_comps self now p = Py.Ok out ->
  property.comps q = out ->
  property.square_feet q = property.square_feet p ->
  datetime.toordinal now' = datetime.toordinal now ->
  app.filter_comps self now' q = Py.Ok out.
Proof.
  unfold app.filter_comps, datetime.strftime_Ymd.
  cbn [datetime.sub_days datetime.toordinal].
  intros H Ec Es Ed. rewrite Ec, Es, Ed.
  destruct (property.comps p) as [|c cs].
  - inversion H. reflexivity.
  - destruct out as [|o os]; [reflexivity|].
    apply (filter_loop_kept _ _ _ H).
Qed.

(** X10.  Filtering is idempotent: once a property's comps have been replaced
    by the filtered list, filtering again at the same clock and with the
    same thresholds returns that list unchanged. *)
Theorem filter_comps_idempotent (self : app.FlipFinderDashboard)
    (now : datetime.t) (p : property.Property) (out : list Comp.t) :
  app.filter_comps self now p = Py.Ok out ->
  app.filter_comps self now (dashboard.set_comps out p) = Py.Ok out.
Proof.
  intro H.
  apply (filter_comps_refilter self now now p (dashboard.set_comps out p)
           out H); reflexivity.
Qed.

Lemma filter_comps_idempotent_witness :
  exists out,
    app.filter_comps Sample.dashboard Sample.noon Sample.six_comps = Py.Ok out
    /\ List.length out = 4%nat
    /\ app.filter_comps Sample.dashboard Sample.noon
         (dashboard.set_comps out Sample.six_comps) = Py.Ok out.
Proof.
  destruct (app.filter_comps Sample.dashboard Sample.noon Sample.six_comps)
    as [out|e] eqn:E.
  - exists out. split; [reflexivity|]. split.
    + vm_compute in E. inversion E. reflexivity.
    + apply filter_comps_idempotent. exact E.
  - vm_compute in E. discriminate.
Defined.

(** X11.  [is_comp_used] agrees with the filter: among a property's comps it
    answers true exactly for those [filter_comps] returns at the same
    clock, and it still answers true for each of them after the comps
    have been replaced by the filtered list. *)
Theorem is_comp_used_agrees (self : app.FlipFinderDashboard)
    (now : datetime.t) (p : property.Property) (out : list Comp.t) :
  app.filter_comps self now p = Py.Ok out ->
  (forall c, In c out
             <-> In c (property.comps p)
                 /\ dashboard.is_comp_used self now p c = Py.Ok true)
  /\ (forall c, In c out ->
        dashboard.is_comp_used self now (dashboard.set_comps out p) c
        = Py.Ok true).
Proof.
  unfold app.filter_comps, dashboard.is_comp_used.
  cbn [dashboard.set_comps property.square_feet].
  destruct (property.comps p) as [|c0 cs].
  - intro H. inversion H. subst. split; intro c; cbn; tauto.
  - intro H. destruct (filter_loop_kept _ _ _ H) as [M _].
    split; [exact M|]. intros c Hc. apply M. exact Hc.
Qed.

Lemma is_comp_used_agrees_witness :
  dashboard.is_comp_used Sample.dashboard Sample.noon Sample.six_comps
    (Sample.comp "Comp 1" "2024-05-01" 200000 1000 0.4) = Py.Ok true.
Proof.
  destruct (app.filter_comps Sample.dashboard Sample.noon Sample.six_comps)
    as [out|e] eqn:E.
  - destruct (is_comp_used_agrees _ _ _ _ E) as [M _].
    apply M. vm_compute in E. inversion E. left. reflexivity.
  - vm_compute in E. discriminate.
Defined.



(* ================================================================== *)
(** * The dashboard's analysis loop *)

Lemma set_comps_same (p : property.Property) :
  dashboard.set_comps (property.comps p) p = p.
Proof. destruct p. reflexivity. Qed.

Lemma filter_loop_is_filter (keep : Comp.t -> Py.result bool)
    (comps out : list Comp.t) :
  app.filter_loop keep comps = Py.Ok out ->
  out = filter (fun c => match keep c with
                         | Py.Ok b => b
                         | Py.Raise _ => false
                         end) comps.
Proof.
  revert out. induction comps as [|c comps IH]; intros out H.
  - cbn in H. inversion H. reflexivity.
  - cbn [app.filter_loop] in H. cbn [filter].
    destruct (keep c) as [b|e]; [|discriminate]. cbn [Py.bind] in H.
    destruct (app.filter_loop keep comps) as [tail|e]; [|discriminate].
    cbn [Py.bind] in H. inversion H. rewrite <- (IH tail eq_refl).
    reflexivity.
Qed.

Lemma filter_comps_sublist (self : app.FlipFinderDashboard)
    (now : datetime.t) (p : property.Property) (out : list Comp.t) :
  app.filter_comps self now p = Py.Ok out ->
  exists keep, out = filter keep (property.comps p).
Proof.
  unfold app.filter_comps. destruct (property.comps p) as [|c cs].
  - intro H. inversion H. exists (fun _ => true). reflexivity.
  - intro H. eexists. apply (filter_loop_is_filter _ _ _ H).
Qed.

(** The filter reads the comps, the square footage and the day of the
    clock, nothing else. *)
Lemma filter_comps_ext (self : app.FlipFinderDashboard)
    (now now' : datetime.t) (p q : property.Property) :
  property.comps q = property.comps p ->
  property.square_feet q = property.square_feet p ->
  datetime.toordinal now' = datetime.toordinal now ->
  app.filter_comps self now' q = app.filter_comps self now p.
Proof.
  intros Ec Es Ed. unfold app.filter_comps, datetime.strftime_Ymd.
  cbn [datetime.sub_days datetime.toordinal]. rewrite Ec, Es, Ed.
  reflexivity.
Qed.

(** What [analyze_deal] leaves of the property, and what it returns. *)
Lemma analyze_deal_state (s : settings.t) (p : property.Property)
    (arv repair_costs min_roi : Q) :
  let p' := fst (deal_analyzer.analyze_deal s p arv repair_costs min_roi) in
  Spec.same_listing p p'
  /\ forall d,
       snd (deal_analyzer.analyze_deal s p arv repair_costs min_roi) = Py.Ok d ->
       Deal.property_id d = property.mls_id p.
Proof.
  cbv zeta. unfold deal_analyzer.analyze_deal, Py.truediv.
  cbn [property.list_price property.set_estimated_arv
       property.set_estimated_repair_cost property.set_estimated_profit
       property.set_estimated_roi].
  match goal with |- context [Qeq_bool ?t 0] => destruct (Qeq_bool t 0) end;
    cbn [fst snd]; unfold Spec.same_listing; cbn;
    (repeat split; try reflexivity); intros d H; inversion H; reflexivity.
Qed.

Lemma same_listing_set_comps (p p' : property.Property) (cs : list Comp.t) :
  Spec.same_listing (dashboard.set_comps cs p) p' ->
  Spec.same_listing p (dashboard.set_comps (property.comps p) p')
  /\ property.comps p' = cs /\ property.mls_id p' = property.mls_id p.
Proof.
  unfold Spec.same_listing. cbn. intuition.
Qed.

(** One turn of the loop: the frame, the comps, and the skip rule. *)
Lemma analyze_property_turn (self : app.FlipFinderDashboard)
    (now : datetime.t) (s : settings.t) (p : property.Property) :
  let p' := fst (dashboard.analyze_property self now s p) in
  let r := snd (dashboard.analyze_property self now s p) in
  Spec.same_listing p (dashboard.set_comps (property.comps p) p')
  /\ (exists keep, property.comps p' = filter keep (property.comps p))
  /\ (r = Py.Ok None -> (List.length (property.comps p') < 3)%nat)
  /\ (forall d, r = Py.Ok (Some d) ->
        (3 <= List.length (property.comps p'))%nat
        /\ Deal.property_id d = property.mls_id p').
Proof.
  cbv zeta. unfold dashboard.analyze_property.
  assert (S0 : Spec.same_listing p (dashboard.set_comps (property.comps p) p)).
  { rewrite set_comps_same. unfold Spec.same_listing. repeat split. }
  destruct (app.filter_comps self now p) as [out|e] eqn:F; cbn [fst snd].
  2:{ split; [exact S0|]. split.
      - exists (fun _ => true). clear. induction (property.comps p) as [|c l IH];
          [reflexivity | cbn; congruence].
      - split; [discriminate|]. intros d H. discriminate. }
  destruct (filter_comps_sublist _ _ _ _ F) as [keep K].
  assert (S1 : Spec.same_listing p
                 (dashboard.set_comps (property.comps p)
                    (dashboard.set_comps out p))).
  { unfold Spec.same_listing. cbn. repeat split. }
  destruct (List.length out <? 3)%nat eqn:L; cbn [fst snd].
  { split; [exact S1|]. split; [exists keep; exact K|].
    split; [intros _; apply Nat.ltb_lt in L; exact L|].
    intros d H. discriminate. }
  apply Nat.ltb_ge in L.
  destruct (app.calculate_arv self (dashboard.set_comps out p)) as [arv|e];
    cbn [fst snd].
  2:{ split; [exact S1|]. split; [exists keep; exact K|].
      split; [discriminate|]. intros d H. discriminate. }
  destruct (analyze_deal_state s (dashboard.set_comps out p) arv
              (deal_analyzer.estimate_repairs s (dashboard.set_comps out p))
              (app.min_roi self)) as [Fr Id].
  destruct (deal_analyzer.analyze_deal s (dashboard.set_comps out p) arv
              (deal_analyzer.estimate_repairs s (dashboard.set_comps out p))
              (app.min_roi self)) as [p2 outcome].
  cbn [fst snd] in *.
  destruct (same_listing_set_comps _ _ _ Fr) as [A [B C]].
  split; [exact A|]. split; [exists keep; rewrite B; exact K|].
  destruct outcome as [d0|e]; cbn [Py.bind].
  - split; [discriminate|]. intros d H. inversion H. subst d0.
    split; [rewrite B; exact L|]. rewrite (Id d eq_refl), C. reflexivity.
  - split; [discriminate|]. intros d H. discriminate.
Qed.

(** One turn of the loop that does not raise: the comps become the
    filter's output, and a skipped property is changed in nothing
    else. *)
Lemma analyze_property_comps (self : app.FlipFinderDashboard)
    (now : datetime.t) (s : settings.t) (p p' : property.Property)
    (appended : option Deal.t) :
  dashboard.analyze_property self now s p = (p', Py.Ok appended) ->
  app.filter_comps self now p = Py.Ok (property.comps p')
  /\ (appended = None -> p' = dashboard.set_comps (property.comps p') p).
Proof.
  unfold dashboard.analyze_property.
  destruct (app.filter_comps self now p) as [out|e] eqn:F; [|discriminate].
  destruct (List.length out <? 3)%nat.
  - intro H. inversion H; subst. cbn. split; reflexivity.
  - destruct (app.calculate_arv self (dashboard.set_comps out p)) as [arv|e];
      [|discriminate].
    destruct (analyze_deal_state s (dashboard.set_comps out p) arv
                (deal_analyzer.estimate_repairs s (dashboard.set_comps out p))
                (app.min_roi self)) as [Fr _].
    destruct (deal_analyzer.analyze_deal s (dashboard.set_comps out p) arv
                (deal_analyzer.estimate_repairs s (dashboard.set_comps out p))
                (app.min_roi self)) as [p2 outcome].
    cbn [fst] in Fr.
    destruct (same_listing_set_comps _ _ _ Fr) as [_ [B _]].
    destruct outcome as [d|e]; cbn [Py.bind]; [|discriminate].
    intro H. inversion H; subst. split; [reflexivity | discriminate].
Qed.

(** X13.  When [analyze_deals] returns, it has overwritten the comps of
    every property with what [filter_comps] returned for it in its turn
    of the loop: the property at position [i] keeps its position and
    every field outside the comps and the four analysis fields, and its
    comps are the output of the filter at the clock of turn [i].  A
    property left with fewer than three comps is changed in nothing
    else: the comps the filter rejected are gone from it although no
    deal was made for it. *)
Theorem analyze_deals_filters_in_place (self : app.FlipFinderDashboard)
    (c : dashboard.CostParams) (clock : nat -> datetime.t) (s s' : settings.t)
    (properties properties' : list property.Property) (deals : list Deal.t) :
  dashboard.analyze_deals self c clock s properties
  = (s', properties', Py.Ok deals) ->
  List.length properties' = List.length properties
  /\ forall i p p',
       nth_error properties i = Some p ->
       nth_error properties' i = Some p' ->
       app.filter_comps self (clock i) p = Py.Ok (property.comps p')
       /\ Spec.same_listing p (dashboard.set_comps (property.comps p) p')
       /\ ((List.length (property.comps p') < 3)%nat ->
           p' = dashboard.set_comps (property.comps p') p).
Proof.
  unfold dashboard.analyze_deals.
  set (s0 := dashboard.apply_parameters c s).
  assert (G : forall props i props' ds,
            dashboard.analyze_loop self clock s0 i props
            = (props', Py.Ok ds) ->
            List.length props' = List.length props
            /\ forall k p p',
                 nth_error props k = Some p ->
                 nth_error props' k = Some p' ->
                 app.filter_comps self (clock (i + k)%nat) p
                 = Py.Ok (property.comps p')
                 /\ Spec.same_listing p
                      (dashboard.set_comps (property.comps p) p')
                 /\ ((List.length (property.comps p') < 3)%nat ->
                     p' = dashboard.set_comps (property.comps p') p)).
  { clearbody s0. clear.
    induction props as [|q rest IH]; intros i props' ds E.
    - cbn in E. inversion E. split; [reflexivity|].
      intros k p p' Hp. destruct k; discriminate.
    - cbn [dashboard.analyze_loop] in E.
      destruct (analyze_property_turn self (clock i) s0 q) as [Fr [_ [_ Sm]]].
      pose proof (analyze_property_comps self (clock i) s0 q) as Cm.
      destruct (dashboard.analyze_property self (clock i) s0 q)
        as [q1 [od|e]]; cbn [fst snd] in *; [|discriminate].
      destruct (dashboard.analyze_loop self clock s0 (S i) rest)
        as [rest' [ds'|e]] eqn:R; cbn [Py.bind] in E; [|discriminate].
      inversion E; subst; clear E.
      destruct (IH (S i) rest' ds' R) as [IL IN].
      split; [cbn [List.length]; rewrite IL; reflexivity|].
      intros k p p' Hp Hp'. destruct k as [|k].
      + cbn in Hp, Hp'. inversion Hp; inversion Hp'; subst.
        rewrite Nat.add_0_r.
        destruct (Cm p' od eq_refl) as [F Sk].
        split; [exact F|]. split; [exact Fr|].
        intro L. apply Sk. destruct od as [d|]; [|reflexivity].
        destruct (Sm d eq_refl) as [G _]. lia.
      + cbn in Hp, Hp'. rewrite Nat.add_succ_r.
        apply (IN k p p' Hp Hp'). }
  destruct (dashboard.analyze_loop self clock s0 0 properties)
    as [props' r] eqn:E.
  intro H. injection H as Hs Hp Hr. subst props' r.
  apply (G properties 0%nat properties' deals E).
Qed.

Lemma analyze_deals_filters_in_place_witness :
  exists s' properties' deals,
    dashboard.analyze_deals Sample.dashboard Cases.costs Cases.at_noon
      settings.default Cases.market = (s', properties', Py.Ok deals)
    /\ map (fun p => map Comp.address (property.comps p)) properties'
       = [["Comp 1"; "Comp 2"; "Comp 3"; "Comp 4"]; ["Comp 1"]]%string
    /\ map Deal.property_id deals = ["MD1001"]%string
    /\ nth_error properties' 1
       = Some (dashboard.set_comps
                 [Sample.comp "Comp 1" "2024-05-01" 200000 1000 0.4]
                 Cases.thin_market).
Proof.
  destruct (dashboard.analyze_deals Sample.dashboard Cases.costs
              Cases.at_noon settings.default Cases.market)
    as [[s' properties'] [deals|e]] eqn:E.
  - exists s', properties', deals. split; [reflexivity|].
    destruct (analyze_deals_filters_in_place _ _ _ _ _ _ _ _ E) as [L N].
    assert (V : map (fun p => map Comp.address (property.comps p)) properties'
                = [["Comp 1"; "Comp 2"; "Comp 3"; "Comp 4"]; ["Comp 1"]]%string
                /\ map Deal.property_id deals = ["MD1001"]%string).
    { vm_compute in E. injection E as Hs Hp Hd. subst.
      split; vm_compute; reflexivity. }
    destruct V as [V1 V2]. split; [exact V1|]. split; [exact V2|].
    destruct properties' as [|p0 [|p1 rest]]; try discriminate L.
    cbn [nth_error]. f_equal.
    destruct (N 1%nat Cases.thin_market p1 eq_refl eq_refl) as [F [_ Sk]].
    cbn in V1. inversion V1 as [[V0 V1' V2']].
    assert (Lp : (List.length (property.comps p1) < 3)%nat).
    { rewrite <- (length_map Comp.address), V1'. cbn. lia. }
    assert (F' : app.filter_comps Sample.dashboard (Cases.at_noon 1)
                   Cases.thin_market
                 = Py.Ok [Sample.comp "Comp 1" "2024-05-01" 200000 1000 0.4])
      by (vm_compute; reflexivity).
    rewrite F' in F. injection F as Fc.
    rewrite (Sk Lp), <- Fc. reflexivity.
  - vm_compute in E. discriminate.
Defined.

(** X14.  When [analyze_deals] returns, its deals are, in order, one for each
    property that is left with at least three comps; properties left
    with fewer yield none. *)
Theorem analyze_deals_skip_rule (self : app.FlipFinderDashboard)
    (c : dashboard.CostParams) (clock : nat -> datetime.t) (s s' : settings.t)
    (properties properties' : list property.Property) (deals : list Deal.t) :
  dashboard.analyze_deals self c clock s properties
  = (s', properties', Py.Ok deals) ->
  map Deal.property_id deals
  = map property.mls_id
      (filter (fun p' => (3 <=? List.length (property.comps p'))%nat)
              properties')
  /\ (List.length deals <= List.length properties)%nat.
Proof.
  unfold dashboard.analyze_deals.
  set (s0 := dashboard.apply_parameters c s).
  assert (G : forall i props' ds,
            dashboard.analyze_loop self clock s0 i properties
            = (props', Py.Ok ds) ->
            map Deal.property_id ds
            = map property.mls_id
                (filter (fun p' => (3 <=? List.length (property.comps p'))%nat)
                        props')
            /\ (List.length ds <= List.length properties)%nat).
  { clearbody s0. clear s s' properties' deals.
    induction properties as [|p rest IH]; intros i props' ds E.
    - cbn in E. inversion E. split; [reflexivity | cbn; lia].
    - cbn [dashboard.analyze_loop] in E.
      destruct (analyze_property_turn self (clock i) s0 p) as [_ [_ [N Sm]]].
      destruct (dashboard.analyze_property self (clock i) s0 p)
        as [p1 [od|e]]; cbn [fst snd] in *; [|discriminate].
      destruct (dashboard.analyze_loop self clock s0 (S i) rest)
        as [rest' [ds'|e]] eqn:R; cbn [Py.bind] in E; [|discriminate].
      inversion E; subst; clear E.
      destruct (IH (S i) rest' ds' R) as [IM IL].
      cbn [filter].
      change (List.length (p :: rest)) with (S (List.length rest)).
      destruct od as [d|].
      + destruct (Sm d eq_refl) as [G Id].
        apply Nat.leb_le in G. rewrite G. cbn [map]. rewrite Id, IM.
        split; [reflexivity | cbn [List.length]; lia].
      + pose proof (N eq_refl) as G. apply Nat.leb_gt in G. rewrite G.
        split; [exact IM | lia]. }
  destruct (dashboard.analyze_loop self clock s0 0 properties)
    as [props' r] eqn:E.
  intro H. injection H as Hs Hp Hr. subst props' r.
  apply (G 0%nat properties' deals E).
Qed.

Lemma analyze_deals_skip_rule_witness :
  exists s' properties' deals,
    dashboard.analyze_deals Sample.dashboard Cases.costs Cases.at_noon
      settings.default Cases.listings = (s', properties', Py.Ok deals)
    /\ map Deal.property_id deals = ["MD1001"]%string
    /\ map (fun p => List.length (property.comps p)) properties'
       = [4; 0]%nat.
Proof.
  destruct (dashboard.analyze_deals Sample.dashboard Cases.costs
              Cases.at_noon settings.default Cases.listings)
    as [[s' properties'] [deals|e]] eqn:E.
  - exists s', properties', deals. split; [reflexivity|].
    destruct (analyze_deals_skip_rule _ _ _ _ _ _ _ _ E) as [M _].
    vm_compute in E. inversion E. subst. split; [|reflexivity].
    rewrite M. reflexivity.
  - vm_compute in E. discriminate.
Defined.

Lemma estimate_repairs_ext (s : settings.t) (p q : property.Property) :
  Spec.same_listing p q ->
  deal_analyzer.estimate_repairs s q = deal_analyzer.estimate_repairs s p.
Proof.
  unfold Spec.same_listing. intro H.
  decompose [and] H. clear H.
  unfold deal_analyzer.estimate_repairs.
  repeat match goal with
         | E : _ q = _ p |- _ => rewrite E; clear E
         end.
  reflexivity.
Qed.

Lemma app_calculate_arv_ext (self : app.FlipFinderDashboard)
    (p q : property.Property) :
  Spec.same_listing p q ->
  app.calculate_arv self q = app.calculate_arv self p.
Proof.
  unfold Spec.same_listing. intro H.
  decompose [and] H. clear H.
  unfold app.calculate_arv.
  repeat match goal with
         | E : _ q = _ p |- _ => rewrite E; clear E
         end.
  reflexivity.
Qed.

Lemma set_comps_fixed (p : property.Property) (cs : list Comp.t) :
  property.comps p = cs -> dashboard.set_comps cs p = p.
Proof. intros <-. apply set_comps_same. Qed.

(** A turn that returned normally, run again on the property it left
    and on the same day, leaves the property as it is and appends the
    same deal, or none again. *)
Lemma analyze_property_again (self : app.FlipFinderDashboard)
    (now now' : datetime.t) (s : settings.t) (p p' : property.Property)
    (appended : option Deal.t) :
  dashboard.analyze_property self now s p = (p', Py.Ok appended) ->
  datetime.toordinal now' = datetime.toordinal now ->
  dashboard.analyze_property self now' s p' = (p', Py.Ok appended).
Proof.
  intros H D. unfold dashboard.analyze_property in H.
  destruct (app.filter_comps self now p) as [out|e] eqn:F; [|discriminate].
  destruct (List.length out <? 3)%nat eqn:L.
  - inversion H; subst; clear H. unfold dashboard.analyze_property.
    rewrite (filter_comps_refilter self now now' p
               (dashboard.set_comps out p) out F eq_refl eq_refl D).
    rewrite L. reflexivity.
  - destruct (app.calculate_arv self (dashboard.set_comps out p))
      as [arv|e] eqn:A; [|discriminate].
    set (p1 := dashboard.set_comps out p) in *.
    set (rc := deal_analyzer.estimate_repairs s p1) in *.
    destruct (analyze_deal_state s p1 arv rc (app.min_roi self)) as [Fr _].
    pose proof (analyze_deal_again s p1 arv rc (app.min_roi self)) as Ag.
    destruct (deal_analyzer.analyze_deal s p1 arv rc (app.min_roi self))
      as [p2 outcome] eqn:E.
    cbn [fst] in Fr, Ag.
    destruct outcome as [d|e]; [|discriminate].
    cbn [Py.bind] in H. inversion H; subst p' appended; clear H.
    assert (C2 : property.comps p2 = out).
    { unfold Spec.same_listing in Fr. decompose [and] Fr.
      match goal with E : property.comps p2 = _ |- _ => rewrite E end.
      reflexivity. }
    assert (S2 : property.square_feet p2 = property.square_feet p).
    { unfold Spec.same_listing in Fr. decompose [and] Fr.
      match goal with E : property.square_feet p2 = _ |- _ => rewrite E end.
      reflexivity. }
    unfold dashboard.analyze_property.
    rewrite (filter_comps_refilter self now now' p p2 out F C2 S2 D).
    rewrite L, (set_comps_fixed p2 out C2).
    rewrite (app_calculate_arv_ext self p1 p2 Fr), A.
    rewrite (estimate_repairs_ext s p1 p2 Fr). fold rc.
    rewrite Ag. reflexivity.
Qed.

(** X15.  Running [analyze_deals] again, with the same parameters and with
    the clock on the same days, on the settings and the properties that
    a run which returned normally has left, changes nothing and returns
    the same deals. *)
Theorem analyze_deals_rerun (self : app.FlipFinderDashboard)
    (c : dashboard.CostParams) (clock clock' : nat -> datetime.t)
    (s s' : settings.t) (properties properties' : list property.Property)
    (deals : list Deal.t) :
  dashboard.analyze_deals self c clock s properties
  = (s', properties', Py.Ok deals) ->
  (forall i, datetime.toordinal (clock' i) = datetime.toordinal (clock i)) ->
  dashboard.analyze_deals self c clock' s' properties'
  = (s', properties', Py.Ok deals).
Proof.
  unfold dashboard.analyze_deals. intros H D.
  set (s0 := dashboard.apply_parameters c s) in *.
  assert (G : forall i props props' ds,
            dashboard.analyze_loop self clock s0 i props
            = (props', Py.Ok ds) ->
            dashboard.analyze_loop self clock' s0 i props'
            = (props', Py.Ok ds)).
  { clearbody s0. clear H.
    intros i props. revert i.
    induction props as [|p rest IH]; intros i props' ds E.
    - cbn in E. inversion E. reflexivity.
    - cbn [dashboard.analyze_loop] in E.
      destruct (dashboard.analyze_property self (clock i) s0 p)
        as [p1 [od|e]] eqn:T; [|discriminate].
      destruct (dashboard.analyze_loop self clock s0 (S i) rest)
        as [rest' [ds'|e]] eqn:R; cbn [Py.bind] in E; [|discriminate].
      inversion E; subst; clear E.
      cbn [dashboard.analyze_loop].
      rewrite (analyze_property_again self (clock i) (clock' i) s0 p p1 od
                 T (D i)).
      rewrite (IH (S i) rest' ds' R). reflexivity. }
  destruct (dashboard.analyze_loop self clock s0 0 properties)
    as [props' r] eqn:E.
  injection H as Hs Hp Hr. subst props' r s'.
  assert (I : dashboard.apply_parameters c s0 = s0) by reflexivity.
  rewrite I, (G 0%nat properties properties' deals E). reflexivity.
Qed.

Lemma analyze_deals_rerun_witness :
  exists s' properties' deals,
    dashboard.analyze_deals Sample.dashboard Cases.costs Cases.at_noon
      settings.default Cases.listings = (s', properties', Py.Ok deals)
    /\ dashboard.analyze_deals Sample.dashboard Cases.costs
         Cases.an_hour_later s' properties' = (s', properties', Py.Ok deals).
Proof.
  destruct (dashboard.analyze_deals Sample.dashboard Cases.costs
              Cases.at_noon settings.default Cases.listings)
    as [[s' properties'] [deals|e]] eqn:E.
  - exists s', properties', deals. split; [reflexivity|].
    apply (analyze_deals_rerun _ _ _ _ _ _ _ _ _ E). intro i. reflexivity.
  - vm_compute in E. discriminate.
Defined.

(* ================================================================== *)
(** * Further properties of the scorer *)

Lemma contribution_range (weight value lo hi : Q) :
  0 <= weight -> lo <= value <= hi ->
  0 <= Spec.contribution weight value lo hi <= weight.
Proof.
  intros W [L U]. unfold Spec.contribution.
  destruct (Qeq_bool hi lo) eqn:E; [split; lra|].
  apply Qeq_bool_neq in E.
  assert (P : 0 < hi - lo) by lra.
  set (t := (value - lo) / (hi - lo)).
  assert (T0 : 0 <= t) by (apply Qle_shift_div_l; lra).
  assert (T1 : t <= 1) by (apply Qle_shift_div_r; lra).
  assert (0 <= weight * t) by (apply Qmult_le_0_compat; assumption).
  assert (0 <= weight * (1 - t)) by (apply Qmult_le_0_compat; lra).
  split; lra.
Qed.

Lemma inverted_contribution_range (weight value lo hi : Q) :
  0 <= weight -> lo <= value <= hi ->
  0 <= Spec.inverted_contribution weight value lo hi <= weight.
Proof.
  intros W [L U]. unfold Spec.inverted_contribution.
  destruct (Qeq_bool hi lo) eqn:E; [split; lra|].
  apply Qeq_bool_neq in E.
  assert (P : 0 < hi - lo) by lra.
  set (t := (value - lo) / (hi - lo)).
  assert (T0 : 0 <= t) by (apply Qle_shift_div_l; lra).
  assert (T1 : t <= 1) by (apply Qle_shift_div_r; lra).
  assert (0 <= weight * t) by (apply Qmult_le_0_compat; assumption).
  assert (0 <= weight * (1 - t)) by (apply Qmult_le_0_compat; lra).
  split; lra.
Qed.

Lemma metric_in_range (metric : Deal.t -> Q) (deals : list Deal.t)
    (d : Deal.t) :
  In d deals ->
  property_scorer.min_or_0 (map metric deals) <= metric d
  <= property_scorer.max_or_0 (map metric deals).
Proof.
  intro I.
  assert (N : map metric deals <> [])
    by (destruct deals; [destruct I | discriminate]).
  destruct (min_or_0_spec _ N) as [_ L].
  destruct (max_or_0_spec _ N) as [_ U].
  split; [apply L | apply U]; apply in_map; exact I.
Qed.

(** X16.  With non-negative weights, the score of every deal of the batch
    lies between 0 and the sum of the six weights: 105 under the shipped
    configuration. *)
Theorem score_of_bounds (s : settings.t) (deals : list Deal.t) (d : Deal.t) :
  let w := settings.SCORING s in
  In d deals ->
  0 <= settings.profit_weight w ->
  0 <= settings.roi_weight w ->
  0 <= settings.repair_cost_weight w ->
  0 <= settings.dom_weight w ->
  0 <= settings.opportunity_keywords_weight w ->
  0 <= settings.meets_70_rule_weight w ->
  0 <= property_scorer.score_of s deals d
  /\ property_scorer.score_of s deals d
     <= settings.profit_weight w + settings.roi_weight w
        + settings.repair_cost_weight w + settings.dom_weight w
        + settings.opportunity_keywords_weight w
        + settings.meets_70_rule_weight w.
Proof.
  intros w I Wp Wr Wc Wd Wk W7.
  assert (N : deals <> []) by (destruct deals; [destruct I | discriminate]).
  rewrite (score_of_sum s deals d N Wk). cbv zeta. fold w.
  pose proof (contribution_range _ _ _ _ Wp
                (metric_in_range Deal.potential_profit deals d I)) as [P0 P1].
  pose proof (contribution_range _ _ _ _ Wr
                (metric_in_range Deal.roi deals d I)) as [R0 R1].
  pose proof (inverted_contribution_range _ _ _ _ Wc
                (metric_in_range Deal.repair_costs deals d I)) as [C0 C1].
  pose proof (contribution_range _ _ _ _ Wd
                (metric_in_range property_scorer.dom deals d I)) as [D0 D1].
  assert (K : 0 <= Spec.keyword_bonus s d
              <= settings.opportunity_keywords_weight w).
  { unfold Spec.keyword_bonus. fold w. split.
    - apply Q.min_glb; [exact Wk | apply len_nonneg].
    - apply Q.le_min_l. }
  assert (B : 0 <= Spec.rule_bonus s d <= settings.meets_70_rule_weight w).
  { unfold Spec.rule_bonus. fold w.
    destruct (Deal.meets_70_percent_rule d); split; lra. }
  destruct K as [K0 K1]. destruct B as [B0 B1].
  split; lra.
Qed.

Lemma score_of_bounds_witness :
  0 <= property_scorer.score_of settings.default Sample.batch
         (Sample.deal "B" ["fixer"; "tlc"]%string true)
  /\ property_scorer.score_of settings.default Sample.batch
       (Sample.deal "B" ["fixer"; "tlc"]%string true)
     <= 40 + 30 + 15 + 10 + 5 + 5.
Proof.
  apply (score_of_bounds settings.default Sample.batch);
    try discriminate.
  right. left. reflexivity.
Defined.

(** The score does not read scores assigned earlier. *)
Lemma score_of_ignores_scores (s : settings.t) (deals : list Deal.t)
    (assigned : Deal.t -> Q) (v : Q) (d : Deal.t) :
  property_scorer.score_of s
    (map (fun x => Deal.set_score (assigned x) x) deals)
    (Deal.set_score v d)
  = property_scorer.score_of s deals d.
Proof.
  unfold property_scorer.score_of. rewrite !map_map.
  reflexivity.
Qed.

(** X17.  Scoring is repeatable: scoring the batch whose deals already carry
    the scores of a first pass (the scorer writes each score into the
    deal it is given, so a second call on the same list sees them)
    assigns the same scores and returns the same ranking. *)
Theorem score_deals_rescore (s : settings.t) (deals : list Deal.t) :
  let scored :=
    map (fun d => Deal.set_score (property_scorer.score_of s deals d) d)
        deals in
  property_scorer.score_deals s scored = property_scorer.score_deals s deals
  /\ forall d, In d (property_scorer.score_deals s deals) ->
       Deal.score d = Some (property_scorer.score_of s deals d)
       /\ Deal.score d = Some (property_scorer.score_of s scored d).
Proof.
  cbv zeta. split.
  - unfold property_scorer.score_deals.
    destruct deals as [|d0 rest]; [reflexivity|].
    set (deals := d0 :: rest).
    change (map (fun d => Deal.set_score (property_scorer.score_of s deals d) d)
                deals)
      with (Deal.set_score (property_scorer.score_of s deals d0) d0
            :: map (fun d => Deal.set_score
                               (property_scorer.score_of s deals d) d) rest)
      at 1.
    cbv iota beta.
    fold (map (fun d => Deal.set_score (property_scorer.score_of s deals d) d)
              deals).
    f_equal. rewrite map_map. apply map_ext. intro d.
    rewrite (score_of_ignores_scores s deals
               (property_scorer.score_of s deals)). reflexivity.
  - intros d I.
    assert (J : In d (map (fun x => Deal.set_score
                                      (property_scorer.score_of s deals x) x)
                          deals)).
    { unfold property_scorer.score_deals in I.
      destruct deals as [|d0 rest]; [destruct I|].
      eapply Permutation_in; [apply sort_desc_perm | exact I]. }
    apply in_map_iff in J. destruct J as [x [<- _]].
    rewrite (score_of_ignores_scores s deals
               (property_scorer.score_of s deals)).
    split; reflexivity.
Qed.

Lemma score_deals_rescore_witness :
  property_scorer.score_deals settings.default
    (map (fun d => Deal.set_score
                     (property_scorer.score_of settings.default
                        Sample.batch d) d)
         Sample.batch)
  = property_scorer.score_deals settings.default Sample.batch.
Proof.
  exact (proj1 (score_deals_rescore settings.default Sample.batch)).
Defined.

(* ================================================================== *)
(** * The renovation classifier and the itemised estimate *)

Lemma level_never_complete (p : property.Property) :
  repair_estimator.estimate_renovation_level p <> repair_estimator.complete.
Proof.
  unfold repair_estimator.estimate_renovation_level.
  assert (B : repair_estimator.base_level (property.age p)
              <> repair_estimator.complete).
  { unfold repair_estimator.base_level.
    destruct (property.age p) as [a|]; [|discriminate].
    destruct (50 <? a)%Z, (30 <? a)%Z, (15 <? a)%Z; discriminate. }
  repeat match goal with
         | |- context [if ?c then _ else _] => destruct c
         end; try discriminate; exact B.
Qed.

Lemma base_level_cosmetic (age : option Z) :
  repair_estimator.base_level age = repair_estimator.cosmetic
  <-> exists a, age = Some a /\ (a <= 30)%Z.
Proof.
  unfold repair_estimator.base_level. destruct age as [a|].
  - destruct (50 <? a)%Z eqn:A; [|destruct (30 <? a)%Z eqn:A'].
    + split; [discriminate|].
      intros [b [[= <-] L]]. apply Z.ltb_lt in A. lia.
    + split; [discriminate|].
      intros [b [[= <-] L]]. apply Z.ltb_lt in A'. lia.
    + split; [|destruct (15 <? a)%Z; reflexivity].
      intros _. exists a. split; [reflexivity|].
      apply Z.ltb_ge in A'. exact A'.
  - split; [discriminate|]. intros [b [[=] _]].
Qed.

(** X18.  The classifier never answers [complete], so the 100 per square foot
    rate and the [high_end] kitchen and bathroom prices are never used;
    and it answers [cosmetic] exactly for a property of known age at most
    30 with no extensive indicator, no moderate indicator and no serious
    issue (a property of unknown age is at least [moderate]). *)
Theorem estimate_renovation_level_range (p : property.Property) :
  let l := repair_estimator.estimate_renovation_level p in
  l <> repair_estimator.complete
  /\ (l = repair_estimator.cosmetic <->
      repair_estimator.extensive_count p = 0%nat
      /\ repair_estimator.moderate_count p = 0%nat
      /\ repair_estimator.serious_issues (Py.lower (property.description p))
         = 0%nat
      /\ exists a, property.age p = Some a /\ (a <= 30)%Z).
Proof.
  cbv zeta. split; [apply level_never_complete|].
  unfold repair_estimator.estimate_renovation_level.
  set (e := repair_estimator.extensive_count p).
  set (m := repair_estimator.moderate_count p).
  set (i := repair_estimator.serious_issues _).
  pose proof (base_level_cosmetic (property.age p)) as B.
  destruct (2 <=? e)%nat eqn:E2; [|destruct (2 <=? i)%nat eqn:I2]; cbn [orb].
  - split; [discriminate|].
    intros [E _]. rewrite E in E2. discriminate.
  - split; [discriminate|].
    intros [_ [_ [I _]]]. rewrite I in I2. discriminate.
  - destruct (1 <=? e)%nat eqn:E1; [|destruct (2 <=? m)%nat eqn:M2;
      [|destruct (1 <=? i)%nat eqn:I1]]; cbn [orb].
    + split; [discriminate|].
      intros [E _]. rewrite E in E1. discriminate.
    + split; [discriminate|].
      intros [_ [M _]]. rewrite M in M2. discriminate.
    + split; [discriminate|].
      intros [_ [_ [I _]]]. rewrite I in I1. discriminate.
    + destruct (1 <=? m)%nat eqn:M1.
      * destruct (repair_estimator.level_eqb _ _) eqn:L.
        -- split; [discriminate|].
           intros [_ [M _]]. rewrite M in M1. discriminate.
        -- split.
           ++ intro C. rewrite C in L. discriminate.
           ++ intros [_ [M _]]. rewrite M in M1. discriminate.
      * rewrite B.
        apply Nat.leb_gt in E1, M1, I1.
        split.
        -- intro A. repeat split; try lia. exact A.
        -- intros [_ [_ [_ A]]]. exact A.
Qed.

Ltac estimate_cases p :=
  unfold repair_items.detailed_repair_estimate;
  cbv zeta;
  unfold repair_items.roof_items, repair_items.hvac_items,
    repair_items.age_items;
  set (d := Py.lower (property.description p));
  destruct (repair_estimator.estimate_renovation_level p) eqn:L;
    [| | |contradiction];
    destruct (repair_estimator.mentions d ["roof"; "leak"; "ceiling"]%string);
    destruct (Py.str_in "new roof" d || Py.str_in "roof replaced" d);
    destruct (Py.str_in "roof leak" d || Py.str_in "roof damage" d);
    destruct (repair_estimator.mentions d
                ["hvac"; "heat"; "cooling"; "furnace";
                 "air conditioning"]%string);
    destruct (Py.str_in "new hvac" d || Py.str_in "new furnace" d);
    destruct (Py.str_in "hvac issue" d || Py.str_in "heating problem" d);
    destruct (deal_analyzer.truthy_and_gt (property.age p) 30);
    cbn [Py.bind repair_items.item_cost].

(** X19.  The itemised estimate fails on every property classified
    [extensive]: [ITEM_COSTS['kitchen']] has no ['extensive'] entry and
    the lookup raises [KeyError('extensive')].  On the two other levels
    the classifier can answer it returns an estimate of that level. *)
Theorem detailed_repair_estimate_outcome (p : property.Property) :
  match repair_estimator.estimate_renovation_level p with
  | repair_estimator.extensive =>
      repair_items.detailed_repair_estimate p
      = Py.Raise (Py.KeyError "extensive")
  | l =>
      exists r, repair_items.detailed_repair_estimate p = Py.Ok r
                /\ repair_items.overall_level r = l
  end.
Proof.
  pose proof (level_never_complete p) as N.
  estimate_cases p;
    try reflexivity;
    eexists; (split; [reflexivity|reflexivity]).
Qed.

(** X20.  When the itemised estimate returns, its base estimate is the square
    footage times the level's rate, its contingency is 10% of the base
    estimate plus the line items, and its total is that sum times
    1.1. *)
Theorem detailed_repair_estimate_total (p : property.Property)
    (r : repair_items.Repairs) :
  repair_items.detailed_repair_estimate p = Py.Ok r ->
  let subtotal :=
    repair_items.base_estimate r
    + Py.sum (PyExt.values (repair_items.line_items r)) in
  repair_items.base_sqft_cost r
  = repair_estimator.COST_LEVELS (repair_items.overall_level r)
  /\ repair_items.base_estimate r
     = property.square_feet p
       * repair_estimator.COST_LEVELS (repair_items.overall_level r)
  /\ (exists c, repair_items.contingency r = Some c /\ c == subtotal * 0.1)
  /\ repair_items.total r == subtotal * 1.1.
Proof.
  pose proof (level_never_complete p) as N.
  estimate_cases p;
    intro H; try discriminate H; injection H as <-;
    cbv zeta;
    (split; [reflexivity|]); (split; [reflexivity|]);
    (split; [eexists; split; [reflexivity|] |]);
    unfold Py.sum;
    cbn [repair_items.base_estimate repair_items.line_items
         repair_items.total repair_items.add_contingency
         repair_items.add_item PyExt.values PyExt.setitem map snd
         fold_left String.eqb Ascii.eqb Bool.eqb];
    cbn; ring.
Qed.

Lemma detailed_repair_estimate_total_witness :
  exists r,
    repair_items.detailed_repair_estimate Cases.dated_house = Py.Ok r
    /\ repair_items.overall_level r = repair_estimator.moderate
    /\ repair_items.total r
       == (repair_items.base_estimate r
           + Py.sum (PyExt.values (repair_items.line_items r))) * 1.1
    /\ repair_items.total r == 125125.
Proof.
  destruct (repair_items.detailed_repair_estimate Cases.dated_house)
    as [r|e] eqn:E.
  - exists r. split; [reflexivity|]. split; [|split].
    + vm_compute in E. inversion E. reflexivity.
    + apply (detailed_repair_estimate_total Cases.dated_house r E).
    + vm_compute in E. inversion E. reflexivity.
  - vm_compute in E. discriminate.
Defined.

(** X21.  The line items of a returned estimate: their keys are, in this
    order and without repetition, among roof, hvac, kitchen, bathrooms,
    electrical and plumbing; kitchen (15000) and bathrooms (7500 per
    bathroom, at most 3 counted) are present exactly at level moderate;
    electrical and plumbing (5000 each) exactly when the age exceeds 30;
    the roof item is absent, 2500 or 10000 and the HVAC item absent,
    1500 or 8000, and each is absent when the description says the roof,
    or the HVAC or furnace, is new. *)
Theorem detailed_repair_estimate_line_items (p : property.Property)
    (r : repair_items.Repairs) :
  repair_items.detailed_repair_estimate p = Py.Ok r ->
  let d := Py.lower (property.description p) in
  let items := repair_items.line_items r in
  let moderate :=
    repair_estimator.level_eqb (repair_items.overall_level r)
      repair_estimator.moderate in
  let old := deal_analyzer.truthy_and_gt (property.age p) 30 in
  PyExt.keys items
  = filter (fun k => Py.in_list k (PyExt.keys items))
      ["roof"; "hvac"; "kitchen"; "bathrooms"; "electrical";
       "plumbing"]%string
  /\ PyExt.lookup "kitchen" items
     = (if moderate then Some 15000 else None)
  /\ PyExt.lookup "bathrooms" items
     = (if moderate then Some (7500 * Py.min (property.bathrooms p) 3)
        else None)
  /\ PyExt.lookup "electrical" items = (if old then Some 5000 else None)
  /\ PyExt.lookup "plumbing" items = (if old then Some 5000 else None)
  /\ In (PyExt.lookup "roof" items) [None; Some 2500; Some 10000]
  /\ In (PyExt.lookup "hvac" items) [None; Some 1500; Some 8000]
  /\ (Py.str_in "new roof" d || Py.str_in "roof replaced" d = true ->
      PyExt.lookup "roof" items = None)
  /\ (Py.str_in "new hvac" d || Py.str_in "new furnace" d = true ->
      PyExt.lookup "hvac" items = None).
Proof.
  pose proof (level_never_complete p) as N.
  estimate_cases p;
    intro H; try discriminate H; injection H as <-;
    cbv zeta;
    repeat split; try reflexivity; try discriminate;
    cbn; auto.
Qed.

Lemma detailed_repair_estimate_line_items_witness :
  exists r,
    repair_items.detailed_repair_estimate Cases.dated_house = Py.Ok r
    /\ PyExt.keys (repair_items.line_items r)
       = ["roof"; "kitchen"; "bathrooms"; "electrical"; "plumbing"]%string
    /\ PyExt.lookup "kitchen" (repair_items.line_items r)
       = (if repair_estimator.level_eqb (repair_items.overall_level r)
               repair_estimator.moderate
          then Some 15000 else None).
Proof.
  destruct (repair_items.detailed_repair_estimate Cases.dated_house)
    as [r|e] eqn:E.
  - exists r. split; [reflexivity|]. split.
    + vm_compute in E. inversion E. reflexivity.
    + apply (detailed_repair_estimate_line_items Cases.dated_house r E).
  - vm_compute in E. discriminate.
Defined.

(* ================================================================== *)
(** * ZIP code cleaning *)

Lemma isdigit_not_space (c : ascii) :
  PyExt.isdigit c = true -> PyExt.isspace c = false.
Proof.
  unfold PyExt.isdigit, PyExt.isspace. cbv zeta.
  generalize (nat_of_ascii c). intros n H.
  apply andb_true_iff in H. destruct H as [L U].
  apply Nat.leb_le in L, U.
  repeat rewrite orb_false_iff. repeat split.
  - apply andb_false_iff. right. apply Nat.leb_gt. lia.
  - apply andb_false_iff. right. apply Nat.leb_gt. lia.
  - apply Nat.eqb_neq. lia.
  - apply Nat.eqb_neq. lia.
Qed.

Lemma lstrip_head (s : string) :
  PyExt.lstrip s = EmptyString
  \/ exists c t, PyExt.lstrip s = String c t /\ PyExt.isspace c = false.
Proof.
  induction s as [|c s IH]; [left; reflexivity|].
  cbn. destruct (PyExt.isspace c) eqn:E; [exact IH|].
  right. exists c, s. split; [reflexivity | exact E].
Qed.

Lemma rstrip_head (c : ascii) (t : string) :
  PyExt.isspace c = false ->
  exists t', PyExt.rstrip (String c t) = String c t'.
Proof.
  intro E. cbn. destruct (PyExt.rstrip t) as [|c' kept].
  - rewrite E. exists EmptyString. reflexivity.
  - exists (String c' kept). reflexivity.
Qed.

Lemma rstrip_idempotent (s : string) :
  PyExt.rstrip (PyExt.rstrip s) = PyExt.rstrip s.
Proof.
  induction s as [|c s IH]; [reflexivity|].
  cbn. destruct (PyExt.rstrip s) as [|c' kept] eqn:R.
  - destruct (PyExt.isspace c) eqn:E; [reflexivity|].
    cbn. rewrite E. reflexivity.
  - change (PyExt.rstrip (String c (String c' kept)))
      with (match PyExt.rstrip (String c' kept) with
            | EmptyString =>
                if PyExt.isspace c then EmptyString else String c EmptyString
            | String c'' kept' => String c (String c'' kept')
            end).
    rewrite IH. reflexivity.
Qed.

Lemma strip_idempotent (s : string) :
  PyExt.strip (PyExt.strip s) = PyExt.strip s.
Proof.
  unfold PyExt.strip.
  destruct (lstrip_head s) as [E | [c [t [E N]]]]; rewrite E.
  - reflexivity.
  - destruct (rstrip_head c t N) as [t' R].
    rewrite R at 1. cbn [PyExt.lstrip]. rewrite N.
    rewrite <- R. apply rstrip_idempotent.
Qed.

Lemma rstrip_no_space (s : string) :
  forallb (fun c => negb (PyExt.isspace c)) (list_ascii_of_string s) = true ->
  PyExt.rstrip s = s.
Proof.
  induction s as [|c s IH]; [reflexivity|].
  cbn. intro H. apply andb_true_iff in H. destruct H as [C H].
  rewrite (IH H). destruct s; [|reflexivity].
  apply negb_true_iff in C. rewrite C. reflexivity.
Qed.

Lemma match_digits_shape (n : nat) (s m : string) :
  PyExt.match_digits n s = Some m ->
  String.length m = n
  /\ forallb PyExt.isdigit (list_ascii_of_string m) = true
  /\ String.prefix m s = true
  /\ PyExt.match_digits n m = Some m.
Proof.
  revert s m. induction n as [|n IH]; intros s m H.
  - cbn in H. injection H as <-. repeat split. destruct s; reflexivity.
  - cbn in H. destruct s as [|c s]; [discriminate|].
    destruct (PyExt.isdigit c) eqn:D; [|discriminate].
    destruct (PyExt.match_digits n s) as [m'|] eqn:M; [|discriminate].
    injection H as <-. destruct (IH s m' M) as [L [F [P R]]].
    repeat split.
    + cbn. rewrite L. reflexivity.
    + cbn. rewrite D, F. reflexivity.
    + cbn. destruct (ascii_dec c c) as [_|C]; [exact P | now destruct C].
    + cbn. rewrite D, R. reflexivity.
Qed.

Lemma digits_strip (m : string) :
  forallb PyExt.isdigit (list_ascii_of_string m) = true ->
  PyExt.strip m = m.
Proof.
  intro F. unfold PyExt.strip.
  assert (L : PyExt.lstrip m = m).
  { destruct m as [|c m]; [reflexivity|].
    cbn in F. apply andb_true_iff in F. destruct F as [D _].
    cbn. rewrite (isdigit_not_space c D). reflexivity. }
  rewrite L. apply rstrip_no_space.
  clear L. induction m as [|c m IH]; [reflexivity|].
  cbn in F |- *. apply andb_true_iff in F. destruct F as [D F].
  rewrite (isdigit_not_space c D), (IH F). reflexivity.
Qed.

(** X22.  Cleaning a ZIP code is idempotent, its result carries no
    surrounding white space, and the result is either the five leading
    digits of the stripped input or, when the stripped input does not
    start with five digits, the stripped input itself, whatever its
    length (so not always a 5-digit string). *)
Theorem clean_zip_code_idempotent (z : data_cleaner.zip_input) :
  let out := data_cleaner.clean_zip_code z in
  let stripped := PyExt.strip (data_cleaner.str z) in
  data_cleaner.clean_zip_code (data_cleaner.ZipStr out) = out
  /\ PyExt.strip out = out
  /\ (out = EmptyString
      \/ (String.length out = 5%nat
          /\ forallb PyExt.isdigit (list_ascii_of_string out) = true
          /\ String.prefix out stripped = true)
      \/ (out = stripped /\ PyExt.match_digits 5 stripped = None)).
Proof.
  cbv zeta.
  set (stripped := PyExt.strip (data_cleaner.str z)).
  assert (C : data_cleaner.clean_zip_code z = EmptyString
              \/ (exists m, PyExt.match_digits 5 stripped = Some m
                            /\ data_cleaner.clean_zip_code z = m)
              \/ (PyExt.match_digits 5 stripped = None
                  /\ data_cleaner.clean_zip_code z = stripped)).
  { unfold data_cleaner.clean_zip_code. fold stripped.
    destruct (negb (data_cleaner.truthy z)); [left; reflexivity|].
    cbv zeta.
    destruct (PyExt.match_digits 5 stripped) as [m|];
      [right; left; exists m | right; right]; split; reflexivity. }
  destruct C as [E | [[m [M E]] | [M E]]]; rewrite E.
  - repeat split. left. reflexivity.
  - destruct (match_digits_shape _ _ _ M) as [L [F [P R]]].
    pose proof (digits_strip m F) as S.
    split; [|split; [exact S|right; left; auto]].
    unfold data_cleaner.clean_zip_code.
    destruct m as [|c m]; [discriminate L|].
    cbn [data_cleaner.truthy data_cleaner.str String.eqb negb].
    cbv zeta. rewrite S, R. reflexivity.
  - split; [|split; [apply strip_idempotent|right; right; auto]].
    unfold data_cleaner.clean_zip_code.
    cbn [data_cleaner.truthy data_cleaner.str].
    destruct (negb (negb (stripped =? "")%string)) eqn:T; cbv zeta.
    + apply negb_true_iff, negb_false_iff, String.eqb_eq in T.
      symmetry. exact T.
    + unfold stripped at 1 2. rewrite strip_idempotent. fold stripped.
      rewrite M. reflexivity.
Qed.
